(** * mkch/asserting: the condition and equality subsystem

    A shallow embedding of package [asserting] (and of its package [cond])
    together with the part of the Go run time it rests on: interface values
    with a dynamic type, the operator [==] on them, the functions of package
    [reflect] the code calls, and [fmt.Sprintf] for the verbs it uses.

    The sources hold two states of asserting.go; the development follows
    the later one, which has [eq], the untyped values and the fatal flag of
    [hasError]. *)

From Stdlib Require Import ZArith List String Ascii Bool Lia.
From Stdlib Require Import Floats.SpecFloat.
From Stdlib Require DecimalString.
Import ListNotations.

Local Open Scope string_scope.
Local Open Scope Z_scope.

(* ================================================================== *)
(** * Package reflect: kinds and type descriptors *)
(* ================================================================== *)

Module reflect.

(** [reflect.Kind], in the order of the Go declaration. *)
Inductive Kind : Set :=
| Invalid | Bool
| Int | Int8 | Int16 | Int32 | Int64
| Uint | Uint8 | Uint16 | Uint32 | Uint64 | Uintptr
| Float32 | Float64 | Complex64 | Complex128
| Array | Chan | Func | Interface | Map | Ptr | Slice
| String | Struct | UnsafePointer.

Definition Kind_eq_dec (a b : Kind) : {a = b} + {a <> b}.
Proof. decide equality. Defined.

Definition Kind_eqb (a b : Kind) : bool :=
  if Kind_eq_dec a b then true else false.

(** A run-time type descriptor.  Go identifies a type by its descriptor;
    here two descriptors are the same type when they agree on the three
    fields.  [tname] is the rendering of the type by the verb [%T];
    [tcomparable] says whether the type has an equality function (slices,
    maps, functions and the aggregates that contain them have none). *)
Record Type_ : Set := mkType
  { tname : string; tkind : Kind; tcomparable : bool }.

Definition Type_eqb (a b : Type_) : bool :=
  String.eqb (tname a) (tname b) && Kind_eqb (tkind a) (tkind b)
  && Bool.eqb (tcomparable a) (tcomparable b).

End reflect.

(* ================================================================== *)
(** * Go values held in an [interface{}] *)
(* ================================================================== *)

Definition addr := N.
Bind Scope N_scope with addr.

Inductive intk : Set := KInt | KInt8 | KInt16 | KInt32 | KInt64.
Inductive uintk : Set := KUint | KUint8 | KUint16 | KUint32 | KUint64 | KUintptr.
Inductive floatk : Set := KFloat32 | KFloat64.
Inductive complexk : Set := KComplex64 | KComplex128.
(** Reference kinds whose referent the code never inspects. *)
Inductive refk : Set := KChan | KFunc | KUnsafePointer.

#[local] Set Warnings "-register-all".

(** An interface value: [VNil] is the nil interface; every other
    constructor is a dynamic value together with the name of its dynamic
    type.  The constructor fixes the kind, so that the kind of the type and
    the shape of the value always agree.  Pointers carry their identity and
    the value they point to; slices and maps their identity and their
    elements; channels, functions and unsafe pointers only their identity.
    [None] is the nil value of the kind.  An element of an array, of a
    slice or of a map and a field of a struct is held as an interface value
    too, with the type of the element or field, or with the dynamic type
    (or nil) when that type is an interface. *)
Inductive value : Type :=
| VNil
| VBool (tn : string) (b : bool)
| VInt (k : intk) (tn : string) (n : Z)
| VUint (k : uintk) (tn : string) (n : Z)
| VFloat (k : floatk) (tn : string) (f : spec_float)
| VComplex (k : complexk) (tn : string) (re im : spec_float)
| VString (tn : string) (s : string)
| VPtr (tn : string) (p : option (addr * value))
| VRef (k : refk) (tn : string) (p : option addr)
| VMap (tn : string) (m : option (addr * list (value * value)))
| VSlice (tn : string) (s : option (addr * list value))
| VArray (tn : string) (cmp : bool) (l : list value)
| VStruct (tn : string) (cmp : bool) (l : list value).

(** The outcome of a Go call: a normal return, or a panic; the value of a
    panic is the one [recover()] returns for it. *)
Inductive result (A : Type) : Type :=
| Ok (a : A)
| Panic (p : value).
Arguments Ok {A} a.
Arguments Panic {A} p.

Definition kind_of_intk (k : intk) : reflect.Kind :=
  match k with
  | KInt => reflect.Int | KInt8 => reflect.Int8 | KInt16 => reflect.Int16
  | KInt32 => reflect.Int32 | KInt64 => reflect.Int64
  end.

Definition kind_of_uintk (k : uintk) : reflect.Kind :=
  match k with
  | KUint => reflect.Uint | KUint8 => reflect.Uint8 | KUint16 => reflect.Uint16
  | KUint32 => reflect.Uint32 | KUint64 => reflect.Uint64
  | KUintptr => reflect.Uintptr
  end.

Definition kind_of_floatk (k : floatk) : reflect.Kind :=
  match k with KFloat32 => reflect.Float32 | KFloat64 => reflect.Float64 end.

Definition kind_of_complexk (k : complexk) : reflect.Kind :=
  match k with
  | KComplex64 => reflect.Complex64 | KComplex128 => reflect.Complex128
  end.

Definition kind_of_refk (k : refk) : reflect.Kind :=
  match k with
  | KChan => reflect.Chan | KFunc => reflect.Func
  | KUnsafePointer => reflect.UnsafePointer
  end.

(** [reflect.TypeOf]: [None] is the nil [reflect.Type] of the nil
    interface. *)
Definition TypeOf (v : value) : option reflect.Type_ :=
  match v with
  | VNil => None
  | VBool tn _ => Some (reflect.mkType tn reflect.Bool true)
  | VInt k tn _ => Some (reflect.mkType tn (kind_of_intk k) true)
  | VUint k tn _ => Some (reflect.mkType tn (kind_of_uintk k) true)
  | VFloat k tn _ => Some (reflect.mkType tn (kind_of_floatk k) true)
  | VComplex k tn _ _ => Some (reflect.mkType tn (kind_of_complexk k) true)
  | VString tn _ => Some (reflect.mkType tn reflect.String true)
  | VPtr tn _ => Some (reflect.mkType tn reflect.Ptr true)
  | VRef k tn _ =>
      Some (reflect.mkType tn (kind_of_refk k)
              (match k with KFunc => false | _ => true end))
  | VMap tn _ => Some (reflect.mkType tn reflect.Map false)
  | VSlice tn _ => Some (reflect.mkType tn reflect.Slice false)
  | VArray tn cmp _ => Some (reflect.mkType tn reflect.Array cmp)
  | VStruct tn cmp _ => Some (reflect.mkType tn reflect.Struct cmp)
  end.

(** Equality of two optional descriptors: [t1 == t2] on [reflect.Type]. *)
Definition rtype_eqb (a b : option reflect.Type_) : bool :=
  match a, b with
  | None, None => true
  | Some x, Some y => reflect.Type_eqb x y
  | _, _ => false
  end.

(* ------------------------------------------------------------------ *)
(** ** Machine integers and floating-point numbers *)

(** The conversion [uint64(x)] of a signed 64-bit integer. *)
Definition uint64 (x : Z) : Z := x mod 2 ^ 64.

Definition bits_of_intk (k : intk) : Z :=
  match k with
  | KInt8 => 8 | KInt16 => 16 | KInt32 => 32 | KInt | KInt64 => 64
  end.

Definition bits_of_uintk (k : uintk) : Z :=
  match k with
  | KUint8 => 8 | KUint16 => 16 | KUint32 => 32
  | KUint | KUint64 | KUintptr => 64
  end.

Definition in_intk (k : intk) (n : Z) : bool :=
  (- 2 ^ (bits_of_intk k - 1) <=? n) && (n <? 2 ^ (bits_of_intk k - 1)).

Definition in_uintk (k : uintk) (n : Z) : bool :=
  (0 <=? n) && (n <? 2 ^ bits_of_uintk k).

(** binary64 and binary32, as [spec_float] with the format's parameters. *)
Definition prec64 : Z := 53.
Definition emax64 : Z := 1024.
Definition prec32 : Z := 24.
Definition emax32 : Z := 128.

Definition valid_floatk (k : floatk) (f : spec_float) : bool :=
  match k with
  | KFloat32 => valid_binary prec32 emax32 f
  | KFloat64 => valid_binary prec64 emax64 f
  end.

(** The conversion [float64(i)] of a 64-bit integer: round to nearest,
    ties to even. *)
Definition float64_of_Z (i : Z) : spec_float :=
  binary_normalize prec64 emax64 i 0 false.

(** The conversion [float64(x)] of a float32: always exact; the mantissa
    is brought to the binary64 format. *)
Definition float64_of_float32 (f : spec_float) : spec_float :=
  match f with
  | S754_finite s m e => binary_round prec64 emax64 s m e
  | _ => f
  end.

(** The operator [==] on float64. *)
Definition float_eq (x y : spec_float) : bool := SFeqb x y.

(** [float_is_int f n]: the real number that [f] denotes is the integer
    [n]. *)
Definition float_is_int (f : spec_float) (n : Z) : bool :=
  match f with
  | S754_zero _ => n =? 0
  | S754_finite s m e =>
      if 0 <=? e then n =? cond_Zopp s (Zpos m * 2 ^ e)
      else cond_Zopp s (Zpos m) =? n * 2 ^ (- e)
  | _ => false
  end.

(* ------------------------------------------------------------------ *)
(** ** The operator [==] on interface values *)

(** Package runtime panics with a value of its type [errorString]. *)
Definition runtime_errorString (msg : string) : value :=
  VString "runtime.errorString" msg.

Definition uncomparable (t : reflect.Type_) : value :=
  runtime_errorString ("comparing uncomparable type " ++ reflect.tname t).

Definition nil_dereference : value :=
  runtime_errorString "invalid memory address or nil pointer dereference".

Definition option_eqb {A : Type} (f : A -> A -> bool) (x y : option A) : bool :=
  match x, y with
  | None, None => true
  | Some a, Some b => f a b
  | _, _ => false
  end.

(** Identity of a pointer, a map or a slice. *)
Definition ident {A : Type} (p : option (addr * A)) : option addr :=
  option_map fst p.

Section Elements.
Variable eqv : value -> value -> result bool.

(** Arrays and structs are compared element by element in source order;
    the comparison stops at the first pair that differs. *)
Fixpoint eq_elems (l1 l2 : list value) {struct l1} : result bool :=
  match l1, l2 with
  | [], [] => Ok true
  | x :: l1', y :: l2' =>
      match eqv x y with
      | Ok true => eq_elems l1' l2'
      | r => r
      end
  | _, _ => Ok false
  end.
End Elements.

(** [a == b] on two interface values: both nil, or identical dynamic types
    and equal dynamic values; a run-time panic when the common dynamic type
    is not comparable. *)
Fixpoint go_eq (a b : value) {struct a} : result bool :=
  match TypeOf a, TypeOf b with
  | None, None => Ok true
  | None, Some _ | Some _, None => Ok false
  | Some ta, Some tb =>
      if negb (reflect.Type_eqb ta tb) then Ok false
      else if negb (reflect.tcomparable ta) then Panic (uncomparable ta)
      else
        match a, b with
        | VBool _ x, VBool _ y => Ok (Bool.eqb x y)
        | VInt _ _ x, VInt _ _ y => Ok (x =? y)%Z
        | VUint _ _ x, VUint _ _ y => Ok (x =? y)%Z
        | VFloat _ _ x, VFloat _ _ y => Ok (float_eq x y)
        | VComplex _ _ r1 i1, VComplex _ _ r2 i2 =>
            Ok (float_eq r1 r2 && float_eq i1 i2)
        | VString _ x, VString _ y => Ok (String.eqb x y)
        | VPtr _ p, VPtr _ q => Ok (option_eqb N.eqb (ident p) (ident q))
        | VRef _ _ p, VRef _ _ q => Ok (option_eqb N.eqb p q)
        | VArray _ _ l1, VArray _ _ l2 => eq_elems go_eq l1 l2
        | VStruct _ _ l1, VStruct _ _ l2 => eq_elems go_eq l1 l2
        | _, _ => Ok false
        end
  end.

(* ------------------------------------------------------------------ *)
(** ** Package reflect: values *)

Module Value.

(** [reflect.ValueOf(v).IsNil()], called on the nilable kinds. *)
Definition IsNil (v : value) : bool :=
  match v with
  | VPtr _ None | VRef _ _ None | VMap _ None | VSlice _ None => true
  | _ => false
  end.

(** [Len()] of a slice, an array, a map or a string.  The code asks for
    the length of a slice only, behind the test that its type is not nil. *)
Definition Len (v : value) : Z :=
  match v with
  | VSlice _ (Some (_, l)) | VArray _ _ l => Z.of_nat (List.length l)
  | VMap _ (Some (_, m)) => Z.of_nat (List.length m)
  | VString _ s => Z.of_nat (String.length s)
  | _ => 0
  end.

(** [Int()], [Uint()], [Float()], [Complex()] and [String()]: the code
    calls each one under the [case] of a matching kind only; elsewhere Go
    panics and the model returns a default. *)
Definition Int (v : value) : Z :=
  match v with VInt _ _ n => n | _ => 0 end.

Definition Uint (v : value) : Z :=
  match v with VUint _ _ n => n | _ => 0 end.

Definition Float (v : value) : spec_float :=
  match v with
  | VFloat KFloat64 _ f => f
  | VFloat KFloat32 _ f => float64_of_float32 f
  | _ => S754_zero false
  end.

Definition Complex (v : value) : spec_float * spec_float :=
  match v with
  | VComplex KComplex128 _ re im => (re, im)
  | VComplex KComplex64 _ re im =>
      (float64_of_float32 re, float64_of_float32 im)
  | _ => (S754_zero false, S754_zero false)
  end.

Definition String (v : value) : string :=
  match v with VString _ s => s | _ => "" end.

End Value.

(** [reflect.DeepEqual] on two values: the cases of [deepValueEqual], on
    values whose pointers do not form cycles. *)
Section DeepElements.
Variable deq : value -> value -> bool.

Fixpoint deep_elems (l1 l2 : list value) {struct l1} : bool :=
  match l1, l2 with
  | [], [] => true
  | x :: l1', y :: l2' => deq x y && deep_elems l1' l2'
  | _, _ => false
  end.

(** The value a map holds under a key that is [==] to [k]. *)
Fixpoint MapIndex (m : list (value * value)) (k : value) : option value :=
  match m with
  | [] => None
  | (k', x) :: m' =>
      match go_eq k' k with
      | Ok true => Some x
      | _ => MapIndex m' k
      end
  end.

Fixpoint deep_entries (m1 m2 : list (value * value)) {struct m1} : bool :=
  match m1 with
  | [] => true
  | (k, x) :: m1' =>
      match MapIndex m2 k with
      | Some y => deq x y && deep_entries m1' m2
      | None => false
      end
  end.
End DeepElements.

Fixpoint deepValueEqual (v1 v2 : value) {struct v1} : bool :=
  if negb (rtype_eqb (TypeOf v1) (TypeOf v2)) then false
  else
    match v1, v2 with
    | VNil, VNil => true
    | VArray _ _ l1, VArray _ _ l2 => deep_elems deepValueEqual l1 l2
    | VStruct _ _ l1, VStruct _ _ l2 => deep_elems deepValueEqual l1 l2
    | VSlice _ s1, VSlice _ s2 =>
        match s1, s2 with
        | None, None => true
        | Some (a1, l1), Some (a2, l2) =>
            if negb (Nat.eqb (List.length l1) (List.length l2)) then false
            else if N.eqb a1 a2 then true
            else deep_elems deepValueEqual l1 l2
        | _, _ => false
        end
    | VPtr _ p1, VPtr _ p2 =>
        match p1, p2 with
        | None, None => true
        | Some (a1, x1), Some (a2, x2) =>
            if N.eqb a1 a2 then true else deepValueEqual x1 x2
        | _, _ => false
        end
    | VMap _ m1, VMap _ m2 =>
        match m1, m2 with
        | None, None => true
        | Some (a1, e1), Some (a2, e2) =>
            if negb (Nat.eqb (List.length e1) (List.length e2)) then false
            else if N.eqb a1 a2 then true
            else deep_entries deepValueEqual e1 e2
        | _, _ => false
        end
    | VRef KFunc _ p1, VRef KFunc _ p2 =>
        match p1, p2 with None, None => true | _, _ => false end
    | VRef _ _ p1, VRef _ _ p2 => option_eqb N.eqb p1 p2
    | VBool _ x, VBool _ y => Bool.eqb x y
    | VInt _ _ x, VInt _ _ y => (x =? y)%Z
    | VUint _ _ x, VUint _ _ y => (x =? y)%Z
    | VFloat _ _ x, VFloat _ _ y => float_eq x y
    | VComplex _ _ r1 i1, VComplex _ _ r2 i2 =>
        float_eq r1 r2 && float_eq i1 i2
    | VString _ x, VString _ y => String.eqb x y
    | _, _ => false
    end.

Definition DeepEqual (x y : value) : bool := deepValueEqual x y.

(* ------------------------------------------------------------------ *)
(** ** Calls that may change state and may panic *)

(** A computation over a state [S]: it returns or panics, and leaves a
    state in both cases. *)
Definition prog (S A : Type) : Type := S -> result A * S.

Definition ret {S A : Type} (a : A) : prog S A := fun s => (Ok a, s).

Definition panic {S A : Type} (p : value) : prog S A := fun s => (Panic p, s).

Definition bind {S A B : Type} (m : prog S A) (k : A -> prog S B) : prog S B :=
  fun s =>
    match m s with
    | (Ok a, s') => k a s'
    | (Panic p, s') => (Panic p, s')
    end.

Declare Scope prog_scope.
Delimit Scope prog_scope with prog.
Notation "x <- m ;; k" := (bind m (fun x => k))
  (at level 61, m at next level, right associativity) : prog_scope.
Notation "m ;; k" := (bind m (fun _ => k))
  (at level 61, right associativity) : prog_scope.

(** A pure call that may panic. *)
Definition lift_result {S A : Type} (r : result A) : prog S A := fun s => (r, s).

(** [defer func() { x = recover() }(); m]: run [m]; the deferred function
    always runs and [recover()] yields the value [m] panicked with, or nil
    when [m] returned. *)
Definition recovering {S : Type} (m : prog S unit) : prog S value :=
  fun s =>
    match m s with
    | (Ok _, s') => (Ok VNil, s')
    | (Panic p, s') => (Ok p, s')
    end.

(** A method with receiver [O] seen from a state [O * W]. *)
Definition get_this {O W : Type} : prog (O * W) O := fun s => (Ok (fst s), s).

Definition set_this {O W : Type} (o : O) : prog (O * W) unit :=
  fun s => (Ok tt, (o, snd s)).

(** A computation on the world alone, run next to a receiver. *)
Definition world {O W A : Type} (m : prog W A) : prog (O * W) A :=
  fun s => let (r, w') := m (snd s) in (r, (fst s, w')).

(** A computation on another object [o], run to its end; the object is
    dropped afterwards. *)
Definition with_object {O O' W A : Type} (o : O') (m : prog (O' * W) A)
  : prog (O * W) A :=
  fun s => let (r, s') := m (o, snd s) in (r, (fst s, snd s')).

(* ================================================================== *)
(** * Package fmt: [Sprintf] for the verbs the package uses *)
(* ================================================================== *)

Module fmt.
Section Printf.

(** The rendering of an operand by the verb [%v]: the default formats of
    package fmt, with the [Error] and [String] methods of the operand. *)
Variable verb_v : value -> string.

(** A plain string is printed as it is. *)
Definition format_v (v : value) : string :=
  match v with
  | VString tn s => if String.eqb tn "string" then s else verb_v v
  | _ => verb_v v
  end.

(** The verb [%T]: the dynamic type of the operand. *)
Definition format_T (v : value) : string :=
  match TypeOf v with
  | None => "<nil>"
  | Some t => reflect.tname t
  end.

Definition digit (c : ascii) : option nat :=
  let n := nat_of_ascii c in
  if (Nat.leb 48 n && Nat.leb n 57)%bool then Some (n - 48)%nat else None.

Definition printVerb (verb : ascii) (args : list value) (argNum : nat)
  (missing : string) : string :=
  let name := String verb EmptyString in
  match nth_error args argNum with
  | None => "%!" ++ name ++ "(" ++ missing ++ ")"
  | Some v =>
      if Ascii.eqb verb "v" then format_v v
      else if Ascii.eqb verb "T" then format_T v
      else "%!" ++ name ++ "(" ++ format_T v ++ "=" ++ format_v v ++ ")"
  end.

(** The loop of [doPrintf] over the format: plain characters are copied;
    [%v] and [%T] take the next operand, [%[n]v] and [%[n]T] the operand
    of index [n] (a single digit), [%%] is a percent sign.  Flags, widths
    and the report of operands left unused are not modelled: the package
    uses none and leaves none. *)
Fixpoint doPrintf (format : string) (args : list value) (argNum : nat)
  {struct format} : string :=
  match format with
  | EmptyString => EmptyString
  | String c rest =>
      if negb (Ascii.eqb c "%") then String c (doPrintf rest args argNum)
      else
        match rest with
        | EmptyString => "%!(NOVERB)"
        | String c1 rest1 =>
            if Ascii.eqb c1 "%" then String "%" (doPrintf rest1 args argNum)
            else if Ascii.eqb c1 "[" then
              match rest1 with
              | String d (String rb (String verb rest4)) =>
                  match digit d with
                  | Some (S n) =>
                      if Ascii.eqb rb "]" then
                        printVerb verb args n "BADINDEX"
                        ++ doPrintf rest4 args (S n)
                      else "%!" ++ String verb "(BADINDEX)"
                           ++ doPrintf rest4 args argNum
                  | _ => "%!" ++ String verb "(BADINDEX)"
                         ++ doPrintf rest4 args argNum
                  end
              | _ => "%!(NOVERB)"
              end
            else printVerb c1 args argNum "MISSING"
                 ++ doPrintf rest1 args (S argNum)
        end
  end.

Definition Sprintf (format : string) (args : list value) : string :=
  doPrintf format args 0.

End Printf.
End fmt.

(** A value of type [string]. *)
Definition GoString (s : string) : value := VString "string" s.
(** A value of type [int]. *)
Definition GoInt (n : Z) : value := VInt KInt "int" n.
(** A value of type [bool]. *)
Definition GoBool (b : bool) : value := VBool "bool" b.

(* ================================================================== *)
(** * Package cond *)
(* ================================================================== *)

Module cond.
Section Cond.

(** The state of the test program outside the condition. *)
Variable W : Type.

(** [type Condition interface]: a type [T] implements it with two
    methods on a receiver the methods may change. *)
Class Condition (T : Type) : Type := {
  Condition_Test : value -> prog (T * W) bool;
  Condition_Message : value -> prog (T * W) string
}.

(** [type cond struct]: the embedded [Condition] is an object of an
    implementing type [T]. *)
Record cond (T : Type) : Type := mkcond {
  Condition_ : T;
  userMsg : option (prog W string);
  isFatal : bool
}.
Arguments mkcond {T} _ _ _.
Arguments Condition_ {T} _.
Arguments userMsg {T} _.
Arguments isFatal {T} _.

Section Methods.
Context {T : Type} {I : Condition T}.

Definition SetMessage (c : cond T) (msg : string) : cond T :=
  mkcond (Condition_ c) (Some (ret msg)) (isFatal c).

Definition SetMessageFunc (c : cond T) (f : prog W string) : cond T :=
  mkcond (Condition_ c) (Some f) (isFatal c).

Definition SetFatal (c : cond T) : cond T :=
  mkcond (Condition_ c) (userMsg c) true.

Definition fatal (c : cond T) : bool := isFatal c.

(** A method of the embedded [Condition], promoted to [cond]: it runs on
    the embedded object and leaves it as the method changed it. *)
Definition embedded {A : Type} (m : prog (T * W) A) : prog (cond T * W) A :=
  fun s =>
    let c := fst s in
    let (r, s') := m (Condition_ c, snd s) in
    (r, (mkcond (fst s') (userMsg c) (isFatal c), snd s')).

Definition Test (v : value) : prog (cond T * W) bool :=
  embedded (Condition_Test v).

Definition message (v : value) : prog (cond T * W) string :=
  (c <- get_this ;;
   match userMsg c with
   | Some f => world f
   | None => embedded (Condition_Message v)
   end)%prog.

(** [func Fatal(cond Cond) bool] *)
Definition Fatal (c : cond T) : bool := fatal c.

(** [func Message(cond Cond, v interface{}) string] *)
Definition Message (v : value) : prog (cond T * W) string := message v.

(** [func New(c Condition) Cond] *)
Definition New (c : T) : cond T := mkcond c None false.

End Methods.

End Cond.

Arguments mkcond {W T} _ _ _.
Arguments Condition_ {W T} _.
Arguments userMsg {W T} _.
Arguments isFatal {W T} _.

End cond.

(* ================================================================== *)
(** * Package asserting *)
(* ================================================================== *)

Module asserting.

(* ---------------------------------------------------------------- *)
(** ** Untyped values *)

(** [type untypedInt int64] *)
Definition untypedInt (i : Z) : value := VInt KInt64 "asserting.untypedInt" i.
(** [type untypedUint uint64] *)
Definition untypedUint (i : Z) : value :=
  VUint KUint64 "asserting.untypedUint" i.
(** [type untypedFloat float64] *)
Definition untypedFloat (f : spec_float) : value :=
  VFloat KFloat64 "asserting.untypedFloat" f.
(** [type untypedString string] *)
Definition untypedString (s : string) : value :=
  VString "asserting.untypedString" s.
(** [type untypedComplex complex128] *)
Definition untypedComplex (re im : spec_float) : value :=
  VComplex KComplex128 "asserting.untypedComplex" re im.

(** [func (i untypedInt) equals(r interface{}) bool] *)
Definition untypedInt_equals (i : Z) (r : value) : bool :=
  match TypeOf r with
  | None => false
  | Some tr =>
      match reflect.tkind tr with
      | reflect.Int | reflect.Int8 | reflect.Int16 | reflect.Int32
      | reflect.Int64 =>
          i =? Value.Int r
      | reflect.Uint | reflect.Uint8 | reflect.Uint16 | reflect.Uint32
      | reflect.Uint64 =>
          (i >=? 0) && (uint64 i =? Value.Uint r)
      | reflect.Float32 | reflect.Float64 =>
          float_eq (float64_of_Z i) (Value.Float r)
      | _ => false
      end
  end.

(** [func UntypedInt(n int64) interface{}] *)
Definition UntypedInt (n : Z) : value := untypedInt n.

(** [func (i untypedUint) equals(r interface{}) bool] *)
Definition untypedUint_equals (i : Z) (r : value) : bool :=
  match TypeOf r with
  | None => false
  | Some tr =>
      match reflect.tkind tr with
      | reflect.Uint | reflect.Uint8 | reflect.Uint16 | reflect.Uint32
      | reflect.Uint64 =>
          i =? Value.Uint r
      | reflect.Int | reflect.Int8 | reflect.Int16 | reflect.Int32
      | reflect.Int64 =>
          let v := Value.Int r in
          (v >=? 0) && (i =? uint64 v)
      | reflect.Float32 | reflect.Float64 =>
          float_eq (float64_of_Z i) (Value.Float r)
      | _ => false
      end
  end.

(** [func UntypedUint(n int64) interface{}]: the conversion of the
    signed argument wraps around. *)
Definition UntypedUint (n : Z) : value := untypedUint (uint64 n).

(** [func (f untypedFloat) equals(r interface{}) bool] *)
Definition untypedFloat_equals (f : spec_float) (r : value) : bool :=
  match TypeOf r with
  | None => false
  | Some tr =>
      match reflect.tkind tr with
      | reflect.Float32 | reflect.Float64 => float_eq f (Value.Float r)
      | _ => false
      end
  end.

(** [func UntypedFloat(f float64) interface{}] *)
Definition UntypedFloat (f : spec_float) : value := untypedFloat f.

(** [func (s untypedString) equals(r interface{}) bool] *)
Definition untypedString_equals (s : string) (r : value) : bool :=
  match TypeOf r with
  | None => false
  | Some tr =>
      match reflect.tkind tr with
      | reflect.String => String.eqb s (Value.String r)
      | _ => false
      end
  end.

(** [func UntypedString(str string) interface{}] *)
Definition UntypedString (str : string) : value := untypedString str.

(** [func (c untypedComplex) equals(r interface{}) bool] *)
Definition untypedComplex_equals (re im : spec_float) (r : value) : bool :=
  match TypeOf r with
  | None => false
  | Some tr =>
      match reflect.tkind tr with
      | reflect.Complex64 | reflect.Complex128 =>
          let c := Value.Complex r in
          float_eq re (fst c) && float_eq im (snd c)
      | _ => false
      end
  end.

(** [func UntypedComplex(c complex128) interface{}] *)
Definition UntypedComplex (re im : spec_float) : value := untypedComplex re im.

(** [type ieq interface { equals(r interface{}) bool }]: the type
    assertion [v.(ieq)].  [equals] is not exported, so the five untyped
    types are the only ones with the method. *)
Definition ieq : Type := value -> bool.

Definition as_ieq (v : value) : option ieq :=
  match v with
  | VInt KInt64 tn i =>
      if String.eqb tn "asserting.untypedInt"
      then Some (untypedInt_equals i) else None
  | VUint KUint64 tn i =>
      if String.eqb tn "asserting.untypedUint"
      then Some (untypedUint_equals i) else None
  | VFloat KFloat64 tn f =>
      if String.eqb tn "asserting.untypedFloat"
      then Some (untypedFloat_equals f) else None
  | VString tn s =>
      if String.eqb tn "asserting.untypedString"
      then Some (untypedString_equals s) else None
  | VComplex KComplex128 tn re im =>
      if String.eqb tn "asserting.untypedComplex"
      then Some (untypedComplex_equals re im) else None
  | _ => None
  end.

(** [func equalsNil(v interface{}) bool] *)
Definition equalsNil (v : value) : bool :=
  match TypeOf v with
  | None => true
  | Some t =>
      match reflect.tkind t with
      | reflect.Chan | reflect.Func | reflect.Interface | reflect.Map
      | reflect.Slice | reflect.Ptr | reflect.UnsafePointer =>
          Value.IsNil v
      | _ => false
      end
  end.

(** [v == nil] on an interface value. *)
Definition is_nil (v : value) : bool :=
  match v with VNil => true | _ => false end.

(** [func eq(a, b interface{}) bool] *)
Definition eq (a b : value) : result bool :=
  match go_eq a b with
  | Panic p => Panic p
  | Ok true => Ok true
  | Ok false =>
      if is_nil a then Ok (equalsNil b)
      else if is_nil b then Ok (equalsNil a)
      else
        match as_ieq a with
        | Some ieq => Ok (ieq b)
        | None =>
            match as_ieq b with
            | Some ieq => Ok (ieq a)
            | None => Ok false
            end
        end
  end.

(** [type hasError struct { message string; fatal bool }] *)
Record hasError : Set := mkhasError { message : string; fatal : bool }.

(** [&hasError{...}], allocated at [a]. *)
Definition hasError_ptr (a : addr) (e : hasError) : value :=
  VPtr "*asserting.hasError"
    (Some (a, VStruct "asserting.hasError" true
                [GoString (message e); GoBool (fatal e)])).

(** The type assertion of [v] to a pointer to [hasError]: [None] when it fails,
    [Some None] for a nil pointer of the type. *)
Definition as_hasError (v : value) : option (option hasError) :=
  match v with
  | VPtr tn p =>
      if String.eqb tn "*asserting.hasError" then
        match p with
        | None => Some None
        | Some (_, VStruct _ _ [VString _ m; VBool _ f]) =>
            Some (Some (mkhasError m f))
        | Some _ => None
        end
      else None
  | _ => None
  end.

(** The type assertion [v.(func())]. *)
Definition as_func (v : value) : option (option addr) :=
  match v with
  | VRef KFunc tn p => if String.eqb tn "func()" then Some p else None
  | _ => None
  end.

(* ---------------------------------------------------------------- *)
(** ** Conditions and the evaluator *)

Section Program.

(** The state of the test program around the package: what the tested
    functions, the predicates and the host's [testing.TB] work on. *)
Variable W : Type.

(** The body of the function value of type [func()] at an address.  A
    call returns or panics; a call that never returns, or that ends the
    goroutine, is outside the model. *)
Variable call : addr -> prog W unit.

(** The rendering of a value by the verb [%v]. *)
Variable verb_v : value -> string.

Local Notation "'Sprintf'" := (fmt.Sprintf verb_v).
Local Notation "'Cond'" := (cond.cond W).

Local Open Scope prog_scope.

(** [f()] for a function value: a nil function panics. *)
Definition invoke (f : option addr) : prog W unit :=
  match f with
  | None => panic nil_dereference
  | Some a => call a
  end.

(** [type testing.TB interface], the methods the package calls. *)
Record TB : Type := mkTB {
  Helper : prog W unit;
  Error : list value -> prog W unit;
  Fatal : list value -> prog W unit
}.

(** [func formatMsg(format string, arg1, arg2 interface{}) string] *)
Definition formatMsg (format : string) (arg1 arg2 : value) : string :=
  let str1 := Sprintf "%v" [arg1] in
  let str2 := Sprintf "%v" [arg2] in
  let '(arg1, arg2) :=
    if String.eqb str1 str2 then
      (GoString (Sprintf "%[1]v(%[1]T)" [arg1]),
       GoString (Sprintf "%[1]v(%[1]T)" [arg2]))
    else (GoString str1, GoString str2) in
  Sprintf format [arg1; arg2].

(** [type equals struct { expected interface{} }] *)
Record equals : Type := mkequals { equals_expected : value }.

Definition equals_Test (v : value) : prog (equals * W) bool :=
  c <- get_this ;;
  lift_result (eq (equals_expected c) v).

Definition equals_Message (v : value) : prog (equals * W) string :=
  c <- get_this ;;
  ret (formatMsg "expected <%v> but was <%v>" (equals_expected c) v).

#[export] Instance equals_Condition : cond.Condition W equals :=
  {| cond.Condition_Test := equals_Test;
     cond.Condition_Message := equals_Message |}.

(** [func Equals(expected interface{}) cond.Cond] *)
Definition Equals (expected : value) : Cond equals :=
  cond.New W (mkequals expected).

(** [type notEquals equals]; [to_equals] is the conversion of the
    receiver back to [equals]. *)
Record notEquals : Type := mknotEquals { to_equals : equals }.

Definition notEquals_Test (v : value) : prog (notEquals * W) bool :=
  c <- get_this ;;
  b <- with_object (to_equals c) (equals_Test v) ;;
  ret (negb b).

Definition notEquals_Message (v : value) : prog (notEquals * W) string :=
  ret (Sprintf "unexpected <%v>" [v]).

#[export] Instance notEquals_Condition : cond.Condition W notEquals :=
  {| cond.Condition_Test := notEquals_Test;
     cond.Condition_Message := notEquals_Message |}.

(** [func NotEquals(unexpected interface{}) cond.Cond] *)
Definition NotEquals (unexpected : value) : Cond notEquals :=
  cond.New W (mknotEquals (mkequals unexpected)).

(** [type matches struct { f func(v interface{}) bool }] *)
Record matches : Type := mkmatches { matches_f : value -> prog W bool }.

Definition matches_Test (v : value) : prog (matches * W) bool :=
  c <- get_this ;;
  world (matches_f c v).

Definition matches_Message (v : value) : prog (matches * W) string :=
  ret (Sprintf "unexpected <%v>" [v]).

#[export] Instance matches_Condition : cond.Condition W matches :=
  {| cond.Condition_Test := matches_Test;
     cond.Condition_Message := matches_Message |}.

(** [func Matches(f func(v interface{}) bool) cond.Cond] *)
Definition Matches (f : value -> prog W bool) : Cond matches :=
  cond.New W (mkmatches f).

(** [type panics struct { expected interface{}; got interface{} }] *)
Record panics : Type := mkpanics {
  panics_expected : value;
  panics_got : value
}.

Definition not_a_func (v : value) : value :=
  GoString (Sprintf "<%v> is not a func()" [v]).

(** [func (c *panics) Test(v interface{}) (result bool)]: the deferred
    function stores what [recover()] returns and sets the result; a
    panic of [eq] inside the deferred function is a panic of [Test]. *)
Definition panics_Test (v : value) : prog (panics * W) bool :=
  match as_func v with
  | None => panic (not_a_func v)
  | Some f =>
      got <- recovering (world (invoke f)) ;;
      c <- get_this ;;
      set_this (mkpanics (panics_expected c) got) ;;
      lift_result (eq (panics_expected c) got)
  end.

Definition panics_Message (v : value) : prog (panics * W) string :=
  c <- get_this ;;
  let nilExplain :=
    if is_nil (panics_got c) then " (didn't panic?)" else "" in
  ret (formatMsg ("expected to panic with <%v> but <%v>" ++ nilExplain)
         (panics_expected c) (panics_got c)).

#[export] Instance panics_Condition : cond.Condition W panics :=
  {| cond.Condition_Test := panics_Test;
     cond.Condition_Message := panics_Message |}.

(** [func Panics(expected interface{}) cond.Cond] *)
Definition Panics (expected : value) : Cond panics :=
  cond.New W (mkpanics expected VNil).

(** [type panicMatches struct { got interface{}; f func(interface{}) bool }] *)
Record panicMatches : Type := mkpanicMatches {
  panicMatches_got : value;
  panicMatches_f : value -> prog W bool
}.

(** [func (c *panicMatches) Test(v interface{}) (result bool)] *)
Definition panicMatches_Test (v : value) : prog (panicMatches * W) bool :=
  match as_func v with
  | None => panic (not_a_func v)
  | Some f =>
      got <- recovering (world (invoke f)) ;;
      c <- get_this ;;
      set_this (mkpanicMatches got (panicMatches_f c)) ;;
      world (panicMatches_f c got)
  end.

Definition panicMatches_Message (v : value)
  : prog (panicMatches * W) string :=
  c <- get_this ;;
  let nilExplain :=
    if is_nil (panicMatches_got c) then " (didn't panic?)" else "" in
  ret (Sprintf ("unexpected panic <%v>" ++ nilExplain)
         [panicMatches_got c]).

#[export] Instance panicMatches_Condition
  : cond.Condition W panicMatches :=
  {| cond.Condition_Test := panicMatches_Test;
     cond.Condition_Message := panicMatches_Message |}.

(** [func PanicMatches(f func(interface{}) bool) cond.Cond] *)
Definition PanicMatches (f : value -> prog W bool) : Cond panicMatches :=
  cond.New W (mkpanicMatches VNil f).

(** [type equalsSlice struct { expected interface{} }] *)
Record equalsSlice : Type := mkequalsSlice { equalsSlice_expected : value }.

Definition not_a_slice (v : value) : value :=
  GoString (Sprintf "testing2: <%[1]v(%[1]T)> is not a slice" [v]).

Definition type_mismatch (t1 t2 : reflect.Type_) : value :=
  GoString (Sprintf "type mismatch: <%v> and <%v>"
              [GoString (reflect.tname t1); GoString (reflect.tname t2)]).

(** [func (c *equalsSlice) Test(v interface{}) bool] *)
Definition equalsSlice_Test (v : value) : prog (equalsSlice * W) bool :=
  c <- get_this ;;
  let t1 := TypeOf v in
  match t1 with
  | Some t =>
      if negb (reflect.Kind_eqb (reflect.tkind t) reflect.Slice)
      then panic (not_a_slice v) else ret tt
  | None => ret tt
  end ;;
  let t2 := TypeOf (equalsSlice_expected c) in
  match t2 with
  | Some t =>
      if negb (reflect.Kind_eqb (reflect.tkind t) reflect.Slice)
      then panic (not_a_slice (equalsSlice_expected c)) else ret tt
  | None => ret tt
  end ;;
  let v1 := v in
  let v2 := equalsSlice_expected c in
  match t1, t2 with
  | None, None => ret true
  | None, Some _ => if negb (Value.Len v2 =? 0) then ret false else ret true
  | Some _, None => if negb (Value.Len v1 =? 0) then ret false else ret true
  | Some t1, Some t2 =>
      if negb (reflect.Type_eqb t1 t2) then panic (type_mismatch t1 t2)
      else ret (DeepEqual v (equalsSlice_expected c))
  end.

Definition equalsSlice_Message (v : value) : prog (equalsSlice * W) string :=
  c <- get_this ;;
  ret (formatMsg "expected <%v> but was <%v>" (equalsSlice_expected c) v).

#[export] Instance equalsSlice_Condition : cond.Condition W equalsSlice :=
  {| cond.Condition_Test := equalsSlice_Test;
     cond.Condition_Message := equalsSlice_Message |}.

(** [func EqualsSlice(expected interface{}) cond.Cond] *)
Definition EqualsSlice (expected : value) : Cond equalsSlice :=
  cond.New W (mkequalsSlice expected).

(** [func ValueError(v interface{}, err error) interface{}]; [a] is the
    address of the [hasError] the call allocates when [err] is not nil. *)
Definition ValueError (a : addr) (v : value) (err : value) : value :=
  if negb (is_nil err) then
    hasError_ptr a
      (mkhasError (Sprintf "unexpected error <%v>" [err]) false)
  else v.

(** [func ValueErrorFatal(v interface{}, err error) interface{}] *)
Definition ValueErrorFatal (a : addr) (v : value) (err : value) : value :=
  if negb (is_nil err) then
    hasError_ptr a
      (mkhasError (Sprintf "unexpected error <%v>" [err]) true)
  else v.

Section Evaluator.
Variable t : TB.

(** The part of [Assert] after the test for a [hasError]. *)
Definition check {T : Type} {I : cond.Condition W T} (v : value)
  : prog (Cond T * W) unit :=
  ok <- cond.Test W v ;;
  if negb ok then
    c <- get_this ;;
    let f := if cond.Fatal W c then Fatal t else Error t in
    msg <- cond.Message W v ;;
    world (f [GoString msg])
  else ret tt.

(** The condition that [Assert] builds for a [hasError]. *)
Definition hasError_cond (err : hasError) : Cond equals :=
  let c := cond.SetMessage W (Equals VNil) (message err) in
  if fatal err then cond.SetFatal W c else c.

(** [func (t TB) Assert(v interface{}, c cond.Cond)].  The call of
    [Assert] inside the first branch passes the int 0, which is not a
    [hasError], so that the inner call runs [t.Helper()] and the second
    part of the body. *)
Definition Assert {T : Type} {I : cond.Condition W T} (v : value)
  : prog (Cond T * W) unit :=
  world (Helper t) ;;
  match as_hasError v with
  | Some None => panic nil_dereference
  | Some (Some err) =>
      with_object (hasError_cond err)
        (world (Helper t) ;; check (GoInt 0))
  | None => check v
  end.

(** [t.Assert(v, c)] with a condition built for the call. *)
Definition Assert_new {T : Type} {I : cond.Condition W T} (v : value)
  (c : Cond T) : prog W unit :=
  fun w => let (r, s) := Assert v (c, w) in (r, snd s).

(** [func (t TB) AssertTrue(condition bool)] *)
Definition AssertTrue (condition : bool) : prog W unit :=
  Helper t ;;
  Assert_new (GoBool condition)
    (cond.SetMessage W (Equals (GoBool true)) "unexpected false condition").

(** [func (t TB) AssertNoError(err error)] *)
Definition AssertNoError (err : value) : prog W unit :=
  Helper t ;;
  Assert_new err
    (cond.SetMessage W (Equals VNil) (Sprintf "unexpected error <%v>" [err])).

(** [func (t TB) AssertEqual(v, expected interface{})] *)
Definition AssertEqual (v expected : value) : prog W unit :=
  Helper t ;; Assert_new v (Equals expected).

(** [func (t TB) AssertEqualSlice(v, expected interface{})] *)
Definition AssertEqualSlice (v expected : value) : prog W unit :=
  Helper t ;; Assert_new v (EqualsSlice expected).

(** [func (t TB) AssertNotEqual(v, expected interface{})] *)
Definition AssertNotEqual (v expected : value) : prog W unit :=
  Helper t ;; Assert_new v (NotEquals expected).

(** [func (t TB) AssertMatch(v interface{}, f func(v interface{}) bool)] *)
Definition AssertMatch (v : value) (f : value -> prog W bool) : prog W unit :=
  Helper t ;; Assert_new v (Matches f).

(** [func (t TB) AssertPanic(v func(), expected interface{})] *)
Definition AssertPanic (v : value) (expected : value) : prog W unit :=
  Helper t ;; Assert_new v (Panics expected).

(** [func (t TB) AssertPanicMatch(v func(), f func(expected interface{}) bool)] *)
Definition AssertPanicMatch (v : value) (f : value -> prog W bool)
  : prog W unit :=
  Helper t ;; Assert_new v (PanicMatches f).

End Evaluator.

End Program.

End asserting.

(* ================================================================== *)
(** * Package asserting_test: the mock of [testing.TB] *)
(* ================================================================== *)

Module asserting_test.

(** [type MockTB struct]; the embedded [testing.TB] serves [Helper]. *)
Record MockTB : Type := mkMockTB {
  ErrorMessages : list (list value);
  FatalMessages : list (list value);
  failed : bool
}.

(** [func (m *MockTB) Error(args ...interface{})] *)
Definition MockTB_Error (args : list value) : prog MockTB unit :=
  fun m =>
    if failed m then (Ok tt, m)
    else (Ok tt, mkMockTB (ErrorMessages m ++ [args]) (FatalMessages m)
                   (failed m)).

(** [func (m *MockTB) Fatal(args ...interface{})] *)
Definition MockTB_Fatal (args : list value) : prog MockTB unit :=
  fun m =>
    if failed m then (Ok tt, m)
    else (Ok tt, mkMockTB (ErrorMessages m) (FatalMessages m ++ [args]) true).

Definition mock : asserting.TB MockTB :=
  asserting.mkTB MockTB (ret tt) MockTB_Error MockTB_Fatal.

Definition new_mock : MockTB := mkMockTB [] [] false.

(** The functions of the tests: [func() { panic(1) }] at address 1,
    [func() { panic(2) }] at address 2, a function that returns at any
    other address. *)
Definition test_funcs (a : addr) : prog MockTB unit :=
  match a with
  | 1%N => panic (GoInt 1)
  | 2%N => panic (GoInt 2)
  | _ => ret tt
  end.

(** The verb [%v] on the values of the tests: integers in decimal,
    strings as they are, nil and nil pointers as [<nil>], slices between
    brackets, the message of an error made by [errors.New]. *)
Definition decimal (n : Z) : string :=
  match n with
  | Z0 => "0"
  | Zpos p => DecimalString.NilEmpty.string_of_uint (Pos.to_uint p)
  | Zneg p => "-" ++ DecimalString.NilEmpty.string_of_uint (Pos.to_uint p)
  end.

Fixpoint test_verb_v (v : value) : string :=
  match v with
  | VNil => "<nil>"
  | VBool _ b => if b then "true" else "false"
  | VInt _ _ n | VUint _ _ n => decimal n
  | VString _ s => s
  | VPtr tn (Some (_, VStruct _ _ [VString _ s])) =>
      if String.eqb tn "*errors.errorString" then s else "0xc000012345"
  | VPtr _ None | VRef _ _ None => "<nil>"
  | VMap _ None => "map[]"
  | VSlice _ None => "[]"
  | VSlice _ (Some (_, l)) =>
      "[" ++ String.concat " " (List.map test_verb_v l) ++ "]"
  | _ => "?"
  end.

(** [errors.New(text)], allocated at [a]. *)
Definition errors_New (a : addr) (text : string) : value :=
  VPtr "*errors.errorString"
    (Some (a, VStruct "errors.errorString" true [GoString text])).

(** [[]int{...}], with its array at [a]. *)
Definition ints (a : addr) (l : list Z) : value :=
  VSlice "[]int" (Some (a, List.map GoInt l)).

(** [func() {...}] at [a]. *)
Definition func (a : addr) : value := VRef KFunc "func()" (Some a).

#[export] Instance equals_Condition
  : cond.Condition MockTB asserting.equals :=
  asserting.equals_Condition MockTB test_verb_v.
#[export] Instance notEquals_Condition
  : cond.Condition MockTB asserting.notEquals :=
  asserting.notEquals_Condition MockTB test_verb_v.
#[export] Instance matches_Condition
  : cond.Condition MockTB (asserting.matches MockTB) :=
  asserting.matches_Condition MockTB test_verb_v.
#[export] Instance panics_Condition
  : cond.Condition MockTB asserting.panics :=
  asserting.panics_Condition MockTB test_funcs test_verb_v.
#[export] Instance panicMatches_Condition
  : cond.Condition MockTB (asserting.panicMatches MockTB) :=
  asserting.panicMatches_Condition MockTB test_funcs test_verb_v.
#[export] Instance equalsSlice_Condition
  : cond.Condition MockTB asserting.equalsSlice :=
  asserting.equalsSlice_Condition MockTB test_verb_v.

(** [t.Assert(v, c)] on the mock. *)
Definition Assert {T : Type} {I : cond.Condition MockTB T}
  (v : value) (c : cond.cond MockTB T) : prog MockTB unit :=
  asserting.Assert_new MockTB test_verb_v mock v c.

End asserting_test.

(* ================================================================== *)
(** * Predicates of the statements *)
(* ================================================================== *)



(** The dynamic type of [v] is [untypedInt] or [untypedUint]. *)
Definition is_untyped_integer (v : value) : bool :=
  match v with
  | VInt KInt64 tn _ => String.eqb tn "asserting.untypedInt"
  | VUint KUint64 tn _ => String.eqb tn "asserting.untypedUint"
  | _ => false
  end.

(** The dynamic type of [v] is [untypedFloat]. *)
Definition is_untypedFloat (v : value) : bool :=
  match v with
  | VFloat KFloat64 tn _ => String.eqb tn "asserting.untypedFloat"
  | _ => false
  end.

(** One operand is an untyped integer or unsigned, the other an untyped
    float. *)
Definition integer_float_pair (a b : value) : bool :=
  (is_untyped_integer a && is_untypedFloat b)
  || (is_untypedFloat a && is_untyped_integer b).

Definition float_2_53 : spec_float := S754_finite false 4503599627370496 1.
Definition GoFloat64 (f : spec_float) : value := VFloat KFloat64 "float64" f.

(** The dynamic type of [v] is not nil and not a slice type. *)
Definition not_slice (v : value) : bool :=
  match TypeOf v with
  | Some t => negb (reflect.Kind_eqb (reflect.tkind t) reflect.Slice)
  | None => false
  end.

(** What [recover()] returns after a call with the outcome [r]. *)
Definition recovered (r : result unit) : value :=
  match r with Ok _ => VNil | Panic p => p end.

(** A value printed with its type after it, [%[1]v(%[1]T)]. *)
Definition annotated (verb_v : value -> string) (x : value) : string :=
  fmt.format_v verb_v x ++ "(" ++ fmt.format_T x ++ ")".

(** Values and functions of the examples: the slice [[]int{1}], a NaN, a
    program whose every function panics with that slice, and a program
    whose state counts the calls: every function adds one and returns. *)
Definition one_int_slice : value := asserting_test.ints 8%N [1].


Definition slice_thrower (a : addr) : prog asserting_test.MockTB unit :=
  panic one_int_slice.

Definition counting (a : addr) : prog nat unit := fun n => (Ok tt, S n).

Ltac unfold_untyped :=
  unfold asserting.UntypedInt, asserting.UntypedUint, asserting.UntypedFloat,
    asserting.untypedInt_equals, asserting.untypedUint_equals,
    asserting.untypedFloat_equals, asserting.untypedString_equals,
    asserting.untypedComplex_equals, asserting.untypedInt,
    asserting.untypedUint, asserting.untypedFloat, asserting.untypedString,
    asserting.untypedComplex in *.

(** The five types that implement [ieq], each with its method. *)
Inductive untyped_view : value -> asserting.ieq -> Prop :=
| view_int i : untyped_view (asserting.untypedInt i) (asserting.untypedInt_equals i)
| view_uint i : untyped_view (asserting.untypedUint i) (asserting.untypedUint_equals i)
| view_float f : untyped_view (asserting.untypedFloat f) (asserting.untypedFloat_equals f)
| view_string s : untyped_view (asserting.untypedString s) (asserting.untypedString_equals s)
| view_complex re im :
    untyped_view (asserting.untypedComplex re im) (asserting.untypedComplex_equals re im).


(** The note that [Message] of [panics] and of [panicMatches] appends for a
    captured value [got]. *)
Definition nilExplain (got : value) : string :=
  if asserting.is_nil got then " (didn't panic?)" else "".

(** The number of binary digits of an integer that is not zero. *)
Definition Zdigits (i : Z) : Z := Z.log2 (Z.abs i) + 1.

(** The float 3.0, as a float64 value. *)
Definition float_three : spec_float := S754_finite false 6755399441055744 (-51).

(** A call of [Error] or of [Fatal] on the mock, and a sequence of such
    calls in program order. *)
Inductive report : Type :=
| ReportError (args : list value)
| ReportFatal (args : list value).

Definition run_report (r : report) : prog asserting_test.MockTB unit :=
  match r with
  | ReportError args => asserting_test.MockTB_Error args
  | ReportFatal args => asserting_test.MockTB_Fatal args
  end.

Fixpoint run_reports (l : list report) : prog asserting_test.MockTB unit :=
  match l with
  | [] => ret tt
  | r :: l' => bind (run_report r) (fun _ => run_reports l')
  end.

(** The arguments of the calls of [Error] that come before the first call
    of [Fatal], and the arguments of that first call of [Fatal]. *)
Fixpoint errors_before_fatal (l : list report) : list (list value) :=
  match l with
  | ReportError args :: l' => args :: errors_before_fatal l'
  | _ => []
  end.

Fixpoint first_fatal (l : list report) : list (list value) :=
  match l with
  | [] => []
  | ReportError _ :: l' => first_fatal l'
  | ReportFatal args :: _ => [args]
  end.

(** A message function that marks the mock as failed when it runs. *)
Definition marking_message : prog asserting_test.MockTB string :=
  fun m =>
    (Ok "made", asserting_test.mkMockTB (asserting_test.ErrorMessages m)
                  (asserting_test.FatalMessages m) true).

(* ================================================================== *)
(** * Properties of the run-time model *)
(* ================================================================== *)

Section ValueInduction.
Variable P : value -> Prop.
Hypothesis HArray : forall tn cmp l, Forall P l -> P (VArray tn cmp l).
Hypothesis HStruct : forall tn cmp l, Forall P l -> P (VStruct tn cmp l).
Hypothesis Hflat :
  forall v,
    match v with VArray _ _ _ | VStruct _ _ _ => False | _ => True end -> P v.

(** Induction on values that descends into arrays and structs. *)
Fixpoint value_aggregate_ind (v : value) : P v :=
  match v with
  | VArray tn cmp l =>
      HArray tn cmp l
        ((fix all (l : list value) : Forall P l :=
            match l with
            | [] => Forall_nil P
            | x :: l' => Forall_cons x (value_aggregate_ind x) (all l')
            end) l)
  | VStruct tn cmp l =>
      HStruct tn cmp l
        ((fix all (l : list value) : Forall P l :=
            match l with
            | [] => Forall_nil P
            | x :: l' => Forall_cons x (value_aggregate_ind x) (all l')
            end) l)
  | v' => Hflat v' I
  end.
End ValueInduction.

Lemma Kind_eqb_refl k : reflect.Kind_eqb k k = true.
Proof.
  unfold reflect.Kind_eqb. destruct (reflect.Kind_eq_dec k k); congruence.
Qed.

Lemma Kind_eqb_eq a b : reflect.Kind_eqb a b = true <-> a = b.
Proof.
  unfold reflect.Kind_eqb. destruct (reflect.Kind_eq_dec a b); split; congruence.
Qed.

Lemma Type_eqb_eq a b : reflect.Type_eqb a b = true <-> a = b.
Proof.
  destruct a as [n1 k1 c1], b as [n2 k2 c2]. unfold reflect.Type_eqb. simpl.
  rewrite !andb_true_iff, String.eqb_eq, Kind_eqb_eq, Bool.eqb_true_iff.
  split.
  - intros [[-> ->] ->]. reflexivity.
  - intros H. inversion H. auto.
Qed.

Lemma Type_eqb_refl t : reflect.Type_eqb t t = true.
Proof. apply Type_eqb_eq. reflexivity. Qed.

Lemma Type_eqb_sym a b : reflect.Type_eqb a b = reflect.Type_eqb b a.
Proof.
  destruct (reflect.Type_eqb a b) eqn:E1, (reflect.Type_eqb b a) eqn:E2;
    try reflexivity.
  - apply Type_eqb_eq in E1. subst. rewrite Type_eqb_refl in E2. discriminate.
  - apply Type_eqb_eq in E2. subst. rewrite Type_eqb_refl in E1. discriminate.
Qed.

Lemma Pos_compare_cont_Eq_sym m n :
  Pos.compare_cont Eq m n = Eq -> Pos.compare_cont Eq n m = Eq.
Proof.
  intros H. apply Pos.compare_eq in H. subst. apply Pos.compare_refl.
Qed.

Lemma SFcompare_Eq_sym x y : SFcompare x y = Some Eq -> SFcompare y x = Some Eq.
Proof.
  destruct x as [s1|s1| |s1 m1 e1], y as [s2|s2| |s2 m2 e2]; simpl;
    try discriminate; try reflexivity;
    try (destruct s1; discriminate); try (destruct s2; discriminate).
  - destruct s1, s2; try discriminate; reflexivity.
  - destruct s1, s2; try discriminate.
    + destruct (Z.compare e1 e2) eqn:E; try discriminate.
      apply Z.compare_eq in E. subst. rewrite Z.compare_refl.
      destruct (Pos.compare_cont Eq m1 m2) eqn:C; try discriminate.
      rewrite (Pos_compare_cont_Eq_sym _ _ C). reflexivity.
    + destruct (Z.compare e1 e2) eqn:E; try discriminate.
      apply Z.compare_eq in E. subst. rewrite Z.compare_refl.
      intros H. rewrite (Pos_compare_cont_Eq_sym m1 m2); [reflexivity|].
      destruct (Pos.compare_cont Eq m1 m2); try discriminate; reflexivity.
Qed.

Lemma float_eq_sym x y : float_eq x y = float_eq y x.
Proof.
  unfold float_eq, SFeqb.
  destruct (SFcompare x y) as [[]|] eqn:E1.
  - rewrite (SFcompare_Eq_sym _ _ E1). reflexivity.
  - destruct (SFcompare y x) as [[]|] eqn:E2; try reflexivity.
    rewrite (SFcompare_Eq_sym _ _ E2) in E1. discriminate.
  - destruct (SFcompare y x) as [[]|] eqn:E2; try reflexivity.
    rewrite (SFcompare_Eq_sym _ _ E2) in E1. discriminate.
  - destruct (SFcompare y x) as [[]|] eqn:E2; try reflexivity.
    rewrite (SFcompare_Eq_sym _ _ E2) in E1. discriminate.
Qed.


Lemma option_eqb_N_sym (p q : option N) :
  option_eqb N.eqb p q = option_eqb N.eqb q p.
Proof. destruct p, q; simpl; try reflexivity. apply N.eqb_sym. Qed.


Lemma eq_elems_sym (l1 : list value) :
  Forall (fun x => forall y, go_eq x y = go_eq y x) l1 ->
  forall l2, eq_elems go_eq l1 l2 = eq_elems go_eq l2 l1.
Proof.
  induction 1 as [|x l1 Hx _ IH]; intros [|y l2]; simpl; try reflexivity.
  rewrite (Hx y). destruct (go_eq y x) as [[]|]; try reflexivity. apply IH.
Qed.

Lemma go_eq_unfold a b :
  go_eq a b =
  match TypeOf a, TypeOf b with
  | None, None => Ok true
  | None, Some _ | Some _, None => Ok false
  | Some ta, Some tb =>
      if negb (reflect.Type_eqb ta tb) then Ok false
      else if negb (reflect.tcomparable ta) then Panic (uncomparable ta)
      else
        match a, b with
        | VBool _ x, VBool _ y => Ok (Bool.eqb x y)
        | VInt _ _ x, VInt _ _ y => Ok (x =? y)%Z
        | VUint _ _ x, VUint _ _ y => Ok (x =? y)%Z
        | VFloat _ _ x, VFloat _ _ y => Ok (float_eq x y)
        | VComplex _ _ r1 i1, VComplex _ _ r2 i2 =>
            Ok (float_eq r1 r2 && float_eq i1 i2)
        | VString _ x, VString _ y => Ok (String.eqb x y)
        | VPtr _ p, VPtr _ q => Ok (option_eqb N.eqb (ident p) (ident q))
        | VRef _ _ p, VRef _ _ q => Ok (option_eqb N.eqb p q)
        | VArray _ _ l1, VArray _ _ l2 => eq_elems go_eq l1 l2
        | VStruct _ _ l1, VStruct _ _ l2 => eq_elems go_eq l1 l2
        | _, _ => Ok false
        end
  end.
Proof. destruct a; reflexivity. Qed.

Lemma TypeOf_kind_shape a b ta tb :
  TypeOf a = Some ta -> TypeOf b = Some tb -> reflect.Type_eqb ta tb = true ->
  match a, b with
  | VBool _ _, VBool _ _ | VInt _ _ _, VInt _ _ _ | VUint _ _ _, VUint _ _ _
  | VFloat _ _ _, VFloat _ _ _ | VComplex _ _ _ _, VComplex _ _ _ _
  | VString _ _, VString _ _ | VPtr _ _, VPtr _ _ | VRef _ _ _, VRef _ _ _
  | VMap _ _, VMap _ _ | VSlice _ _, VSlice _ _ | VArray _ _ _, VArray _ _ _
  | VStruct _ _ _, VStruct _ _ _ => True
  | _, _ => False
  end.
Proof.
  intros Ha Hb E. apply Type_eqb_eq in E. subst tb.
  destruct a; simpl in Ha; inversion Ha; subst ta; clear Ha;
    destruct b; simpl in Hb; inversion Hb; try exact I;
    repeat match goal with k : intk |- _ => destruct k
                      | k : uintk |- _ => destruct k
                      | k : floatk |- _ => destruct k
                      | k : complexk |- _ => destruct k
                      | k : refk |- _ => destruct k end; discriminate.
Qed.

Lemma go_eq_sym a : forall b, go_eq a b = go_eq b a.
Proof.
  induction a using value_aggregate_ind; intros b.
  - rewrite (go_eq_unfold (VArray tn cmp l) b), (go_eq_unfold b (VArray tn cmp l)).
    destruct (TypeOf b) as [tb|] eqn:Hb; simpl TypeOf; cbv beta iota; [|destruct b; try discriminate; reflexivity].
    rewrite (Type_eqb_sym tb).
    destruct (reflect.Type_eqb _ tb) eqn:E; simpl; [|reflexivity].
    pose proof (TypeOf_kind_shape (VArray tn cmp l) b _ _ eq_refl Hb E) as S.
    apply Type_eqb_eq in E. subst tb. simpl.
    destruct cmp; simpl; [|reflexivity].
    destruct b; try contradiction. apply eq_elems_sym. assumption.
  - rewrite (go_eq_unfold (VStruct tn cmp l) b), (go_eq_unfold b (VStruct tn cmp l)).
    destruct (TypeOf b) as [tb|] eqn:Hb; simpl TypeOf; cbv beta iota; [|destruct b; try discriminate; reflexivity].
    rewrite (Type_eqb_sym tb).
    destruct (reflect.Type_eqb _ tb) eqn:E; simpl; [|reflexivity].
    pose proof (TypeOf_kind_shape (VStruct tn cmp l) b _ _ eq_refl Hb E) as S.
    apply Type_eqb_eq in E. subst tb. simpl.
    destruct cmp; simpl; [|reflexivity].
    destruct b; try contradiction. apply eq_elems_sym. assumption.
  - rewrite (go_eq_unfold a b), (go_eq_unfold b a).
    destruct (TypeOf a) as [ta|] eqn:Ha, (TypeOf b) as [tb|] eqn:Hb; try reflexivity.
    rewrite (Type_eqb_sym tb).
    destruct (reflect.Type_eqb ta tb) eqn:E; simpl; [|reflexivity].
    pose proof (TypeOf_kind_shape a b _ _ Ha Hb E) as S.
    apply Type_eqb_eq in E. subst tb.
    destruct (reflect.tcomparable ta); simpl; [|reflexivity].
    destruct a; try contradiction; destruct b; try contradiction; f_equal.
    + destruct b0, b; reflexivity.
    + apply Z.eqb_sym.
    + apply Z.eqb_sym.
    + apply float_eq_sym.
    + rewrite (float_eq_sym re), (float_eq_sym im). reflexivity.
    + apply String.eqb_sym.
    + apply option_eqb_N_sym.
    + apply option_eqb_N_sym.
Qed.


(* ================================================================== *)
(** * Properties of the equality algorithm *)
(* ================================================================== *)

Lemma as_ieq_inv a e : asserting.as_ieq a = Some e -> untyped_view a e.
Proof.
  destruct a; simpl; try discriminate;
    try (destruct k; try discriminate);
    match goal with
    | |- context [String.eqb ?tn ?s] =>
        destruct (String.eqb tn s) eqn:E; try discriminate;
        apply String.eqb_eq in E; subst tn
    end;
    intros H; inversion H; constructor.
Qed.

Lemma ieq_agree a b ea eb :
  asserting.as_ieq a = Some ea -> asserting.as_ieq b = Some eb ->
  integer_float_pair a b = false -> ea b = eb a.
Proof.
  intros Ha Hb. apply as_ieq_inv in Ha. apply as_ieq_inv in Hb.
  destruct Ha, Hb;
    unfold_untyped; simpl; try discriminate; intros _; try reflexivity.
  - apply Z.eqb_sym.
  - rewrite (Z.eqb_sym i0). reflexivity.
  - rewrite (Z.eqb_sym i). reflexivity.
  - apply Z.eqb_sym.
  - apply float_eq_sym.
  - apply String.eqb_sym.
  - rewrite (float_eq_sym re), (float_eq_sym im). reflexivity.
Qed.

Lemma is_nil_true v : asserting.is_nil v = true -> v = VNil.
Proof. destruct v; simpl; congruence. Qed.








Lemma in_int64_bounds i : in_intk KInt64 i = true -> - 2 ^ 63 <= i < 2 ^ 63.
Proof.
  unfold in_intk. simpl bits_of_intk. rewrite andb_true_iff, Z.leb_le, Z.ltb_lt.
  change (64 - 1) with 63. tauto.
Qed.

Lemma in_intk_int64 k r : in_intk k r = true -> in_intk KInt64 r = true.
Proof.
  unfold in_intk. rewrite !andb_true_iff, !Z.leb_le, !Z.ltb_lt.
  destruct k; simpl; lia.
Qed.

Lemma uint64_nonneg i : 0 <= i < 2 ^ 63 -> uint64 i = i.
Proof. intros H. unfold uint64. apply Z.mod_small. lia. Qed.

(** The sign test and the comparison after the conversion to [uint64], on
    an [int64]. *)
Lemma signed_unsigned_rule i r :
  in_intk KInt64 i = true ->
  (i >=? 0) && (uint64 i =? r) = (0 <=? i) && (i =? r).
Proof.
  intros H. apply in_int64_bounds in H. rewrite Z.geb_leb.
  destruct (0 <=? i) eqn:E; [|reflexivity]. simpl.
  apply Z.leb_le in E. rewrite uint64_nonneg by lia. reflexivity.
Qed.

Lemma signed_unsigned_rule' i r :
  in_intk KInt64 i = true ->
  (i >=? 0) && (r =? uint64 i) = (0 <=? i) && (i =? r).
Proof.
  intros H. rewrite (Z.eqb_sym r). apply signed_unsigned_rule, H.
Qed.

Lemma Type_eqb_kind a b :
  reflect.tkind a <> reflect.tkind b -> reflect.Type_eqb a b = false.
Proof.
  intros H. destruct (reflect.Type_eqb a b) eqn:E; [|reflexivity].
  apply Type_eqb_eq in E. subst. congruence.
Qed.

(** Values of different kinds are not [==]. *)
Lemma go_eq_kinds a b ta tb :
  TypeOf a = Some ta -> TypeOf b = Some tb ->
  reflect.tkind ta <> reflect.tkind tb -> go_eq a b = Ok false.
Proof.
  intros Ha Hb Hk. rewrite go_eq_unfold, Ha, Hb, (Type_eqb_kind _ _ Hk).
  reflexivity.
Qed.

(** [eq] on two values that are not nil and not [==]. *)
Lemma eq_not_go_eq a b :
  go_eq a b = Ok false -> asserting.is_nil a = false ->
  asserting.is_nil b = false ->
  asserting.eq a b =
  match asserting.as_ieq a with
  | Some e => Ok (e b)
  | None =>
      match asserting.as_ieq b with
      | Some e => Ok (e a)
      | None => Ok false
      end
  end.
Proof. intros G Na Nb. unfold asserting.eq. rewrite G, Na, Nb. reflexivity. Qed.

Lemma go_eq_int_uint k1 t1 n1 k2 t2 n2 :
  go_eq (VInt k1 t1 n1) (VUint k2 t2 n2) = Ok false /\
  go_eq (VUint k2 t2 n2) (VInt k1 t1 n1) = Ok false.
Proof.
  split; eapply go_eq_kinds; try reflexivity; destruct k1, k2; discriminate.
Qed.

Lemma eq_untypedInt_VUint i k tn r :
  asserting.eq (asserting.untypedInt i) (VUint k tn r)
  = Ok (asserting.untypedInt_equals i (VUint k tn r)).
Proof.
  rewrite eq_not_go_eq; try reflexivity. apply go_eq_int_uint.
Qed.

Lemma eq_VUint_untypedInt i k tn r :
  asserting.eq (VUint k tn r) (asserting.untypedInt i)
  = Ok (if is_untyped_integer (VUint k tn r)
        then asserting.untypedUint_equals r (asserting.untypedInt i)
        else asserting.untypedInt_equals i (VUint k tn r)).
Proof.
  rewrite eq_not_go_eq; try reflexivity; [|apply go_eq_int_uint].
  destruct k; try reflexivity. simpl.
  destruct (String.eqb tn "asserting.untypedUint"); reflexivity.
Qed.

Lemma eq_untypedUint_VInt i k tn r :
  asserting.eq (asserting.untypedUint i) (VInt k tn r)
  = Ok (asserting.untypedUint_equals i (VInt k tn r)).
Proof.
  rewrite eq_not_go_eq; try reflexivity. apply go_eq_int_uint.
Qed.

Lemma eq_VInt_untypedUint i k tn r :
  asserting.eq (VInt k tn r) (asserting.untypedUint i)
  = Ok (if is_untyped_integer (VInt k tn r)
        then asserting.untypedInt_equals r (asserting.untypedUint i)
        else asserting.untypedUint_equals i (VInt k tn r)).
Proof.
  rewrite eq_not_go_eq; try reflexivity; [|apply go_eq_int_uint].
  destruct k; try reflexivity. simpl.
  destruct (String.eqb tn "asserting.untypedInt"); reflexivity.
Qed.

Lemma untypedInt_equals_VUint i k tn r :
  asserting.untypedInt_equals i (VUint k tn r)
  = match k with
    | KUintptr => false
    | _ => (i >=? 0) && (uint64 i =? r)
    end.
Proof. destruct k; reflexivity. Qed.

Lemma untypedUint_equals_VInt i k tn r :
  asserting.untypedUint_equals i (VInt k tn r)
  = (r >=? 0) && (i =? uint64 r).
Proof. destruct k; reflexivity. Qed.


(* ================================================================== *)
(** * Properties of the conditions and of the evaluator *)
(* ================================================================== *)

Section Run.
Variable W : Type.
Variable call : addr -> prog W unit.
Variable verb_v : value -> string.
Variable t : asserting.TB W.

Local Notation "'Assert'" := (asserting.Assert W verb_v t).
Local Notation "'Sprintf'" := (fmt.Sprintf verb_v).
Local Notation "'Helper'" := (asserting.Helper W t).
Local Open Scope prog_scope.

Lemma append_empty s : s ++ "" = s.
Proof. induction s as [|c s IH]; simpl; [reflexivity | now rewrite IH]. Qed.

Lemma Sprintf_v x : Sprintf "%v" [x] = fmt.format_v verb_v x.
Proof. unfold fmt.Sprintf. simpl. apply append_empty. Qed.

Lemma Sprintf_annotated x : Sprintf "%[1]v(%[1]T)" [x] = annotated verb_v x.
Proof. reflexivity. Qed.

Lemma Sprintf_expected a b :
  Sprintf "expected <%v> but was <%v>" [GoString a; GoString b]
  = "expected <" ++ a ++ "> but was <" ++ b ++ ">".
Proof. reflexivity. Qed.

Lemma Sprintf_unexpected_error err :
  Sprintf "unexpected error <%v>" [err]
  = "unexpected error <" ++ fmt.format_v verb_v err ++ ">".
Proof. reflexivity. Qed.

Lemma formatMsg_expected e v :
  asserting.formatMsg verb_v "expected <%v> but was <%v>" e v
  = if String.eqb (fmt.format_v verb_v e) (fmt.format_v verb_v v)
    then "expected <" ++ annotated verb_v e ++ "> but was <"
         ++ annotated verb_v v ++ ">"
    else "expected <" ++ fmt.format_v verb_v e ++ "> but was <"
         ++ fmt.format_v verb_v v ++ ">".
Proof.
  unfold asserting.formatMsg. rewrite !Sprintf_v, !Sprintf_annotated.
  destruct (String.eqb _ _); apply Sprintf_expected.
Qed.

Lemma as_hasError_ptr a e :
  asserting.as_hasError (asserting.hasError_ptr a e) = Some (Some e).
Proof. destruct e. reflexivity. Qed.

(** The inner call of [Assert] runs the second part of the body: the
    definition of [Assert] solves the recursive equation of the source. *)
Lemma Assert_recursive T (I : cond.Condition W T) v err (c : cond.cond W T) w :
  asserting.as_hasError v = Some (Some err) ->
  Assert v (c, w)
  = (world Helper ;;
     with_object (asserting.hasError_cond W err)
       (asserting.Assert W verb_v t
          (I := asserting.equals_Condition W verb_v) (GoInt 0))) (c, w).
Proof. intros H. unfold asserting.Assert. rewrite H. reflexivity. Qed.

(** [Assert] on a [hasError]: two calls of [Helper], then one report of
    the stored message, with [Fatal] when the flag is set. *)
Lemma Assert_hasError T (I : cond.Condition W T) a e (c : cond.cond W T) w :
  Assert (asserting.hasError_ptr a e) (c, w)
  = world (Helper ;; Helper ;;
           (if asserting.fatal e then asserting.Fatal W t
            else asserting.Error W t) [GoString (asserting.message e)]) (c, w).
Proof.
  unfold asserting.Assert. rewrite as_hasError_ptr.
  unfold bind, world, with_object. cbn [fst snd].
  destruct (Helper w) as [[[]|p] w1]; [|reflexivity].
  cbn [fst snd].
  destruct (Helper w1) as [[[]|p] w2]; [|reflexivity].
  unfold asserting.check, asserting.hasError_cond, bind.
  destruct e as [m [|]]; simpl; unfold world; cbn [fst snd].
  - destruct (asserting.Fatal W t [GoString m] w2) as [r w3]. reflexivity.
  - destruct (asserting.Error W t [GoString m] w2) as [r w3]. reflexivity.
Qed.

(** A panic of [Test] is a panic of [Assert], after [Helper] alone. *)
Lemma Assert_Test_panics T (I : cond.Condition W T) v (c : cond.cond W T) w p :
  asserting.as_hasError v = None ->
  (forall w', cond.Condition_Test W v (cond.Condition_ c, w')
              = (Panic p, (cond.Condition_ c, w'))) ->
  Assert v (c, w) = (world Helper ;; panic p) (c, w).
Proof.
  intros Hv Ht. unfold asserting.Assert. rewrite Hv.
  unfold bind, world. cbn [fst snd].
  destruct (Helper w) as [[[]|q] w1]; [|reflexivity].
  unfold asserting.check, bind, cond.Test, cond.embedded. cbn [fst snd].
  rewrite Ht. destruct c. reflexivity.
Qed.

(** A failed test of a condition with no message of the user's: one report
    of the message of the condition, with [Error]. *)
Lemma Assert_fails T (I : cond.Condition W T) v (o : T) w msg :
  asserting.as_hasError v = None ->
  (forall w', cond.Condition_Test W v (o, w') = (Ok false, (o, w'))) ->
  (forall w', cond.Condition_Message W v (o, w') = (Ok msg, (o, w'))) ->
  Assert v (cond.New W o, w)
  = world (Helper ;; asserting.Error W t [GoString msg]) (cond.New W o, w).
Proof.
  intros Hv Ht Hm. unfold asserting.Assert. rewrite Hv.
  unfold bind, world. cbn [fst snd].
  destruct (Helper w) as [[[]|q] w1]; [|reflexivity].
  unfold asserting.check, bind, cond.Test, cond.Message, cond.message,
    cond.embedded, cond.New, get_this, world, bind.
  cbn [fst snd cond.Condition_ cond.userMsg cond.isFatal cond.Fatal cond.fatal].
  rewrite Ht. cbn [fst snd negb cond.Condition_ cond.userMsg cond.isFatal].
  unfold cond.Fatal, cond.fatal. cbn [cond.isFatal cond.userMsg].
  rewrite Hm. cbn [fst snd].
  destruct (asserting.Error W t [GoString msg] w1) as [r w2]. reflexivity.
Qed.

Lemma equals_Test_eq e v w :
  asserting.equals_Test W v (asserting.mkequals e, w)
  = (asserting.eq e v, (asserting.mkequals e, w)).
Proof. reflexivity. Qed.

Lemma notEquals_Test_eq e v w :
  asserting.notEquals_Test W v (asserting.mknotEquals (asserting.mkequals e), w)
  = (match asserting.eq e v with Ok b => Ok (negb b) | Panic p => Panic p end,
     (asserting.mknotEquals (asserting.mkequals e), w)).
Proof.
  unfold asserting.notEquals_Test, bind, get_this, with_object. cbn [fst snd].
  cbn [asserting.to_equals]. rewrite equals_Test_eq. cbn [fst snd].
  destruct (asserting.eq e v); reflexivity.
Qed.

Lemma panics_Test_not_func v c w :
  asserting.as_func v = None ->
  asserting.panics_Test W call verb_v v (c, w)
  = (Panic (asserting.not_a_func verb_v v), (c, w)).
Proof. intros H. unfold asserting.panics_Test. rewrite H. reflexivity. Qed.

Lemma panicMatches_Test_not_func v c w :
  asserting.as_func v = None ->
  asserting.panicMatches_Test W call verb_v v (c, w)
  = (Panic (asserting.not_a_func verb_v v), (c, w)).
Proof. intros H. unfold asserting.panicMatches_Test. rewrite H. reflexivity. Qed.

(** [Test] of [panics] on a function value: one call, the capture, then
    [eq] on the captured value. *)
Lemma panics_Test_func v f e got0 w :
  asserting.as_func v = Some f ->
  asserting.panics_Test W call verb_v v (asserting.mkpanics e got0, w)
  = (asserting.eq e (recovered (fst (asserting.invoke W call f w))),
     (asserting.mkpanics e (recovered (fst (asserting.invoke W call f w))),
      snd (asserting.invoke W call f w))).
Proof.
  intros Hf. unfold asserting.panics_Test. rewrite Hf.
  unfold bind, recovering, world, get_this, set_this, lift_result.
  cbn [fst snd].
  destruct (asserting.invoke W call f w) as [[[]|q] w1]; reflexivity.
Qed.

(** [Test] of [panicMatches] on a function value: one call, the capture,
    then the predicate on the captured value. *)
Lemma panicMatches_Test_func v f p got0 w :
  asserting.as_func v = Some f ->
  asserting.panicMatches_Test W call verb_v v
    (asserting.mkpanicMatches W got0 p, w)
  = (fst (p (recovered (fst (asserting.invoke W call f w)))
            (snd (asserting.invoke W call f w))),
     (asserting.mkpanicMatches W
        (recovered (fst (asserting.invoke W call f w))) p,
      snd (p (recovered (fst (asserting.invoke W call f w)))
             (snd (asserting.invoke W call f w))))).
Proof.
  intros Hf. unfold asserting.panicMatches_Test. rewrite Hf.
  unfold bind, recovering, world, get_this, set_this. cbn [fst snd].
  destruct (asserting.invoke W call f w) as [[[]|q] w1];
    cbn [fst snd recovered asserting.panicMatches_f];
    destruct (p _ w1) as [r w2]; reflexivity.
Qed.

Lemma equalsSlice_Test_not_slice_subject v c w :
  not_slice v = true ->
  asserting.equalsSlice_Test W verb_v v (c, w)
  = (Panic (asserting.not_a_slice verb_v v), (c, w)).
Proof.
  unfold not_slice, asserting.equalsSlice_Test, bind, get_this. cbn [fst snd].
  destruct (TypeOf v) as [t1|]; [|discriminate]. intros ->. reflexivity.
Qed.

Lemma equalsSlice_Test_not_slice_expected v e w :
  not_slice v = false -> not_slice e = true ->
  asserting.equalsSlice_Test W verb_v v (asserting.mkequalsSlice e, w)
  = (Panic (asserting.not_a_slice verb_v e), (asserting.mkequalsSlice e, w)).
Proof.
  unfold not_slice, asserting.equalsSlice_Test, bind, get_this. cbn [fst snd].
  cbn [asserting.equalsSlice_expected].
  destruct (TypeOf e) as [t2|]; [|discriminate]. intros Hv ->.
  destruct (TypeOf v) as [t1|]; [rewrite Hv|]; reflexivity.
Qed.

Lemma equalsSlice_Test_type_mismatch v e t1 t2 w :
  TypeOf v = Some t1 -> TypeOf e = Some t2 ->
  reflect.tkind t1 = reflect.Slice -> reflect.tkind t2 = reflect.Slice ->
  t1 <> t2 ->
  asserting.equalsSlice_Test W verb_v v (asserting.mkequalsSlice e, w)
  = (Panic (asserting.type_mismatch verb_v t1 t2),
     (asserting.mkequalsSlice e, w)).
Proof.
  intros H1 H2 K1 K2 D.
  unfold asserting.equalsSlice_Test, bind, get_this. cbn [fst snd].
  cbn [asserting.equalsSlice_expected]. rewrite H1, H2, K1, K2. simpl.
  destruct (reflect.Type_eqb t1 t2) eqn:E; [|reflexivity].
  apply Type_eqb_eq in E. contradiction.
Qed.

(** The untyped nil and an empty slice are equal for [equalsSlice], in both
    directions. *)
Lemma equalsSlice_Test_nil_interface tn a w :
  asserting.equalsSlice_Test W verb_v (VSlice tn (Some (a, [])))
    (asserting.mkequalsSlice VNil, w)
  = (Ok true, (asserting.mkequalsSlice VNil, w)) /\
  asserting.equalsSlice_Test W verb_v VNil
    (asserting.mkequalsSlice (VSlice tn (Some (a, []))), w)
  = (Ok true, (asserting.mkequalsSlice (VSlice tn (Some (a, []))), w)).
Proof. split; reflexivity. Qed.

End Run.

(* ================================================================== *)
(** * The tests of the repository, run on the model *)
(* ================================================================== *)

Module tests.
Import asserting_test.
Local Open Scope prog_scope.

(** [TestEquals] *)
Example TestEquals :
  (Assert (GoInt 1) (asserting.Equals MockTB (GoInt 1)) ;;
   Assert (GoInt 1) (asserting.Equals MockTB (GoInt 2))) new_mock
  = (Ok tt, mkMockTB [[GoString "expected <2> but was <1>"]] [] false).
Proof. reflexivity. Qed.

(** [TestNotEquals] *)
Example TestNotEquals :
  (Assert (GoInt 1) (asserting.NotEquals MockTB (GoString "abc")) ;;
   Assert (GoInt 1) (asserting.NotEquals MockTB (GoInt 1))) new_mock
  = (Ok tt, mkMockTB [[GoString "unexpected <1>"]] [] false).
Proof. reflexivity. Qed.

(** [TestMatches], with the predicate [v == 1] and its negation. *)
Example TestMatches :
  (Assert (GoInt 1)
     (asserting.Matches MockTB (fun v => lift_result (go_eq v (GoInt 1)))) ;;
   Assert (GoInt 1)
     (asserting.Matches MockTB
        (fun v => b <- lift_result (go_eq v (GoInt 1)) ;; ret (negb b))))
    new_mock
  = (Ok tt, mkMockTB [[GoString "unexpected <1>"]] [] false).
Proof. reflexivity. Qed.

(** [TestPanics] *)
Example TestPanics :
  (Assert (func 1) (asserting.Panics MockTB (GoInt 1)) ;;
   Assert (func 2) (asserting.Panics MockTB (GoInt 1))) new_mock
  = (Ok tt,
     mkMockTB [[GoString "expected to panic with <1> but <2>"]] [] false).
Proof. reflexivity. Qed.

(** [TestPanicMatches] *)
Example TestPanicMatches :
  (Assert (func 1)
     (asserting.PanicMatches MockTB
        (fun v => lift_result (go_eq v (GoInt 1)))) ;;
   Assert (func 2)
     (asserting.PanicMatches MockTB
        (fun v => lift_result (go_eq v (GoInt 1))))) new_mock
  = (Ok tt, mkMockTB [[GoString "unexpected panic <2>"]] [] false).
Proof. reflexivity. Qed.

(** [TestEqualsSlice] *)
Example TestEqualsSlice :
  (Assert (ints 1 [1; 2; 3]) (asserting.EqualsSlice MockTB (ints 2 [1; 2; 3])) ;;
   Assert (ints 1 [1; 2; 3]) (asserting.EqualsSlice MockTB (ints 3 [1; 2])))
    new_mock
  = (Ok tt, mkMockTB [[GoString "expected <[1 2]> but was <[1 2 3]>"]] [] false).
Proof. reflexivity. Qed.

(** [TestValueError] *)
Example TestValueError :
  (Assert (asserting.ValueError test_verb_v 7 (GoInt 1) VNil)
     (asserting.Equals MockTB (GoInt 1)) ;;
   Assert (asserting.ValueError test_verb_v 7 (GoInt 1) (errors_New 9 "error"))
     (asserting.Equals MockTB (GoInt 1))) new_mock
  = (Ok tt, mkMockTB [[GoString "unexpected error <error>"]] [] false).
Proof. reflexivity. Qed.

(** [TestFatal] *)
Example TestFatal :
  (Assert (GoInt 1) (cond.SetFatal MockTB (asserting.Equals MockTB (GoInt 2))) ;;
   Assert (GoInt 1) (asserting.Equals MockTB (GoInt 3))) new_mock
  = (Ok tt, mkMockTB [] [[GoString "expected <2> but was <1>"]] true).
Proof. reflexivity. Qed.

(** [TestAssertTrue] *)
Example TestAssertTrue :
  (asserting.AssertTrue MockTB test_verb_v mock true ;;
   asserting.AssertTrue MockTB test_verb_v mock false) new_mock
  = (Ok tt, mkMockTB [[GoString "unexpected false condition"]] [] false).
Proof. reflexivity. Qed.

(** [TestAssertNoError] *)
Example TestAssertNoError :
  (asserting.AssertNoError MockTB test_verb_v mock VNil ;;
   asserting.AssertNoError MockTB test_verb_v mock (errors_New 9 "err"))
    new_mock
  = (Ok tt, mkMockTB [[GoString "unexpected error <err>"]] [] false).
Proof. reflexivity. Qed.

(** [TestAssertNil]: nil pointers, slices, maps, functions and channels
    equal the untyped nil; two nil pointers of different types do not. *)
Example TestAssertNil :
  (Assert VNil (asserting.Equals MockTB VNil) ;;
   Assert (VPtr "*int" None) (asserting.Equals MockTB VNil) ;;
   Assert (VSlice "[]int" None) (asserting.Equals MockTB VNil) ;;
   Assert (VMap "map[int]int" None) (asserting.Equals MockTB VNil) ;;
   Assert (VRef KFunc "func()" None) (asserting.Equals MockTB VNil) ;;
   Assert (VRef KUnsafePointer "unsafe.Pointer" None)
     (asserting.Equals MockTB VNil) ;;
   Assert (VRef KChan "chan int" None) (asserting.Equals MockTB VNil) ;;
   Assert VNil (asserting.Equals MockTB (VPtr "*int" None)) ;;
   Assert (VPtr "*int" None) (asserting.Equals MockTB (VPtr "*uint8" None)))
    new_mock
  = (Ok tt,
     mkMockTB [[GoString "expected <<nil>(*uint8)> but was <<nil>(*int)>"]] []
       false).
Proof. reflexivity. Qed.

(** [TestAssertUntyped], a choice of its assertions. *)
Example TestAssertUntyped :
  (Assert (VUint KUint8 "uint8" 100)
     (asserting.Equals MockTB (asserting.UntypedInt 100)) ;;
   Assert (VInt KInt16 "int16" 100)
     (asserting.Equals MockTB (asserting.UntypedUint 100)) ;;
   Assert (VInt KInt8 "int8" (-100))
     (asserting.Equals MockTB (asserting.UntypedInt (-100))) ;;
   Assert (VFloat KFloat32 "float32" (binary_normalize prec32 emax32 (-100) 0 false))
     (asserting.Equals MockTB (asserting.UntypedFloat (float64_of_Z (-100)))) ;;
   Assert (asserting.UntypedInt 100)
     (asserting.Equals MockTB (asserting.UntypedUint 100)) ;;
   Assert (asserting.UntypedString "abc")
     (asserting.Equals MockTB (GoString "abc")) ;;
   Assert (VFloat KFloat32 "float32" (binary_normalize prec32 emax32 123 0 false))
     (asserting.Equals MockTB (asserting.UntypedUint 123)) ;;
   Assert VNil (asserting.NotEquals MockTB (asserting.UntypedInt (-123))) ;;
   Assert (GoInt 1) (asserting.Equals MockTB (asserting.UntypedInt 2)))
    new_mock
  = (Ok tt, mkMockTB [[GoString "expected <2> but was <1>"]] [] false).
Proof. vm_compute. reflexivity. Qed.

End tests.

(* ================================================================== *)
(** * The claims *)
(* ================================================================== *)







(** C3.  For every slice type, [EqualsSlice] of the nil slice of the type
    tested on an empty slice of the type returns false, and so it does in
    the other direction: both operands have a dynamic type, so that the
    code hands them to [reflect.DeepEqual], for which a nil slice and an
    empty slice differ. *)
Theorem EqualsSlice_nil_slice_and_empty_slice
  (W : Type) (verb_v : value -> string) (tn : string) (a : addr) (w : W) :
  fst (cond.Test W (I := asserting.equalsSlice_Condition W verb_v)
         (VSlice tn (Some (a, [])))
         (asserting.EqualsSlice W (VSlice tn None), w))
  = Ok false /\
  fst (cond.Test W (I := asserting.equalsSlice_Condition W verb_v)
         (VSlice tn None)
         (asserting.EqualsSlice W (VSlice tn (Some (a, []))), w))
  = Ok false.
Proof.
  unfold cond.Test, cond.embedded, asserting.EqualsSlice, cond.New.
  cbn [fst snd cond.Condition_ cond.Condition_Test
       asserting.equalsSlice_Condition].
  unfold asserting.equalsSlice_Test, bind, get_this, DeepEqual. cbn [fst snd].
  simpl. rewrite !Type_eqb_refl. simpl. split; reflexivity.
Qed.

(** C4.  The untyped integer 2^53 + 1 and the float64 2^53 are equal for
    [eq] in both orders, as the untyped unsigned 2^53 + 1 is, although the
    float denotes 2^53 and not 2^53 + 1: the conversion [float64(i)] of the
    integer rounds it to the float. *)
Theorem untyped_integer_equals_rounded_float :
  in_intk KInt64 9007199254740993 = true /\
  valid_floatk KFloat64 float_2_53 = true /\
  float_is_int float_2_53 9007199254740992 = true /\
  float_is_int float_2_53 9007199254740993 = false /\
  asserting.eq (asserting.UntypedInt 9007199254740993) (GoFloat64 float_2_53)
  = Ok true /\
  asserting.eq (GoFloat64 float_2_53) (asserting.UntypedInt 9007199254740993)
  = Ok true /\
  asserting.eq (asserting.UntypedUint 9007199254740993) (GoFloat64 float_2_53)
  = Ok true /\
  asserting.eq (GoFloat64 float_2_53) (asserting.UntypedUint 9007199254740993)
  = Ok true.
Proof. repeat split; vm_compute; reflexivity. Qed.

(** C5.  With a nil [err], [ValueError(v, err)] and [ValueErrorFatal(v,
    err)] are [v], so that [Assert] does what it does on [v].  With an
    [err] that is not nil, [Assert] on [ValueError(v, err)] is, for every
    condition of every implementing type: [t.Helper()] twice and one call
    of [t.Error] with the message "unexpected error <err>"; the condition
    supplied is returned as it was and the world changes by these calls
    alone, so that neither [Test] nor [Message] of the condition runs.
    With [ValueErrorFatal] the report goes to [t.Fatal]. *)
Theorem Assert_ValueError
  (W : Type) (verb_v : value -> string) (t : asserting.TB W)
  (T : Type) (I : cond.Condition W T)
  (a : addr) (v err : value) (c : cond.cond W T) (w : W) :
  (err = VNil ->
   asserting.Assert W verb_v t (asserting.ValueError verb_v a v err) (c, w)
   = asserting.Assert W verb_v t v (c, w) /\
   asserting.Assert W verb_v t (asserting.ValueErrorFatal verb_v a v err) (c, w)
   = asserting.Assert W verb_v t v (c, w))
  /\
  (err <> VNil ->
   asserting.Assert W verb_v t (asserting.ValueError verb_v a v err) (c, w)
   = world (asserting.Helper W t ;; asserting.Helper W t ;;
            asserting.Error W t
              [GoString ("unexpected error <" ++ fmt.format_v verb_v err
                         ++ ">")])%prog (c, w) /\
   asserting.Assert W verb_v t (asserting.ValueErrorFatal verb_v a v err) (c, w)
   = world (asserting.Helper W t ;; asserting.Helper W t ;;
            asserting.Fatal W t
              [GoString ("unexpected error <" ++ fmt.format_v verb_v err
                         ++ ">")])%prog (c, w)).
Proof.
  split.
  - intros ->. split; reflexivity.
  - intros Herr.
    assert (N : asserting.is_nil err = false)
      by (destruct err; try reflexivity; congruence).
    unfold asserting.ValueError, asserting.ValueErrorFatal. rewrite N.
    simpl negb. cbv iota. rewrite !Assert_hasError. split; reflexivity.
Qed.

Lemma Assert_ValueError_witness :
  asserting_test.errors_New 9%N "error" <> VNil /\
  asserting.Assert asserting_test.MockTB asserting_test.test_verb_v
    asserting_test.mock (I := asserting_test.panics_Condition)
    (asserting.ValueError asserting_test.test_verb_v 7%N (GoInt 1)
       (asserting_test.errors_New 9%N "error"))
    (asserting.Panics asserting_test.MockTB (GoInt 1), asserting_test.new_mock)
  = (Ok tt,
     (asserting.Panics asserting_test.MockTB (GoInt 1),
      asserting_test.mkMockTB [[GoString "unexpected error <error>"]] []
        false)).
Proof.
  split; [discriminate|].
  destruct (Assert_ValueError asserting_test.MockTB asserting_test.test_verb_v
              asserting_test.mock asserting.panics
              asserting_test.panics_Condition 7%N (GoInt 1)
              (asserting_test.errors_New 9%N "error")
              (asserting.Panics asserting_test.MockTB (GoInt 1))
              asserting_test.new_mock) as [_ H].
  destruct (H ltac:(discriminate)) as [H1 _]. rewrite H1. reflexivity.
Defined.

(** C6.  The untyped integer 5 and the [uintptr] 5: the integer is not
    negative and the values match, and [eq] answers false in both orders,
    as does [eq] on the untyped unsigned 5 and the [uintptr] 5: the rules
    of the untyped integer and of the untyped unsigned list the kinds
    [Uint], [Uint8], [Uint16], [Uint32] and [Uint64], and have no case for
    the kind [Uintptr]. *)
Theorem untyped_integer_never_equals_uintptr :
  in_intk KInt64 5 = true /\ in_uintk KUintptr 5 = true /\
  (0 <=? 5) && (5 =? 5) = true /\
  asserting.eq (asserting.UntypedInt 5) (VUint KUintptr "uintptr" 5)
  = Ok false /\
  asserting.eq (VUint KUintptr "uintptr" 5) (asserting.UntypedInt 5)
  = Ok false /\
  asserting.eq (asserting.UntypedUint 5) (VUint KUintptr "uintptr" 5)
  = Ok false /\
  asserting.eq (VUint KUintptr "uintptr" 5) (asserting.UntypedUint 5)
  = Ok false.
Proof. repeat split; reflexivity. Qed.

(** The sign rule on the kinds the code lists.  An untyped integer [i] and
    a subject of kind uint, uint8, uint16, uint32 or uint64 with the value
    [r] are equal for [eq], in either order, exactly when [0 <= i] and
    [i = r]; an untyped unsigned [i] and a subject of a signed integer kind
    with the value [r] are equal exactly when [0 <= r] and [i = r]; a
    negative untyped integer is equal to no subject of an unsigned kind. *)
Theorem untyped_integer_sign_rule :
  (forall i k tn r,
      in_intk KInt64 i = true -> k <> KUintptr ->
      asserting.eq (asserting.UntypedInt i) (VUint k tn r)
      = Ok ((0 <=? i) && (i =? r)) /\
      asserting.eq (VUint k tn r) (asserting.UntypedInt i)
      = Ok ((0 <=? i) && (i =? r))) /\
  (forall i k tn r,
      in_intk k r = true ->
      asserting.eq (asserting.untypedUint i) (VInt k tn r)
      = Ok ((0 <=? r) && (i =? r)) /\
      asserting.eq (VInt k tn r) (asserting.untypedUint i)
      = Ok ((0 <=? r) && (i =? r))) /\
  (forall i k tn r,
      i < 0 ->
      asserting.eq (asserting.UntypedInt i) (VUint k tn r) = Ok false /\
      asserting.eq (VUint k tn r) (asserting.UntypedInt i) = Ok false).
Proof.
  unfold asserting.UntypedInt. repeat split.
  - rewrite eq_untypedInt_VUint, untypedInt_equals_VUint.
    destruct k; try congruence; f_equal; apply signed_unsigned_rule; assumption.
  - rewrite eq_VUint_untypedInt, untypedInt_equals_VUint.
    destruct (is_untyped_integer (VUint k tn r)).
    + unfold asserting.untypedInt. rewrite untypedUint_equals_VInt.
      f_equal. apply signed_unsigned_rule'; assumption.
    + destruct k; try congruence; f_equal; apply signed_unsigned_rule;
        assumption.
  - rewrite eq_untypedUint_VInt, untypedUint_equals_VInt. f_equal.
    rewrite (Z.eqb_sym i r). apply signed_unsigned_rule'.
    eapply in_intk_int64; eassumption.
  - rewrite eq_VInt_untypedUint, untypedUint_equals_VInt.
    apply in_intk_int64 in H.
    destruct (is_untyped_integer (VInt k tn r)).
    + unfold asserting.untypedUint. rewrite untypedInt_equals_VUint.
      f_equal. rewrite (Z.eqb_sym i r). apply signed_unsigned_rule; assumption.
    + f_equal. rewrite (Z.eqb_sym i r). apply signed_unsigned_rule'; assumption.
  - rewrite eq_untypedInt_VUint, untypedInt_equals_VUint.
    assert (G : (i >=? 0) = false)
      by (rewrite Z.geb_leb; apply Z.leb_gt; assumption).
    rewrite G. destruct k; reflexivity.
  - rewrite eq_VUint_untypedInt, untypedInt_equals_VUint.
    assert (G : (i >=? 0) = false)
      by (rewrite Z.geb_leb; apply Z.leb_gt; assumption).
    rewrite G.
    destruct (is_untyped_integer (VUint k tn r)).
    + unfold asserting.untypedInt. rewrite untypedUint_equals_VInt, G.
      reflexivity.
    + destruct k; reflexivity.
Qed.

Lemma untyped_integer_sign_rule_witness :
  (in_intk KInt64 100 = true /\ KUint8 <> KUintptr /\
   asserting.eq (asserting.UntypedInt 100) (VUint KUint8 "uint8" 100)
   = Ok true) /\
  (in_intk KInt16 100 = true /\
   asserting.eq (asserting.untypedUint 100) (VInt KInt16 "int16" 100)
   = Ok true) /\
  (-100 < 0 /\
   asserting.eq (asserting.UntypedInt (-100))
     (VUint KUint64 "uint64" 18446744073709551516)
   = Ok false).
Proof.
  destruct untyped_integer_sign_rule as [A [B C]].
  split; [|split].
  - split; [reflexivity|]. split; [discriminate|].
    apply (A 100 KUint8 "uint8" 100); [reflexivity | discriminate].
  - split; [reflexivity|].
    apply (B 100 KInt16 "int16" 100). reflexivity.
  - split; [reflexivity|].
    apply (C (-100) KUint64 "uint64" 18446744073709551516). reflexivity.
Defined.

(** C7, counterexample.  The subject is the [hasError] that [ValueError]
    makes of an error: it is no function and no slice, and [Assert] with
    [Panics(1)], and with [EqualsSlice] of a slice, returns after one
    report to [t.Error]; nothing panics. *)
Lemma Assert_hasError_with_Panics_reports :
  asserting.as_func
    (asserting.ValueError asserting_test.test_verb_v 7%N (GoInt 1)
       (asserting_test.errors_New 9%N "error")) = None /\
  not_slice
    (asserting.ValueError asserting_test.test_verb_v 7%N (GoInt 1)
       (asserting_test.errors_New 9%N "error")) = true /\
  asserting_test.Assert
    (I := asserting_test.panics_Condition)
    (asserting.ValueError asserting_test.test_verb_v 7%N (GoInt 1)
       (asserting_test.errors_New 9%N "error"))
    (asserting.Panics asserting_test.MockTB (GoInt 1)) asserting_test.new_mock
  = (Ok tt,
     asserting_test.mkMockTB [[GoString "unexpected error <error>"]] [] false)
  /\
  asserting_test.Assert
    (I := asserting_test.equalsSlice_Condition)
    (asserting.ValueError asserting_test.test_verb_v 7%N (GoInt 1)
       (asserting_test.errors_New 9%N "error"))
    (asserting.EqualsSlice asserting_test.MockTB one_int_slice)
    asserting_test.new_mock
  = (Ok tt,
     asserting_test.mkMockTB [[GoString "unexpected error <error>"]] [] false).
Proof. repeat split; reflexivity. Qed.

(** C7, amended.  When the subject [v] is not a [hasError]: with [Panics]
    or [PanicMatches] and a [v] that is not of type [func()], [Assert] is
    [t.Helper()] followed by a panic with the message "<v> is not a
    func()"; with [EqualsSlice] and a [v] or an expected value that is not
    nil and not a slice, or with two slices of different types, [Assert] is
    [t.Helper()] followed by a panic.  Neither [t.Error] nor [t.Fatal] is
    called, whatever message and severity the condition carries. *)
Theorem invalid_usage_panics
  (W : Type) (call : addr -> prog W unit) (verb_v : value -> string)
  (t : asserting.TB W) (v : value) (w : W) :
  asserting.as_hasError v = None ->
  (asserting.as_func v = None ->
   (forall c : cond.cond W asserting.panics,
       asserting.Assert W verb_v t
         (I := asserting.panics_Condition W call verb_v) v (c, w)
       = (world (asserting.Helper W t) ;;
          panic (asserting.not_a_func verb_v v))%prog (c, w)) /\
   (forall c : cond.cond W (asserting.panicMatches W),
       asserting.Assert W verb_v t
         (I := asserting.panicMatches_Condition W call verb_v) v (c, w)
       = (world (asserting.Helper W t) ;;
          panic (asserting.not_a_func verb_v v))%prog (c, w)))
  /\
  (forall e um fat,
      let c := cond.mkcond (asserting.mkequalsSlice e) um fat in
      (not_slice v = true ->
       asserting.Assert W verb_v t
         (I := asserting.equalsSlice_Condition W verb_v) v (c, w)
       = (world (asserting.Helper W t) ;;
          panic (asserting.not_a_slice verb_v v))%prog (c, w)) /\
      (not_slice v = false -> not_slice e = true ->
       asserting.Assert W verb_v t
         (I := asserting.equalsSlice_Condition W verb_v) v (c, w)
       = (world (asserting.Helper W t) ;;
          panic (asserting.not_a_slice verb_v e))%prog (c, w)) /\
      (forall t1 t2,
          TypeOf v = Some t1 -> TypeOf e = Some t2 ->
          reflect.tkind t1 = reflect.Slice ->
          reflect.tkind t2 = reflect.Slice ->
          t1 <> t2 ->
          asserting.Assert W verb_v t
            (I := asserting.equalsSlice_Condition W verb_v) v (c, w)
          = (world (asserting.Helper W t) ;;
             panic (asserting.type_mismatch verb_v t1 t2))%prog (c, w))).
Proof.
  intros Hv. split.
  - intros Hf. split; intros c; apply Assert_Test_panics; try assumption;
      intros w'.
    + apply panics_Test_not_func, Hf.
    + apply panicMatches_Test_not_func, Hf.
  - intros e um fat c. repeat split.
    + intros H. apply Assert_Test_panics; try assumption. intros w'.
      apply equalsSlice_Test_not_slice_subject, H.
    + intros H1 H2. apply Assert_Test_panics; try assumption. intros w'.
      apply equalsSlice_Test_not_slice_expected; assumption.
    + intros t1 t2 H1 H2 K1 K2 D. apply Assert_Test_panics; try assumption.
      intros w'. apply equalsSlice_Test_type_mismatch; assumption.
Qed.

Lemma invalid_usage_panics_witness :
  (asserting.as_hasError (GoInt 5) = None /\
   asserting.as_func (GoInt 5) = None /\
   asserting_test.Assert
    (I := asserting_test.panics_Condition) (GoInt 5)
     (asserting.Panics asserting_test.MockTB (GoInt 1))
     asserting_test.new_mock
   = (Panic (GoString "<5> is not a func()"), asserting_test.new_mock)) /\
  (asserting.as_hasError one_int_slice = None /\
   not_slice one_int_slice = false /\ not_slice (GoInt 5) = true /\
   asserting_test.Assert
    (I := asserting_test.equalsSlice_Condition) one_int_slice
     (asserting.EqualsSlice asserting_test.MockTB (GoInt 5))
     asserting_test.new_mock
   = (Panic (GoString "testing2: <5(int)> is not a slice"),
      asserting_test.new_mock)).
Proof.
  split.
  - split; [reflexivity|]. split; [reflexivity|].
    destruct (invalid_usage_panics asserting_test.MockTB
                asserting_test.test_funcs asserting_test.test_verb_v
                asserting_test.mock (GoInt 5) asserting_test.new_mock
                eq_refl) as [H _].
    destruct (H eq_refl) as [H1 _].
    unfold asserting_test.Assert, asserting.Assert_new.
    unfold asserting_test.panics_Condition. rewrite H1. reflexivity.
  - split; [reflexivity|]. split; [reflexivity|]. split; [reflexivity|].
    destruct (invalid_usage_panics asserting_test.MockTB
                asserting_test.test_funcs asserting_test.test_verb_v
                asserting_test.mock one_int_slice asserting_test.new_mock
                eq_refl) as [_ H].
    destruct (H (GoInt 5) None false) as [_ [H2 _]].
    unfold asserting_test.Assert, asserting.Assert_new.
    unfold asserting_test.equalsSlice_Condition, asserting.EqualsSlice,
      cond.New.
    rewrite (H2 eq_refl eq_refl). reflexivity.
Defined.

(** C8, counterexample.  [Panics] expects the slice [[]int{1}] and the
    function panics with that slice: the call is made and the value is
    captured, and then [eq] on the two slices panics inside the deferred
    function, so that [Test] panics and returns no result. *)
Lemma Panics_Test_panics_in_eq :
  asserting.as_func (asserting_test.func 1%N) = Some (Some 1%N) /\
  asserting.panics_Test asserting_test.MockTB slice_thrower
    asserting_test.test_verb_v (asserting_test.func 1%N)
    (asserting.mkpanics one_int_slice VNil, asserting_test.new_mock)
  = (Panic (runtime_errorString "comparing uncomparable type []int"),
     (asserting.mkpanics one_int_slice one_int_slice, asserting_test.new_mock)).
Proof. split; reflexivity. Qed.

(** C8, amended.  For every subject [v] of type [func()], [Test] of
    [Panics] and of [PanicMatches] calls the function once, on the world
    it receives, and stores as the captured value what the call panicked
    with, or nil when the call returned; the outcome of [Test] is the
    outcome of [eq] on the expected and the captured value, or of the
    predicate on the captured value, in the world the call left: [Test]
    returns that boolean when [eq] or the predicate returns one, whether
    the function panicked or not, and panics when [eq] or the predicate
    panics. *)
Theorem panic_capture
  (W : Type) (call : addr -> prog W unit) (verb_v : value -> string)
  (v : value) (f : option addr) (w : W) :
  asserting.as_func v = Some f ->
  let called := asserting.invoke W call f w in
  let got := recovered (fst called) in
  (forall e got0,
      asserting.panics_Test W call verb_v v (asserting.mkpanics e got0, w)
      = (asserting.eq e got, (asserting.mkpanics e got, snd called)) /\
      (forall b, asserting.eq e got = Ok b ->
                 fst (asserting.panics_Test W call verb_v v
                        (asserting.mkpanics e got0, w)) = Ok b)) /\
  (forall p got0,
      asserting.panicMatches_Test W call verb_v v
        (asserting.mkpanicMatches W got0 p, w)
      = (fst (p got (snd called)),
         (asserting.mkpanicMatches W got p, snd (p got (snd called)))) /\
      (forall b, fst (p got (snd called)) = Ok b ->
                 fst (asserting.panicMatches_Test W call verb_v v
                        (asserting.mkpanicMatches W got0 p, w)) = Ok b)).
Proof.
  intros Hf called got. split.
  - intros e got0. rewrite (panics_Test_func W call verb_v v f e got0 w Hf).
    split; [reflexivity | intros b Hb; exact Hb].
  - intros p got0.
    rewrite (panicMatches_Test_func W call verb_v v f p got0 w Hf).
    split; [reflexivity | intros b Hb; exact Hb].
Qed.

Lemma panic_capture_witness :
  asserting.as_func (asserting_test.func 1%N) = Some (Some 1%N) /\
  asserting.panics_Test nat counting asserting_test.test_verb_v
    (asserting_test.func 1%N) (asserting.mkpanics (GoInt 1) (GoInt 3), 0%nat)
  = (Ok false, (asserting.mkpanics (GoInt 1) VNil, 1%nat)).
Proof.
  split; [reflexivity|].
  destruct (panic_capture nat counting asserting_test.test_verb_v
              (asserting_test.func 1%N) (Some 1%N) 0%nat eq_refl) as [H _].
  destruct (H (GoInt 1) (GoInt 3)) as [H1 _]. rewrite H1. reflexivity.
Defined.

(** C9.  The message of [Equals(e)] on [v] is made by [formatMsg]: when the
    renderings of [e] and of [v] by [%v] are the same string, each of the
    two is printed with its type after it, "expected <e(T)> but was
    <v(T)>"; when they differ, both are printed plain, "expected <e> but
    was <v>".  When [Equals(e)] fails on a subject that is not a
    [hasError], this message is what [Assert] reports, with [t.Error]. *)
Theorem Equals_message_annotation
  (W : Type) (verb_v : value -> string) (t : asserting.TB W)
  (e v : value) (w : W) :
  let se := fmt.format_v verb_v e in
  let sv := fmt.format_v verb_v v in
  let msg := asserting.formatMsg verb_v "expected <%v> but was <%v>" e v in
  asserting.equals_Message W verb_v v (asserting.mkequals e, w)
  = (Ok msg, (asserting.mkequals e, w)) /\
  (se = sv ->
   msg = "expected <" ++ annotated verb_v e ++ "> but was <"
         ++ annotated verb_v v ++ ">") /\
  (se <> sv -> msg = "expected <" ++ se ++ "> but was <" ++ sv ++ ">") /\
  (asserting.as_hasError v = None -> asserting.eq e v = Ok false ->
   asserting.Assert W verb_v t (I := asserting.equals_Condition W verb_v) v
     (asserting.Equals W e, w)
   = world (asserting.Helper W t ;; asserting.Error W t [GoString msg])%prog
       (asserting.Equals W e, w)).
Proof.
  intros se sv msg. subst se sv msg. rewrite formatMsg_expected.
  split; [|split; [|split]].
  - unfold asserting.equals_Message, bind, get_this, ret. cbn [fst snd].
    cbn [asserting.equals_expected]. rewrite formatMsg_expected. reflexivity.
  - intros E. rewrite E, String.eqb_refl. reflexivity.
  - intros D. apply String.eqb_neq in D. rewrite D. reflexivity.
  - intros Hv He. unfold asserting.Equals.
    apply (Assert_fails W verb_v t _ (asserting.equals_Condition W verb_v));
      try assumption; intros w'.
    + simpl. rewrite equals_Test_eq, He. reflexivity.
    + simpl. unfold asserting.equals_Message, bind, get_this, ret.
      cbn [fst snd asserting.equals_expected]. rewrite formatMsg_expected.
      reflexivity.
Qed.

Lemma Equals_message_annotation_witness :
  (fmt.format_v asserting_test.test_verb_v (VPtr "*uint8" None)
   = fmt.format_v asserting_test.test_verb_v (VPtr "*int" None) /\
   asserting.as_hasError (VPtr "*int" None) = None /\
   asserting.eq (VPtr "*uint8" None) (VPtr "*int" None) = Ok false /\
   asserting_test.Assert (I := asserting_test.equals_Condition)
     (VPtr "*int" None)
     (asserting.Equals asserting_test.MockTB (VPtr "*uint8" None))
     asserting_test.new_mock
   = (Ok tt,
      asserting_test.mkMockTB
        [[GoString "expected <<nil>(*uint8)> but was <<nil>(*int)>"]] []
        false)) /\
  (fmt.format_v asserting_test.test_verb_v (GoInt 2)
   <> fmt.format_v asserting_test.test_verb_v (GoInt 1) /\
   asserting.formatMsg asserting_test.test_verb_v "expected <%v> but was <%v>"
     (GoInt 2) (GoInt 1)
   = "expected <2> but was <1>").
Proof.
  split.
  - split; [reflexivity|]. split; [reflexivity|]. split; [reflexivity|].
    destruct (Equals_message_annotation asserting_test.MockTB
                asserting_test.test_verb_v asserting_test.mock
                (VPtr "*uint8" None) (VPtr "*int" None)
                asserting_test.new_mock) as [_ [_ [_ H]]].
    unfold asserting_test.Assert, asserting.Assert_new,
      asserting_test.equals_Condition.
    rewrite (H eq_refl eq_refl). reflexivity.
  - split; [discriminate|].
    destruct (Equals_message_annotation asserting_test.MockTB
                asserting_test.test_verb_v asserting_test.mock
                (GoInt 2) (GoInt 1) asserting_test.new_mock)
      as [_ [_ [H _]]].
    rewrite H; [reflexivity | discriminate].
Defined.



(* ================================================================== *)
(** * Further properties of the equality algorithm *)
(* ================================================================== *)

Lemma go_eq_nil_l v : go_eq VNil v = Ok (asserting.is_nil v).
Proof. destruct v; reflexivity. Qed.

Lemma go_eq_nil_r v : go_eq v VNil = Ok (asserting.is_nil v).
Proof. rewrite go_eq_sym. apply go_eq_nil_l. Qed.

Lemma eq_nil_l v : asserting.eq VNil v = Ok (asserting.equalsNil v).
Proof.
  unfold asserting.eq. rewrite go_eq_nil_l. destruct v; reflexivity.
Qed.

Lemma eq_nil_r v : asserting.eq v VNil = Ok (asserting.equalsNil v).
Proof.
  unfold asserting.eq. rewrite go_eq_nil_r. destruct v; reflexivity.
Qed.

Lemma equalsNil_true v :
  asserting.equalsNil v = true <->
  v = VNil \/ (exists tn, v = VPtr tn None) \/
  (exists k tn, v = VRef k tn None) \/ (exists tn, v = VMap tn None) \/
  (exists tn, v = VSlice tn None).
Proof.
  split.
  - destruct v; simpl; try discriminate; auto;
      try (destruct k; discriminate).
    + destruct p; [discriminate|]. eauto.
    + destruct k, p; simpl; try discriminate; eauto 6.
    + destruct m; [discriminate|]. eauto 6.
    + destruct s; [discriminate|]. eauto 7.
  - intros [->|[[tn ->]|[[k [tn ->]]|[[tn ->]|[tn ->]]]]]; try reflexivity.
    destruct k; reflexivity.
Qed.

(** X1.  With nil as one operand, in either position, [eq] never panics
    and answers [equalsNil] of the other operand: true exactly for the nil
    interface and for a nil pointer, a nil channel, function or unsafe
    pointer, a nil map and a nil slice, of any type. *)
Theorem eq_with_nil (v : value) :
  asserting.eq VNil v = Ok (asserting.equalsNil v) /\
  asserting.eq v VNil = Ok (asserting.equalsNil v) /\
  (asserting.equalsNil v = true <->
   v = VNil \/ (exists tn, v = VPtr tn None) \/
   (exists k tn, v = VRef k tn None) \/ (exists tn, v = VMap tn None) \/
   (exists tn, v = VSlice tn None)).
Proof.
  split; [apply eq_nil_l|]. split; [apply eq_nil_r | apply equalsNil_true].
Qed.

Lemma eq_elems_panic_inv (l1 : list value) p :
  Forall (fun x => forall y, go_eq x y = Panic p ->
            exists t, p = uncomparable t /\ reflect.tcomparable t = false) l1 ->
  forall l2, eq_elems go_eq l1 l2 = Panic p ->
  exists t, p = uncomparable t /\ reflect.tcomparable t = false.
Proof.
  induction 1 as [|x l1 Hx _ IH]; intros [|y l2]; simpl; try discriminate.
  destruct (go_eq x y) as [[]|q] eqn:G.
  - apply IH.
  - discriminate.
  - intros E. inversion E; subst q. apply (Hx y G).
Qed.

Lemma go_eq_panic_type a b p : go_eq a b = Panic p -> TypeOf a = TypeOf b.
Proof.
  rewrite go_eq_unfold.
  destruct (TypeOf a) as [ta|], (TypeOf b) as [tb|]; try discriminate.
  destruct (reflect.Type_eqb ta tb) eqn:E; [|discriminate].
  apply Type_eqb_eq in E. subst. reflexivity.
Qed.

(** A panic of [==] is the run-time error for a type that is not
    comparable: the common dynamic type of the operands, or the type of an
    element met on the way through an array or a struct. *)
Lemma go_eq_panic_inv a : forall b p,
  go_eq a b = Panic p ->
  exists t, p = uncomparable t /\ reflect.tcomparable t = false.
Proof.
  induction a using value_aggregate_ind; intros b p.
  - rewrite go_eq_unfold. simpl TypeOf.
    destruct (TypeOf b) as [tb|] eqn:Hb; [|discriminate].
    destruct (reflect.Type_eqb _ tb) eqn:E; simpl; [|discriminate].
    pose proof (TypeOf_kind_shape (VArray tn cmp l) b _ _ eq_refl Hb E) as S.
    destruct cmp; simpl.
    + destruct b; try contradiction. apply eq_elems_panic_inv.
      eapply Forall_impl; [|exact H]. intros x Hx y. apply Hx.
    + intros G. inversion G. eexists. split; reflexivity.
  - rewrite go_eq_unfold. simpl TypeOf.
    destruct (TypeOf b) as [tb|] eqn:Hb; [|discriminate].
    destruct (reflect.Type_eqb _ tb) eqn:E; simpl; [|discriminate].
    pose proof (TypeOf_kind_shape (VStruct tn cmp l) b _ _ eq_refl Hb E) as S.
    destruct cmp; simpl.
    + destruct b; try contradiction. apply eq_elems_panic_inv.
      eapply Forall_impl; [|exact H]. intros x Hx y. apply Hx.
    + intros G. inversion G. eexists. split; reflexivity.
  - rewrite go_eq_unfold.
    destruct (TypeOf a) as [ta|] eqn:Ha, (TypeOf b) as [tb|] eqn:Hb;
      try discriminate.
    destruct (reflect.Type_eqb ta tb) eqn:E; simpl; [|discriminate].
    destruct (reflect.tcomparable ta) eqn:C; simpl.
    + destruct a; try contradiction; destruct b; discriminate.
    + intros G. inversion G. eexists. split; [reflexivity | exact C].
Qed.

Lemma eq_panic_go_eq a b p : asserting.eq a b = Panic p -> go_eq a b = Panic p.
Proof.
  unfold asserting.eq. destruct (go_eq a b) as [[]|q]; try discriminate.
  - destruct (asserting.is_nil a); [discriminate|].
    destruct (asserting.is_nil b); [discriminate|].
    destruct (asserting.as_ieq a); [discriminate|].
    destruct (asserting.as_ieq b); discriminate.
  - congruence.
Qed.

(** X2.  When [eq] panics, the two operands have the same dynamic type and
    the value of the panic is the run-time error "comparing uncomparable
    type T" of the operator [==], for a type T that is not comparable;
    [eq] raises no other panic, and none on operands of different dynamic
    types. *)
Theorem eq_panics_only_on_uncomparable (a b p : value) :
  asserting.eq a b = Panic p ->
  TypeOf a = TypeOf b /\
  exists t, p = uncomparable t /\ reflect.tcomparable t = false.
Proof.
  intros H. apply eq_panic_go_eq in H.
  split; [apply (go_eq_panic_type _ _ _ H) | apply (go_eq_panic_inv _ _ _ H)].
Qed.

Lemma eq_panics_only_on_uncomparable_witness :
  asserting.eq one_int_slice one_int_slice
  = Panic (uncomparable (reflect.mkType "[]int" reflect.Slice false)) /\
  TypeOf one_int_slice = TypeOf one_int_slice /\
  exists t, uncomparable (reflect.mkType "[]int" reflect.Slice false)
            = uncomparable t /\ reflect.tcomparable t = false.
Proof.
  split; [reflexivity|].
  apply (eq_panics_only_on_uncomparable one_int_slice one_int_slice).
  reflexivity.
Defined.

(** X3.  On two operands that are not nil and are not untyped values, [eq]
    is the operator [==], panics included; in particular two such operands
    of different dynamic types are not equal, whatever their values. *)
Theorem eq_on_typed_operands_is_go_eq (a b : value) :
  asserting.is_nil a = false -> asserting.is_nil b = false ->
  asserting.as_ieq a = None -> asserting.as_ieq b = None ->
  asserting.eq a b = go_eq a b /\
  (TypeOf a <> TypeOf b -> asserting.eq a b = Ok false).
Proof.
  intros Na Nb Ia Ib.
  assert (E : asserting.eq a b = go_eq a b).
  { unfold asserting.eq. rewrite Na, Nb, Ia, Ib.
    destruct (go_eq a b) as [[]|]; reflexivity. }
  split; [exact E|]. intros D. rewrite E, go_eq_unfold.
  destruct (TypeOf a) as [ta|], (TypeOf b) as [tb|]; try reflexivity.
  - destruct (reflect.Type_eqb ta tb) eqn:T; [|reflexivity].
    apply Type_eqb_eq in T. congruence.
  - congruence.
Qed.

Lemma eq_on_typed_operands_is_go_eq_witness :
  asserting.is_nil (GoInt 1) = false /\
  asserting.is_nil (VInt KInt64 "int64" 1) = false /\
  asserting.as_ieq (GoInt 1) = None /\
  asserting.as_ieq (VInt KInt64 "int64" 1) = None /\
  asserting.eq (GoInt 1) (VInt KInt64 "int64" 1) = Ok false.
Proof.
  repeat (split; [reflexivity|]).
  destruct (eq_on_typed_operands_is_go_eq (GoInt 1) (VInt KInt64 "int64" 1)
              eq_refl eq_refl eq_refl eq_refl) as [_ H].
  apply H. discriminate.
Defined.

Lemma go_eq_true_type a b : go_eq a b = Ok true -> TypeOf a = TypeOf b.
Proof.
  rewrite go_eq_unfold.
  destruct (TypeOf a) as [ta|], (TypeOf b) as [tb|]; try discriminate;
    [|reflexivity].
  destruct (reflect.Type_eqb ta tb) eqn:E; [|discriminate].
  apply Type_eqb_eq in E. subst. reflexivity.
Qed.

(** [==] with an untyped value on the left returns, and where it answers
    true the rule of the untyped value answers true. *)
Lemma go_eq_untyped a e v :
  untyped_view a e ->
  match go_eq a v with
  | Ok true => e v = true
  | Ok false => True
  | Panic _ => False
  end.
Proof.
  intros V. destruct (go_eq a v) as [[]|p] eqn:G; [|exact I|].
  - pose proof (go_eq_true_type _ _ G) as T.
    destruct V; unfold_untyped; destruct v; simpl in T; try discriminate;
      inversion T; subst;
      repeat match goal with
             | k : intk |- _ => destruct k; try discriminate
             | k : uintk |- _ => destruct k; try discriminate
             | k : floatk |- _ => destruct k; try discriminate
             | k : complexk |- _ => destruct k; try discriminate
             | k : refk |- _ => destruct k; try discriminate
             end;
      rewrite go_eq_unfold in G; simpl in G;
      simpl; inversion G; reflexivity.
  - rewrite go_eq_unfold in G.
    destruct V; unfold_untyped; simpl in G;
      destruct (TypeOf v) as [tv|]; try discriminate;
      destruct (reflect.Type_eqb _ tv) eqn:E; simpl in G; try discriminate;
      destruct v; discriminate.
Qed.

Lemma untyped_not_nil a e : untyped_view a e -> asserting.is_nil a = false.
Proof. destruct 1; reflexivity. Qed.

Lemma untyped_equals_nil a e :
  untyped_view a e -> e VNil = false /\ asserting.equalsNil a = false.
Proof. destruct 1; split; reflexivity. Qed.

Lemma eq_untyped_l a v e :
  asserting.as_ieq a = Some e -> asserting.eq a v = Ok (e v).
Proof.
  intros Ha. pose proof (as_ieq_inv _ _ Ha) as V.
  pose proof (go_eq_untyped a e v V) as G.
  pose proof (untyped_not_nil _ _ V) as Na.
  destruct (untyped_equals_nil _ _ V) as [En Nn].
  unfold asserting.eq. destruct (go_eq a v) as [[]|p]; try contradiction.
  - rewrite G. reflexivity.
  - rewrite Na, Ha. destruct (asserting.is_nil v) eqn:Nv; [|reflexivity].
    apply is_nil_true in Nv. subst v. rewrite Nn, En. reflexivity.
Qed.

Lemma eq_untyped_r a v e :
  asserting.as_ieq a = Some e -> asserting.as_ieq v = None ->
  asserting.eq v a = Ok (e v).
Proof.
  intros Ha Hv. pose proof (as_ieq_inv _ _ Ha) as V.
  pose proof (go_eq_untyped a e v V) as G.
  pose proof (untyped_not_nil _ _ V) as Na.
  destruct (untyped_equals_nil _ _ V) as [En Nn].
  unfold asserting.eq. rewrite go_eq_sym.
  destruct (go_eq a v) as [[]|p]; try contradiction.
  - rewrite G. reflexivity.
  - rewrite Na, Hv, Ha. destruct (asserting.is_nil v) eqn:Nv; [|reflexivity].
    apply is_nil_true in Nv. subst v. rewrite Nn, En. reflexivity.
Qed.

(** X4.  When the first operand [a] is an untyped value, [eq(a, v)] is the
    answer of the method [equals] of [a] on [v], for every [v]: [eq] does
    not panic, and neither the test [a == v] nor the tests for nil change
    the answer.  With [a] as the second operand and a first operand that
    is not an untyped value, [eq(v, a)] is the same answer. *)
Theorem eq_untyped_operand (a v : value) (e : asserting.ieq) :
  asserting.as_ieq a = Some e ->
  asserting.eq a v = Ok (e v) /\
  (asserting.as_ieq v = None -> asserting.eq v a = Ok (e v)).
Proof.
  intros Ha. split; [apply eq_untyped_l, Ha | apply eq_untyped_r, Ha].
Qed.

Lemma eq_untyped_operand_witness :
  asserting.as_ieq (asserting.UntypedInt 7)
  = Some (asserting.untypedInt_equals 7) /\
  asserting.as_ieq (VInt KInt8 "int8" 7) = None /\
  asserting.eq (asserting.UntypedInt 7) (VInt KInt8 "int8" 7) = Ok true /\
  asserting.eq (VInt KInt8 "int8" 7) (asserting.UntypedInt 7) = Ok true.
Proof.
  split; [reflexivity|]. split; [reflexivity|].
  destruct (eq_untyped_operand (asserting.UntypedInt 7) (VInt KInt8 "int8" 7)
              (asserting.untypedInt_equals 7) eq_refl) as [H1 H2].
  split; [exact H1 | exact (H2 eq_refl)].
Defined.

(** X5.  [UntypedString(s)] is equal for [eq] to exactly the values of a
    string kind that hold [s], of the type [string] or of any named string
    type, and the answer of [eq] is the same in both orders of the
    operands. *)
Theorem UntypedString_equals_strings (s : string) (v : value) :
  (asserting.eq (asserting.UntypedString s) v = Ok true <->
   exists tn, v = VString tn s) /\
  asserting.eq v (asserting.UntypedString s)
  = asserting.eq (asserting.UntypedString s) v.
Proof.
  assert (L : asserting.eq (asserting.UntypedString s) v
              = Ok (asserting.untypedString_equals s v))
    by (apply eq_untyped_l; reflexivity).
  split.
  - rewrite L. split.
    + intros H. inversion H as [E]. clear H.
      destruct v; simpl in E; try discriminate;
        try (destruct k; discriminate).
      apply String.eqb_eq in E. subst. eauto.
    + intros [tn ->]. unfold asserting.untypedString_equals. simpl.
      rewrite String.eqb_refl. reflexivity.
  - rewrite L. destruct (asserting.as_ieq v) as [e|] eqn:Hv.
    + rewrite (eq_untyped_l v _ e Hv).
      f_equal. apply (ieq_agree v (asserting.UntypedString s) e _ Hv eq_refl).
      unfold integer_float_pair. simpl.
      rewrite !andb_false_r. reflexivity.
    + apply eq_untyped_r; [reflexivity | exact Hv].
Qed.

(** X6.  [UntypedInt(i)] and a subject of a signed integer kind, of any
    size and any type name, are equal for [eq] exactly when the subject
    holds [i], in both orders of the operands.  [UntypedUint(n)] takes a
    signed argument and converts it to [uint64], so that a negative [n]
    stands for [n + 2^64]: it is equal to a subject of kind uint, uint8,
    uint16, uint32 or uint64 exactly when the subject holds [n mod 2^64],
    and to no subject of kind uintptr. *)
Theorem UntypedInt_equals_same_sign (i r : Z) (tn : string) :
  (forall k, asserting.eq (asserting.UntypedInt i) (VInt k tn r) = Ok (i =? r) /\
             asserting.eq (VInt k tn r) (asserting.UntypedInt i) = Ok (i =? r)) /\
  (forall k, asserting.eq (asserting.UntypedUint i) (VUint k tn r)
             = Ok (match k with KUintptr => false | _ => i mod 2 ^ 64 =? r end) /\
             asserting.eq (VUint k tn r) (asserting.UntypedUint i)
             = Ok (match k with KUintptr => false | _ => i mod 2 ^ 64 =? r end)).
Proof.
  fold (uint64 i). split; intros k.
  - assert (L : asserting.eq (asserting.UntypedInt i) (VInt k tn r) = Ok (i =? r)).
    { rewrite (eq_untyped_l (asserting.UntypedInt i) _
                 (asserting.untypedInt_equals i) eq_refl).
      destruct k; reflexivity. }
    split; [exact L|].
    destruct (asserting.as_ieq (VInt k tn r)) as [e|] eqn:Hv.
    + rewrite (eq_untyped_l _ _ e Hv).
      rewrite (ieq_agree _ (asserting.UntypedInt i) e
                 (asserting.untypedInt_equals i) Hv eq_refl).
      * destruct k; reflexivity.
      * unfold integer_float_pair. simpl. rewrite andb_false_r. reflexivity.
    + rewrite (eq_untyped_r (asserting.UntypedInt i) _
                 (asserting.untypedInt_equals i) eq_refl Hv).
      destruct k; reflexivity.
  - assert (L : asserting.eq (asserting.UntypedUint i) (VUint k tn r)
                = Ok (match k with KUintptr => false | _ => uint64 i =? r end)).
    { rewrite (eq_untyped_l (asserting.UntypedUint i) _
                 (asserting.untypedUint_equals (uint64 i)) eq_refl).
      destruct k; reflexivity. }
    split; [exact L|].
    destruct (asserting.as_ieq (VUint k tn r)) as [e|] eqn:Hv.
    + rewrite (eq_untyped_l _ _ e Hv).
      rewrite (ieq_agree _ (asserting.UntypedUint i) e
                 (asserting.untypedUint_equals (uint64 i)) Hv eq_refl).
      * destruct k; reflexivity.
      * unfold integer_float_pair. simpl. rewrite andb_false_r. reflexivity.
    + rewrite (eq_untyped_r (asserting.UntypedUint i) _
                 (asserting.untypedUint_equals (uint64 i)) eq_refl Hv).
      destruct k; reflexivity.
Qed.

(* ================================================================== *)
(** * The conversion of an integer to float64 below 2^53 *)
(* ================================================================== *)

Lemma digits2_pos_size p : digits2_pos p = Pos.size p.
Proof. induction p; simpl; congruence. Qed.

Lemma Zdigits2_log2 p : Z.pos (digits2_pos p) = Z.log2 (Z.pos p) + 1.
Proof.
  rewrite digits2_pos_size. destruct p; simpl; try reflexivity; lia.
Qed.

Lemma digits_bounds p :
  2 ^ (Z.pos (digits2_pos p) - 1) <= Z.pos p < 2 ^ Z.pos (digits2_pos p).
Proof.
  rewrite Zdigits2_log2. replace (Z.log2 (Z.pos p) + 1 - 1) with (Z.log2 (Z.pos p)) by lia.
  replace (Z.log2 (Z.pos p) + 1) with (Z.succ (Z.log2 (Z.pos p))) by lia.
  apply Z.log2_spec. lia.
Qed.

Lemma digits_unique p d :
  2 ^ (d - 1) <= Z.pos p < 2 ^ d -> Z.pos (digits2_pos p) = d.
Proof.
  intros H. rewrite Zdigits2_log2.
  assert (0 <= d - 1).
  { destruct (Z_lt_le_dec (d - 1) 0) as [L|L]; [|exact L].
    exfalso. assert (d <= 0) by lia.
    destruct (Z.eq_dec d 0) as [->|N].
    - simpl in H. lia.
    - rewrite (Z.pow_neg_r 2 d) in H by lia. lia. }
  rewrite (Z.log2_unique (Z.pos p) (d - 1)); [lia | lia |].
  replace (Z.succ (d - 1)) with d by lia. exact H.
Qed.

Lemma shift_pos_Z j m : Z.pos (shift_pos j m) = Z.pos m * 2 ^ Z.pos j.
Proof. rewrite shift_pos_correct, Z.pow_pos_fold. lia. Qed.

Lemma digits_shift j m :
  Z.pos (digits2_pos (shift_pos j m)) = Z.pos (digits2_pos m) + Z.pos j.
Proof.
  apply digits_unique. rewrite shift_pos_Z.
  pose proof (digits_bounds m) as [L U].
  replace (Z.pos (digits2_pos m) + Z.pos j - 1)
    with ((Z.pos (digits2_pos m) - 1) + Z.pos j) by lia.
  rewrite !Z.pow_add_r by lia.
  assert (0 < 2 ^ Z.pos j) by (apply Z.pow_pos_nonneg; lia).
  split; nia.
Qed.

(** A mantissa of 53 digits with an exponent in range is left as it is. *)
Lemma binary_round_aux_exact s m e :
  Z.pos (digits2_pos m) = 53 -> -1074 <= e <= 971 ->
  binary_round_aux prec64 emax64 s (Z.pos m) e loc_Exact = S754_finite s m e.
Proof.
  intros D R. unfold binary_round_aux, shr_fexp, prec64, emax64.
  cbn [Zdigits2]. rewrite D. unfold fexp, emin.
  replace (Z.max (53 + e - 53) (3 - 1024 - 53) - e) with 0 by lia.
  cbn [shr shr_record_of_loc shr_m loc_of_shr_record shr_r shr_s round_nearest_even Zdigits2].
  rewrite D.
  replace (Z.max (53 + e - 53) (3 - 1024 - 53) - e) with 0 by lia.
  cbn [shr shr_m].
  replace (e <=? 1024 - 53) with true by (symmetry; apply Z.leb_le; lia).
  reflexivity.
Qed.

(** [binary_round] on a mantissa of at most 53 digits: the mantissa is
    shifted to 53 digits, and nothing is lost. *)
Lemma binary_round_exact s m e :
  let d := Z.pos (digits2_pos m) in
  d <= 53 -> -1074 <= e + d - 53 <= 971 ->
  exists m', Z.pos m' = Z.pos m * 2 ^ (53 - d) /\
             Z.pos (digits2_pos m') = 53 /\
             binary_round prec64 emax64 s m e = S754_finite s m' (e + d - 53).
Proof.
  intros d Hd R. unfold binary_round, prec64, emax64, fexp, emin.
  fold d. replace (Z.max (d + e - 53) (3 - 1024 - 53)) with (e + d - 53) by lia.
  unfold shl_align. destruct (e + d - 53 - e) as [|q|q] eqn:Q; try lia.
  - exists m. assert (d = 53) by lia. 
    replace (53 - d) with 0 by lia. rewrite Z.mul_1_r.
    split; [reflexivity|]. split; [assumption|].
    replace (e + d - 53) with e by lia.
    apply binary_round_aux_exact; [assumption | lia].
  - exists (shift_pos q m). change (Pos.iter xO m q) with (shift_pos q m).
    split; [rewrite shift_pos_Z; replace (53 - d) with (Z.pos q) by lia;
            reflexivity|].
    assert (D : Z.pos (digits2_pos (shift_pos q m)) = 53)
      by (rewrite digits_shift; fold d; lia).
    split; [exact D|].
    apply binary_round_aux_exact; [exact D | lia].
Qed.

Lemma SFeqb_finite s1 m1 e1 s2 m2 e2 :
  SFeqb (S754_finite s1 m1 e1) (S754_finite s2 m2 e2)
  = Bool.eqb s1 s2 && (e1 =? e2) && (m1 =? m2)%positive.
Proof.
  unfold SFeqb, SFcompare.
  replace (Pos.compare_cont Eq m1 m2) with (Pos.compare m1 m2) by reflexivity.
  rewrite (Z.eqb_compare e1 e2), (Pos.eqb_compare m1 m2).
  destruct s1, s2; simpl; try reflexivity;
    destruct (e1 ?= e2); simpl; try reflexivity;
    destruct (m1 ?= m2)%positive; reflexivity.
Qed.

Lemma pow2_pos n : 0 <= n -> 0 < 2 ^ n.
Proof. intros. apply Z.pow_pos_nonneg; lia. Qed.

(** The same number with a longer mantissa. *)
Lemma float_is_int_shift s m e j m' i :
  0 <= j -> Z.pos m' = Z.pos m * 2 ^ j ->
  float_is_int (S754_finite s m' (e - j)) i = float_is_int (S754_finite s m e) i.
Proof.
  intros Hj Hm. unfold float_is_int. rewrite Hm.
  pose proof (pow2_pos j Hj) as Pj.
  destruct (0 <=? e) eqn:E1, (0 <=? e - j) eqn:E2;
    try apply Z.leb_le in E1; try apply Z.leb_le in E2;
    try apply Z.leb_gt in E1; try apply Z.leb_gt in E2; try lia.
  - f_equal. f_equal. replace e with (j + (e - j)) at 2 by lia.
    rewrite Z.pow_add_r by lia. lia.
  - pose proof (pow2_pos (- (e - j)) ltac:(lia)) as P.
    pose proof (pow2_pos e ltac:(lia)) as Pe.
    assert (J : 2 ^ j = 2 ^ e * 2 ^ (- (e - j))).
    { rewrite <- Z.pow_add_r by lia. f_equal. lia. }
    rewrite J.
    destruct (i =? cond_Zopp s (Z.pos m * 2 ^ e)) eqn:A.
    + apply Z.eqb_eq in A. apply Z.eqb_eq. rewrite A.
      destruct s; unfold cond_Zopp; ring.
    + apply Z.eqb_neq in A. apply Z.eqb_neq. intros B. apply A.
      destruct s; unfold cond_Zopp in *; nia.
  - pose proof (pow2_pos (- e) ltac:(lia)) as P.
    assert (J : 2 ^ (- (e - j)) = 2 ^ (- e) * 2 ^ j).
    { rewrite <- Z.pow_add_r by lia. f_equal. lia. }
    rewrite J.
    destruct (cond_Zopp s (Z.pos m) =? i * 2 ^ (- e)) eqn:A.
    + apply Z.eqb_eq in A. apply Z.eqb_eq.
      destruct s; unfold cond_Zopp in *; nia.
    + apply Z.eqb_neq in A. apply Z.eqb_neq. intros B. apply A.
      destruct s; unfold cond_Zopp in *; nia.
Qed.

Lemma digits_mul_pow2 (a : Z) (p : positive) (n : Z) :
  0 <= n -> Z.pos p = a * 2 ^ n -> Z.pos (digits2_pos p) = Zdigits a + n.
Proof.
  intros Hn H. pose proof (pow2_pos n Hn) as P.
  assert (0 < a) by nia.
  rewrite Zdigits2_log2, H. unfold Zdigits. rewrite Z.abs_eq by lia.
  rewrite Z.log2_mul_pow2 by lia. lia.
Qed.

(** A float with a mantissa of 53 digits that denotes an integer below
    2^53 is determined by the integer. *)
Lemma float_is_int_normal s m e i :
  Z.pos (digits2_pos m) = 53 -> Z.abs i < 2 ^ 53 ->
  float_is_int (S754_finite s m e) i = true ->
  s = (i <? 0) /\ e = Zdigits i - 53 /\ Z.pos m = Z.abs i * 2 ^ (53 - Zdigits i).
Proof.
  intros D B. unfold float_is_int.
  pose proof (digits_bounds m) as [L U]. rewrite D in L, U.
  change (2 ^ (53 - 1)) with 4503599627370496 in L.
  change (2 ^ 53) with 9007199254740992 in U, B.
  destruct (0 <=? e) eqn:E.
  - apply Z.leb_le in E. rewrite Z.eqb_eq. intros H.
    pose proof (pow2_pos e E) as P.
    assert (e = 0).
    { destruct (Z.eq_dec e 0) as [|N]; [assumption|]. exfalso.
      assert (2 <= 2 ^ e).
      { replace e with (1 + (e - 1)) by lia. rewrite Z.pow_add_r by lia.
        pose proof (pow2_pos (e - 1) ltac:(lia)). lia. }
      destruct s; unfold cond_Zopp in H; nia. }
    subst e. rewrite Z.pow_0_r, Z.mul_1_r in H.
    assert (A : Z.abs i = Z.pos m) by (destruct s; unfold cond_Zopp in H; lia).
    assert (Zdigits i = 53).
    { unfold Zdigits. rewrite A, <- Zdigits2_log2. exact D. }
    rewrite H0. simpl. split; [|split; lia].
    destruct s; unfold cond_Zopp in H; symmetry; [apply Z.ltb_lt | apply Z.ltb_ge]; lia.
  - apply Z.leb_gt in E. rewrite Z.eqb_eq. intros H.
    pose proof (pow2_pos (- e) ltac:(lia)) as P.
    assert (A : Z.pos m = Z.abs i * 2 ^ (- e))
      by (destruct s; unfold cond_Zopp in H; nia).
    pose proof (digits_mul_pow2 (Z.abs i) m (- e) ltac:(lia) A) as Dg.
    rewrite D in Dg. unfold Zdigits in Dg. rewrite Z.abs_idemp in Dg.
    fold (Zdigits i) in Dg.
    split; [|split; [lia|]].
    + destruct s; unfold cond_Zopp in H; symmetry; [apply Z.ltb_lt | apply Z.ltb_ge]; nia.
    + rewrite A. f_equal. f_equal. lia.
Qed.

(** [float64(i)] for an integer below 2^53 in absolute value, zero apart:
    a float with a mantissa of 53 digits that denotes [i]. *)
Lemma float64_of_Z_exact i :
  i <> 0 -> Z.abs i < 2 ^ 53 ->
  exists m, Z.pos (digits2_pos m) = 53 /\
            float64_of_Z i = S754_finite (i <? 0) m (Zdigits i - 53) /\
            float_is_int (float64_of_Z i) i = true.
Proof.
  intros N B. unfold float64_of_Z, binary_normalize.
  destruct i as [|p|p]; [contradiction| |].
  - assert (Dp : Z.pos (digits2_pos p) = Zdigits (Z.pos p))
      by (rewrite Zdigits2_log2; reflexivity).
    assert (Z.pos (digits2_pos p) <= 53).
    { destruct (Z_le_gt_dec (Z.pos (digits2_pos p)) 53) as [|G]; [assumption|].
      exfalso. pose proof (digits_bounds p) as [L _].
      assert (2 ^ 53 <= 2 ^ (Z.pos (digits2_pos p) - 1))
        by (apply Z.pow_le_mono_r; lia).
      simpl Z.abs in B. lia. }
    destruct (binary_round_exact false p 0) as [m [Hm [Dm R]]];
      [assumption | lia |].
    exists m. split; [exact Dm|].
    rewrite R, <- Dp. split.
    { change (Z.pos p <? 0) with false. reflexivity || (f_equal; lia). }
    replace (0 + Z.pos (digits2_pos p) - 53)
      with (0 - (53 - Z.pos (digits2_pos p))) by lia.
    rewrite (float_is_int_shift false p 0 (53 - Z.pos (digits2_pos p)) m (Z.pos p) ltac:(lia) Hm).
    unfold float_is_int, cond_Zopp. change (0 <=? 0) with true. cbv iota.
    rewrite Z.pow_0_r, Z.mul_1_r. apply Z.eqb_refl.
  - assert (Dp : Z.pos (digits2_pos p) = Zdigits (Z.neg p))
      by (rewrite Zdigits2_log2; reflexivity).
    assert (Z.pos (digits2_pos p) <= 53).
    { destruct (Z_le_gt_dec (Z.pos (digits2_pos p)) 53) as [|G]; [assumption|].
      exfalso. pose proof (digits_bounds p) as [L _].
      assert (2 ^ 53 <= 2 ^ (Z.pos (digits2_pos p) - 1))
        by (apply Z.pow_le_mono_r; lia).
      simpl Z.abs in B. lia. }
    destruct (binary_round_exact true p 0) as [m [Hm [Dm R]]];
      [assumption | lia |].
    exists m. split; [exact Dm|].
    rewrite R, <- Dp. split.
    { change (Z.neg p <? 0) with true. reflexivity || (f_equal; lia). }
    replace (0 + Z.pos (digits2_pos p) - 53)
      with (0 - (53 - Z.pos (digits2_pos p))) by lia.
    rewrite (float_is_int_shift true p 0 (53 - Z.pos (digits2_pos p)) m (Z.neg p) ltac:(lia) Hm).
    unfold float_is_int, cond_Zopp. change (0 <=? 0) with true. cbv iota.
    rewrite Z.pow_0_r, Z.mul_1_r. apply Z.eqb_refl.
Qed.

(** Against a float with a mantissa of 53 digits, [float64(i) == f] says
    whether [f] denotes [i]. *)
Lemma float64_of_Z_eq_normal i s m e :
  i <> 0 -> Z.abs i < 2 ^ 53 -> Z.pos (digits2_pos m) = 53 ->
  float_eq (float64_of_Z i) (S754_finite s m e)
  = float_is_int (S754_finite s m e) i.
Proof.
  intros N B D.
  destruct (float64_of_Z_exact i N B) as [m1 [D1 [R1 I1]]].
  rewrite R1 in I1.
  destruct (float_is_int_normal _ _ _ _ D1 B I1) as [_ [_ M1]].
  unfold float_eq. rewrite R1, SFeqb_finite.
  destruct (float_is_int (S754_finite s m e) i) eqn:F.
  - destruct (float_is_int_normal _ _ _ _ D B F) as [S [E M]].
    subst s e. rewrite Bool.eqb_reflx, Z.eqb_refl. simpl.
    apply Pos.eqb_eq. apply Pos2Z.inj. congruence.
  - destruct (Bool.eqb (i <? 0) s) eqn:S; [|reflexivity].
    destruct (Zdigits i - 53 =? e) eqn:E; [|reflexivity].
    destruct (m1 =? m)%positive eqn:M; [|reflexivity].
    apply Bool.eqb_prop in S. apply Z.eqb_eq in E. apply Pos.eqb_eq in M.
    subst. congruence.
Qed.

Lemma float_is_int_zero s m e : float_is_int (S754_finite s m e) 0 = false.
Proof.
  unfold float_is_int. destruct (0 <=? e) eqn:E.
  - apply Z.leb_le in E. pose proof (pow2_pos e E).
    apply Z.eqb_neq. destruct s; unfold cond_Zopp; nia.
  - apply Z.eqb_neq. destruct s; unfold cond_Zopp; lia.
Qed.

(** A float with a short mantissa and the least exponent of float64 is
    below one, and denotes no integer. *)
Lemma float_is_int_subnormal s m e i :
  Z.pos (digits2_pos m) < 53 -> e = -1074 ->
  float_is_int (S754_finite s m e) i = false.
Proof.
  intros D ->. unfold float_is_int. change (0 <=? -1074) with false. cbv iota.
  apply Z.eqb_neq. intros H.
  pose proof (digits_bounds m) as [_ U].
  assert (2 ^ Z.pos (digits2_pos m) <= 2 ^ 53) by (apply Z.pow_le_mono_r; lia).
  assert (P : 2 ^ 53 < 2 ^ (- -1074)) by (apply Z.pow_lt_mono_r; lia).
  destruct s; unfold cond_Zopp in H; nia.
Qed.

(** The float64 that [reflect.Value.Float] returns for a float of kind
    [k]: the float itself, or the widened float32. *)
Lemma Float_normal_form k tn s m e :
  valid_floatk k (S754_finite s m e) = true ->
  (Z.pos (digits2_pos m) < 53 /\ e = -1074 /\
   Value.Float (VFloat k tn (S754_finite s m e)) = S754_finite s m e) \/
  (exists m' e', Z.pos (digits2_pos m') = 53 /\ e' <= 971 /\
     Value.Float (VFloat k tn (S754_finite s m e)) = S754_finite s m' e' /\
     forall i, float_is_int (S754_finite s m' e') i
               = float_is_int (S754_finite s m e) i).
Proof.
  destruct k; simpl valid_floatk; unfold bounded, canonical_mantissa, fexp, emin,
    prec32, emax32, prec64, emax64; rewrite andb_true_iff, Z.eqb_eq, Z.leb_le;
    intros [C B].
  - right.
    destruct (binary_round_exact s m e) as [m' [Hm [Dm R]]]; [lia | lia |].
    exists m', (e + Z.pos (digits2_pos m) - 53).
    split; [exact Dm|]. split; [lia|]. split; [exact R|]. intros i.
    replace (e + Z.pos (digits2_pos m) - 53)
      with (e - (53 - Z.pos (digits2_pos m))) by lia.
    apply float_is_int_shift; [lia | exact Hm].
  - destruct (Z.eq_dec (Z.pos (digits2_pos m)) 53) as [D|D].
    + right. exists m, e. repeat split; auto.
    + left. repeat split; lia.
Qed.

Lemma float_eq_float64_of_Z i k tn r :
  Z.abs i < 2 ^ 53 -> valid_floatk k r = true ->
  float_eq (float64_of_Z i) (Value.Float (VFloat k tn r)) = float_is_int r i.
Proof.
  intros B V. destruct (Z.eq_dec i 0) as [->|N].
  - destruct r as [s|s| |s m e].
    + destruct k; reflexivity.
    + destruct k, s; reflexivity.
    + destruct k; reflexivity.
    + rewrite float_is_int_zero.
      destruct (Float_normal_form k tn s m e V) as [[_ [_ ->]]|[m' [e' [_ [_ [-> _]]]]]];
        destruct s; reflexivity.
  - destruct (float64_of_Z_exact i N B) as [m1 [D1 [R1 I1]]].
    destruct r as [s|s| |s m e].
    + rewrite R1. simpl float_is_int. apply Z.eqb_neq in N. rewrite N.
      destruct k, s, (i <? 0); reflexivity.
    + rewrite R1. destruct k, s, (i <? 0); reflexivity.
    + rewrite R1. destruct k; reflexivity.
    + destruct (Float_normal_form k tn s m e V)
        as [[D [E ->]]|[m' [e' [D [_ [-> F]]]]]].
      * rewrite (float_is_int_subnormal s m e i D E).
        rewrite R1. unfold float_eq. rewrite SFeqb_finite.
        replace (Zdigits i - 53 =? e) with false; [apply andb_false_intro1, andb_false_r|].
        symmetry. apply Z.eqb_neq. subst e. unfold Zdigits.
        pose proof (Z.log2_nonneg (Z.abs i)). lia.
      * rewrite <- F. apply float64_of_Z_eq_normal; assumption.
Qed.

Lemma iter_pos_Pos_iter {A : Type} (f : A -> A) p : forall x,
  iter_pos f p x = Pos.iter f x p.
Proof.
  induction p as [p IH|p IH|]; intros x; simpl.
  - rewrite !IH. rewrite <- !Pos.iter_swap. reflexivity.
  - rewrite !IH. reflexivity.
  - reflexivity.
Qed.

(** Shifting out zero bits loses nothing. *)
Lemma shr_trailing_zeros q : forall m a,
  Z.pos a = Z.pos m * 2 ^ Z.pos q ->
  iter_pos shr_1 q (Build_shr_record (Z.pos a) false false)
  = Build_shr_record (Z.pos m) false false.
Proof.
  intros m a. rewrite iter_pos_Pos_iter. revert m a.
  induction q as [|q IH] using Pos.peano_ind; intros m a H.
  - simpl. change (2 ^ 1) with 2 in H.
    assert (a = (m~0)%positive) by lia. subst a. reflexivity.
  - rewrite Pos.iter_succ.
    rewrite (IH (m~0)%positive a).
    + reflexivity.
    + rewrite H. rewrite Pos2Z.inj_succ, Z.pow_succ_r by lia.
      rewrite (Pos2Z.inj_xO m). ring.
Qed.

Lemma binary_round_trailing_zeros s m q a :
  Z.pos (digits2_pos m) = 53 -> Z.pos q <= 971 ->
  Z.pos a = Z.pos m * 2 ^ Z.pos q ->
  binary_round prec64 emax64 s a 0 = S754_finite s m (Z.pos q).
Proof.
  intros D R H.
  assert (Da : Z.pos (digits2_pos a) = 53 + Z.pos q).
  { rewrite (digits_mul_pow2 (Z.pos m) a (Z.pos q) ltac:(lia) H).
    unfold Zdigits. simpl Z.abs. rewrite <- Zdigits2_log2, D. reflexivity. }
  unfold binary_round, prec64, emax64, fexp, emin. rewrite Da.
  replace (Z.max (53 + Z.pos q + 0 - 53) (3 - 1024 - 53)) with (Z.pos q) by lia.
  unfold shl_align. change (Z.pos q - 0) with (Z.pos q). cbv iota.
  unfold binary_round_aux, shr_fexp, fexp, emin. cbn [Zdigits2]. rewrite Da.
  replace (Z.max (53 + Z.pos q + 0 - 53) (3 - 1024 - 53) - 0) with (Z.pos q) by lia.
  cbn [shr shr_record_of_loc].
  rewrite (shr_trailing_zeros q m a H).
  cbn [shr_m shr_r shr_s loc_of_shr_record round_nearest_even Zdigits2].
  rewrite D.
  replace (Z.max (53 + (0 + Z.pos q) - 53) (3 - 1024 - 53) - (0 + Z.pos q))
    with 0 by lia.
  cbn [shr shr_m].
  replace (0 + Z.pos q <=? 1024 - 53) with true
    by (symmetry; apply Z.leb_le; lia).
  reflexivity.
Qed.

(** [float64(i) == f] holds whenever [f] denotes [i]. *)
Lemma float_eq_float64_of_Z_exact i k tn r :
  valid_floatk k r = true -> float_is_int r i = true ->
  float_eq (float64_of_Z i) (Value.Float (VFloat k tn r)) = true.
Proof.
  intros V F. destruct r as [s|s| |s m e]; try discriminate.
  - simpl in F. apply Z.eqb_eq in F. subst i. destruct k, s; reflexivity.
  - destruct (Float_normal_form k tn s m e V)
      as [[D [E _]]|[m' [e' [D [B [-> F']]]]]].
    + rewrite (float_is_int_subnormal s m e i D E) in F. discriminate.
    + rewrite <- F' in F.
      assert (N : i <> 0)
        by (intros ->; rewrite float_is_int_zero in F; discriminate).
      pose proof (digits_bounds m') as [_ U]. rewrite D in U.
      destruct e' as [|q|q].
      * rewrite float64_of_Z_eq_normal; try assumption.
        unfold float_is_int in F. change (0 <=? 0) with true in F. cbv iota in F.
        apply Z.eqb_eq in F. rewrite Z.pow_0_r, Z.mul_1_r in F.
        destruct s; unfold cond_Zopp in F; lia.
      * unfold float_is_int in F.
        change (0 <=? Z.pos q) with true in F. cbv iota in F.
        apply Z.eqb_eq in F.
        pose proof (pow2_pos (Z.pos q) ltac:(lia)) as P.
        assert (A : exists a, Z.pos a = Z.pos m' * 2 ^ Z.pos q).
        { destruct (Z.pos m' * 2 ^ Z.pos q) as [|a|a] eqn:Q; try lia. eauto. }
        destruct A as [a A].
        rewrite <- A in F. unfold float_eq. subst i.
        destruct s; unfold cond_Zopp; cbn [Z.opp].
        -- change (float64_of_Z (Z.neg a))
             with (binary_round prec64 emax64 true a 0).
           rewrite (binary_round_trailing_zeros true m' q a D B A).
           rewrite SFeqb_finite, Z.eqb_refl, Pos.eqb_refl. reflexivity.
        -- change (float64_of_Z (Z.pos a))
             with (binary_round prec64 emax64 false a 0).
           rewrite (binary_round_trailing_zeros false m' q a D B A).
           rewrite SFeqb_finite, Z.eqb_refl, Pos.eqb_refl. reflexivity.
      * rewrite float64_of_Z_eq_normal; try assumption.
        unfold float_is_int in F.
        change (0 <=? Z.neg q) with false in F. cbv iota in F.
        apply Z.eqb_eq in F.
        pose proof (pow2_pos (- Z.neg q) ltac:(lia)) as P.
        destruct s; unfold cond_Zopp in F; nia.
Qed.

(** X7.  For an untyped integer or unsigned [i] with [|i| < 2^53] and a
    float subject [r] of kind float32 or float64, [eq] answers true
    exactly when the number that [r] denotes is [i]: the conversion
    [float64(i)] is exact below 2^53, and so is the widening of a float32.
    The answer is the same with the float as the first operand, unless the
    float is itself an untyped float. *)
Theorem untyped_integer_equals_float_below_2_53
  (i : Z) (k : floatk) (tn : string) (r : spec_float) :
  Z.abs i < 2 ^ 53 -> valid_floatk k r = true ->
  asserting.eq (asserting.untypedInt i) (VFloat k tn r) = Ok (float_is_int r i) /\
  (0 <= i ->
   asserting.eq (asserting.untypedUint i) (VFloat k tn r)
   = Ok (float_is_int r i)) /\
  (is_untypedFloat (VFloat k tn r) = false ->
   asserting.eq (VFloat k tn r) (asserting.untypedInt i)
   = Ok (float_is_int r i) /\
   (0 <= i ->
    asserting.eq (VFloat k tn r) (asserting.untypedUint i)
    = Ok (float_is_int r i))).
Proof.
  intros B V.
  assert (Ei : asserting.untypedInt_equals i (VFloat k tn r) = float_is_int r i).
  { rewrite <- (float_eq_float64_of_Z i k tn r B V). destruct k; reflexivity. }
  assert (Eu : asserting.untypedUint_equals i (VFloat k tn r) = float_is_int r i).
  { rewrite <- (float_eq_float64_of_Z i k tn r B V). destruct k; reflexivity. }
  split; [|split].
  - rewrite (eq_untyped_l (asserting.untypedInt i) _
               (asserting.untypedInt_equals i) eq_refl), Ei. reflexivity.
  - intros _. rewrite (eq_untyped_l (asserting.untypedUint i) _
               (asserting.untypedUint_equals i) eq_refl), Eu. reflexivity.
  - intros U.
    assert (N : asserting.as_ieq (VFloat k tn r) = None).
    { simpl in U |- *. destruct k; [reflexivity|]. rewrite U. reflexivity. }
    split.
    + rewrite (eq_untyped_r (asserting.untypedInt i) _
                 (asserting.untypedInt_equals i) eq_refl N), Ei. reflexivity.
    + intros _. rewrite (eq_untyped_r (asserting.untypedUint i) _
                 (asserting.untypedUint_equals i) eq_refl N), Eu. reflexivity.
Qed.

Lemma untyped_integer_equals_float_below_2_53_witness :
  Z.abs 3 < 2 ^ 53 /\ valid_floatk KFloat64 float_three = true /\
  float_is_int float_three 3 = true /\ float_is_int float_three 2 = false /\
  asserting.eq (asserting.untypedInt 3) (GoFloat64 float_three) = Ok true /\
  asserting.eq (GoFloat64 float_three) (asserting.untypedUint 3) = Ok true.
Proof.
  split; [reflexivity|]. split; [reflexivity|]. split; [reflexivity|].
  split; [reflexivity|].
  destruct (untyped_integer_equals_float_below_2_53 3 KFloat64 "float64"
              float_three eq_refl eq_refl) as [H1 [_ H2]].
  split; [exact H1|]. destruct (H2 eq_refl) as [_ H3]. apply H3. discriminate.
Defined.

(** X8.  An untyped integer or unsigned [i], of any size, is equal for
    [eq] to every float subject that denotes [i] exactly: the conversion
    [float64(i)] rounds, and it leaves alone every integer that a float
    can hold.  (Beyond 2^53 the converse fails.) *)
Theorem untyped_integer_equals_exact_float
  (i : Z) (k : floatk) (tn : string) (r : spec_float) :
  valid_floatk k r = true -> float_is_int r i = true ->
  asserting.eq (asserting.untypedInt i) (VFloat k tn r) = Ok true /\
  asserting.eq (asserting.untypedUint i) (VFloat k tn r) = Ok true.
Proof.
  intros V F.
  pose proof (float_eq_float64_of_Z_exact i k tn r V F) as E.
  split.
  - rewrite (eq_untyped_l (asserting.untypedInt i) _
               (asserting.untypedInt_equals i) eq_refl).
    f_equal. rewrite <- E. destruct k; reflexivity.
  - rewrite (eq_untyped_l (asserting.untypedUint i) _
               (asserting.untypedUint_equals i) eq_refl).
    f_equal. rewrite <- E. destruct k; reflexivity.
Qed.

Lemma untyped_integer_equals_exact_float_witness :
  valid_floatk KFloat64 float_2_53 = true /\
  float_is_int float_2_53 9007199254740992 = true /\
  asserting.eq (asserting.untypedInt 9007199254740992) (GoFloat64 float_2_53)
  = Ok true.
Proof.
  split; [reflexivity|]. split; [reflexivity|].
  apply (untyped_integer_equals_exact_float 9007199254740992 KFloat64
           "float64" float_2_53); reflexivity.
Defined.

(* ================================================================== *)
(** * Further properties of package cond *)
(* ================================================================== *)


(** X10.  The severity of a condition.  A condition made by [New] is not
    fatal; [SetFatal] makes it fatal, and it stays fatal through later
    calls of [SetMessage], [SetMessageFunc] and [SetFatal], in whatever
    order the calls are chained.  [SetFatal] and [SetMessage] change neither
    the outcome of [Test] nor what it does to the embedded condition and
    to the world, and [SetFatal] does not change [Message]. *)
Theorem cond_setters_independent
  (W T : Type) (I : cond.Condition W T) (c : cond.cond W T) (msg : string)
  (f : prog W string) (v : value) (w : W) :
  cond.Fatal W (cond.New W (cond.Condition_ c)) = false /\
  cond.Fatal W (cond.SetFatal W c) = true /\
  cond.Fatal W (cond.SetMessage W c msg) = cond.Fatal W c /\
  cond.Fatal W (cond.SetMessageFunc W c f) = cond.Fatal W c /\
  cond.SetFatal W (cond.SetFatal W c) = cond.SetFatal W c /\
  cond.SetFatal W (cond.SetMessage W c msg)
  = cond.SetMessage W (cond.SetFatal W c) msg /\
  cond.SetFatal W (cond.SetMessageFunc W c f)
  = cond.SetMessageFunc W (cond.SetFatal W c) f /\
  cond.Message W v (cond.SetFatal W c, w)
  = (fst (cond.Message W v (c, w)),
     (cond.SetFatal W (fst (snd (cond.Message W v (c, w)))),
      snd (snd (cond.Message W v (c, w))))) /\
  cond.Test W v (cond.SetFatal W c, w)
  = (fst (cond.Test W v (c, w)),
     (cond.SetFatal W (fst (snd (cond.Test W v (c, w)))),
      snd (snd (cond.Test W v (c, w))))) /\
  cond.Test W v (cond.SetMessage W c msg, w)
  = (fst (cond.Test W v (c, w)),
     (cond.SetMessage W (fst (snd (cond.Test W v (c, w)))) msg,
      snd (snd (cond.Test W v (c, w))))).
Proof.
  repeat split.
  - destruct c as [o [g|] fa];
      unfold cond.Message, cond.message, cond.SetFatal, bind, get_this, world,
        cond.embedded; cbn [fst snd cond.userMsg cond.Condition_ cond.isFatal].
    + destruct (g w). reflexivity.
    + destruct (cond.Condition_Message W v (o, w)) as [r [o' w']].
      reflexivity.
  - unfold cond.Test, cond.embedded, cond.SetFatal.
    cbn [fst snd cond.userMsg cond.Condition_ cond.isFatal].
    destruct (cond.Condition_Test W v (cond.Condition_ c, w)) as [r [o w']].
    reflexivity.
  - unfold cond.Test, cond.embedded, cond.SetMessage.
    cbn [fst snd cond.userMsg cond.Condition_ cond.isFatal].
    destruct (cond.Condition_Test W v (cond.Condition_ c, w)) as [r [o w']].
    reflexivity.
Qed.

(* ================================================================== *)
(** * Further properties of the evaluator *)
(* ================================================================== *)

Section MoreRun.
Variable W : Type.
Variable call : addr -> prog W unit.
Variable verb_v : value -> string.
Variable t : asserting.TB W.
Local Open Scope prog_scope.

(** [Assert] on a subject that is no [hasError], once [Helper] has
    returned: the second part of the body. *)
Lemma Assert_after_Helper T (I : cond.Condition W T) v (c : cond.cond W T) w w0 :
  asserting.as_hasError v = None ->
  asserting.Helper W t w = (Ok tt, w0) ->
  asserting.Assert W verb_v t v (c, w) = asserting.check W t v (c, w0).
Proof.
  intros Hv Hh. unfold asserting.Assert. rewrite Hv.
  unfold bind, world. cbn [fst snd]. rewrite Hh. reflexivity.
Qed.

Lemma Sprintf_unexpected v :
  fmt.Sprintf verb_v "unexpected <%v>" [v]
  = "unexpected <" ++ fmt.format_v verb_v v ++ ">".
Proof. reflexivity. Qed.

Lemma AssertNoError_run (err : value) (w : W) :
  asserting.as_hasError err = None ->
  asserting.AssertNoError W verb_v t err w
  = (asserting.Helper W t ;; asserting.Helper W t ;;
     if asserting.equalsNil err then ret tt
     else asserting.Error W t
            [GoString ("unexpected error <" ++ fmt.format_v verb_v err ++ ">")])
      w.
Proof.
  intros He.
  unfold asserting.AssertNoError, asserting.Assert_new, asserting.Assert, bind,
    world. rewrite He. cbn [fst snd].
  destruct (asserting.Helper W t w) as [[[]|p] w1]; [|reflexivity].
  cbn [fst snd].
  destruct (asserting.Helper W t w1) as [[[]|p] w2]; [|reflexivity].
  unfold asserting.check, bind, cond.Test, cond.embedded, asserting.Equals,
    cond.SetMessage, cond.New.
  cbn [fst snd cond.Condition_ cond.userMsg cond.isFatal cond.Condition_Test
       asserting.equals_Condition].
  rewrite equals_Test_eq, eq_nil_l. cbn [fst snd].
  destruct (asserting.equalsNil err); cbn [negb]; [reflexivity|].
  unfold get_this, cond.Message, cond.message, bind, get_this, world, ret,
    cond.Fatal, cond.fatal.
  cbn [fst snd cond.Condition_ cond.userMsg cond.isFatal].
  rewrite Sprintf_unexpected_error.
  destruct (asserting.Error W t _ w2) as [r w3]. reflexivity.
Qed.

End MoreRun.

(** X11.  A passing assertion is silent and does not make the message.
    When the subject is no [hasError] and [Helper] and [Test] return, with
    [Test] true, [Assert] returns with the condition and the world as
    [Test] left them: neither [t.Error] nor [t.Fatal] runs, and neither the
    message function set with [SetMessageFunc] nor [Message] of the
    condition is called. *)
Theorem Assert_pass_is_silent
  (W : Type) (verb_v : value -> string) (t : asserting.TB W)
  (T : Type) (I : cond.Condition W T) (v : value)
  (c : cond.cond W T) (w w0 w1 : W) (o1 : T) :
  asserting.as_hasError v = None ->
  asserting.Helper W t w = (Ok tt, w0) ->
  cond.Condition_Test W v (cond.Condition_ c, w0) = (Ok true, (o1, w1)) ->
  asserting.Assert W verb_v t v (c, w)
  = (Ok tt, (cond.mkcond o1 (cond.userMsg c) (cond.isFatal c), w1)).
Proof.
  intros Hv Hh Ht. rewrite (Assert_after_Helper W verb_v t _ _ _ _ _ _ Hv Hh).
  unfold asserting.check, bind, cond.Test, cond.embedded. cbn [fst snd].
  rewrite Ht. reflexivity.
Qed.

Lemma Assert_pass_is_silent_witness :
  asserting.as_hasError (GoInt 1) = None /\
  asserting.Helper asserting_test.MockTB asserting_test.mock
    asserting_test.new_mock = (Ok tt, asserting_test.new_mock) /\
  cond.Condition_Test asserting_test.MockTB
    (Condition := asserting_test.equals_Condition) (GoInt 1)
    (asserting.mkequals (GoInt 1), asserting_test.new_mock)
  = (Ok true, (asserting.mkequals (GoInt 1), asserting_test.new_mock)) /\
  asserting.Assert asserting_test.MockTB asserting_test.test_verb_v
    asserting_test.mock (I := asserting_test.equals_Condition) (GoInt 1)
    (cond.SetMessageFunc asserting_test.MockTB
       (asserting.Equals asserting_test.MockTB (GoInt 1)) marking_message,
     asserting_test.new_mock)
  = (Ok tt,
     (cond.SetMessageFunc asserting_test.MockTB
        (asserting.Equals asserting_test.MockTB (GoInt 1)) marking_message,
      asserting_test.new_mock)).
Proof.
  split; [reflexivity|]. split; [reflexivity|]. split; [reflexivity|].
  apply (Assert_pass_is_silent asserting_test.MockTB asserting_test.test_verb_v
           asserting_test.mock asserting.equals asserting_test.equals_Condition
           (GoInt 1)
           (cond.SetMessageFunc asserting_test.MockTB
              (asserting.Equals asserting_test.MockTB (GoInt 1)) marking_message)
           asserting_test.new_mock asserting_test.new_mock
           asserting_test.new_mock (asserting.mkequals (GoInt 1)));
    reflexivity.
Defined.

(** X12.  A failing assertion reports once.  When the subject is no
    [hasError] and [Test] returns false, [Assert] makes the message with
    [cond.Message] (the message of the user when one is set, [Message] of
    the condition otherwise) and passes it, as a string, to [t.Fatal] when
    the condition is fatal and to [t.Error] otherwise; it calls nothing
    else. *)
Theorem Assert_failure_reports_once
  (W : Type) (verb_v : value -> string) (t : asserting.TB W)
  (T : Type) (I : cond.Condition W T) (v : value)
  (c : cond.cond W T) (w w0 w1 : W) (o1 : T) :
  asserting.as_hasError v = None ->
  asserting.Helper W t w = (Ok tt, w0) ->
  cond.Condition_Test W v (cond.Condition_ c, w0) = (Ok false, (o1, w1)) ->
  asserting.Assert W verb_v t v (c, w)
  = (msg <- cond.Message W v ;;
     world ((if cond.isFatal c then asserting.Fatal W t
             else asserting.Error W t) [GoString msg]))%prog
      (cond.mkcond o1 (cond.userMsg c) (cond.isFatal c), w1).
Proof.
  intros Hv Hh Ht. rewrite (Assert_after_Helper W verb_v t _ _ _ _ _ _ Hv Hh).
  unfold asserting.check, bind, cond.Test, cond.embedded. cbn [fst snd].
  rewrite Ht. cbn [negb fst snd]. unfold get_this. cbn [fst snd].
  unfold cond.Fatal, cond.fatal. cbn [cond.isFatal]. reflexivity.
Qed.

Lemma Assert_failure_reports_once_witness :
  asserting.as_hasError (GoInt 1) = None /\
  asserting.Helper asserting_test.MockTB asserting_test.mock
    asserting_test.new_mock = (Ok tt, asserting_test.new_mock) /\
  cond.Condition_Test asserting_test.MockTB
    (Condition := asserting_test.equals_Condition) (GoInt 1)
    (asserting.mkequals (GoInt 2), asserting_test.new_mock)
  = (Ok false, (asserting.mkequals (GoInt 2), asserting_test.new_mock)) /\
  asserting.Assert asserting_test.MockTB asserting_test.test_verb_v
    asserting_test.mock (I := asserting_test.equals_Condition) (GoInt 1)
    (cond.SetFatal asserting_test.MockTB
       (cond.SetMessage asserting_test.MockTB
          (asserting.Equals asserting_test.MockTB (GoInt 2)) "not two"),
     asserting_test.new_mock)
  = (Ok tt,
     (cond.SetFatal asserting_test.MockTB
        (cond.SetMessage asserting_test.MockTB
           (asserting.Equals asserting_test.MockTB (GoInt 2)) "not two"),
      asserting_test.mkMockTB [] [[GoString "not two"]] true)).
Proof.
  split; [reflexivity|]. split; [reflexivity|]. split; [reflexivity|].
  rewrite (Assert_failure_reports_once asserting_test.MockTB
             asserting_test.test_verb_v asserting_test.mock asserting.equals
             asserting_test.equals_Condition (GoInt 1)
             (cond.SetFatal asserting_test.MockTB
                (cond.SetMessage asserting_test.MockTB
                   (asserting.Equals asserting_test.MockTB (GoInt 2)) "not two"))
             asserting_test.new_mock asserting_test.new_mock
             asserting_test.new_mock (asserting.mkequals (GoInt 2))
             eq_refl eq_refl eq_refl).
  reflexivity.
Defined.

(** X13.  [AssertTrue(condition)] calls [t.Helper()] twice; on true it does
    nothing more, on false it calls [t.Error] once with the message
    "unexpected false condition". *)
Theorem AssertTrue_reports
  (W : Type) (verb_v : value -> string) (t : asserting.TB W)
  (condition : bool) (w : W) :
  asserting.AssertTrue W verb_v t condition w
  = (asserting.Helper W t ;; asserting.Helper W t ;;
     if condition then ret tt
     else asserting.Error W t [GoString "unexpected false condition"])%prog w.
Proof.
  unfold asserting.AssertTrue, asserting.Assert_new, asserting.Assert, bind,
    world. cbn [fst snd asserting.as_hasError GoBool].
  destruct (asserting.Helper W t w) as [[[]|p] w1]; [|reflexivity].
  cbn [fst snd].
  destruct (asserting.Helper W t w1) as [[[]|p] w2]; [|reflexivity].
  destruct condition;
    cbv - [GoString asserting.Error asserting.Helper asserting.Fatal];
    [reflexivity|].
  destruct (asserting.Error W t _ w2) as [r w3]. reflexivity.
Qed.

(** X14.  [AssertNoError(err)] calls [t.Helper()] twice and then accepts
    exactly the values that [equalsNil] accepts: the nil interface and
    also a nil pointer (or nil map, slice, channel or function) held in
    [err]; for every other [err] it calls [t.Error] once with the message
    "unexpected error <err>".  ([err] has the interface type [error], which
    the pointer to [hasError] does not implement.) *)
Theorem AssertNoError_reports
  (W : Type) (verb_v : value -> string) (t : asserting.TB W)
  (err : value) (w : W) :
  asserting.as_hasError err = None ->
  asserting.AssertNoError W verb_v t err w
  = (asserting.Helper W t ;; asserting.Helper W t ;;
     if asserting.equalsNil err then ret tt
     else asserting.Error W t
            [GoString ("unexpected error <" ++ fmt.format_v verb_v err ++ ">")])%prog
      w.
Proof. apply AssertNoError_run. Qed.

Lemma AssertNoError_reports_witness :
  asserting.as_hasError (asserting_test.errors_New 9%N "err") = None /\
  asserting.AssertNoError asserting_test.MockTB asserting_test.test_verb_v
    asserting_test.mock (asserting_test.errors_New 9%N "err")
    asserting_test.new_mock
  = (Ok tt, asserting_test.mkMockTB [[GoString "unexpected error <err>"]] []
              false).
Proof.
  split; [reflexivity|].
  rewrite (AssertNoError_reports asserting_test.MockTB
             asserting_test.test_verb_v asserting_test.mock
             (asserting_test.errors_New 9%N "err") asserting_test.new_mock
             eq_refl).
  reflexivity.
Defined.

(** X15.  A nil pointer held in an [error] is no error for
    [AssertNoError] and is an error for [ValueError].  For [err] a nil
    pointer of any type, [AssertNoError(err)] reports nothing, while
    [Assert] on [ValueError(v, err)] reports "unexpected error <err>" with
    [t.Error], for every [v] and every condition: [ValueError] tests
    [err != nil] on the interface, [AssertNoError] goes through [eq] and
    [equalsNil]. *)
Theorem typed_nil_error_is_an_error_for_ValueError
  (W : Type) (verb_v : value -> string) (t : asserting.TB W)
  (T : Type) (I : cond.Condition W T) (a : addr) (v : value) (tn : string)
  (c : cond.cond W T) (w : W) :
  let err := VPtr tn None in
  asserting.as_hasError err = None ->
  asserting.AssertNoError W verb_v t err w
  = (asserting.Helper W t ;; asserting.Helper W t)%prog w /\
  asserting.Assert W verb_v t (asserting.ValueError verb_v a v err) (c, w)
  = world (asserting.Helper W t ;; asserting.Helper W t ;;
           asserting.Error W t
             [GoString ("unexpected error <" ++ fmt.format_v verb_v err ++ ">")])%prog
      (c, w).
Proof.
  intros err He. split.
  - rewrite (AssertNoError_run W verb_v t err w He). subst err.
    cbn [asserting.equalsNil TypeOf reflect.tkind Value.IsNil].
    unfold bind. destruct (asserting.Helper W t w) as [[[]|p] w1]; [|reflexivity].
    destruct (asserting.Helper W t w1) as [[[]|p] w2]; reflexivity.
  - subst err. unfold asserting.ValueError. cbn [asserting.is_nil negb].
    rewrite Assert_hasError. reflexivity.
Qed.

Lemma typed_nil_error_is_an_error_for_ValueError_witness :
  asserting.as_hasError (VPtr "*os.PathError" None) = None /\
  asserting.AssertNoError asserting_test.MockTB asserting_test.test_verb_v
    asserting_test.mock (VPtr "*os.PathError" None) asserting_test.new_mock
  = (Ok tt, asserting_test.new_mock) /\
  asserting.Assert asserting_test.MockTB asserting_test.test_verb_v
    asserting_test.mock (I := asserting_test.equals_Condition)
    (asserting.ValueError asserting_test.test_verb_v 7%N (GoInt 1)
       (VPtr "*os.PathError" None))
    (asserting.Equals asserting_test.MockTB (GoInt 1), asserting_test.new_mock)
  = (Ok tt,
     (asserting.Equals asserting_test.MockTB (GoInt 1),
      asserting_test.mkMockTB [[GoString "unexpected error <<nil>>"]] []
        false)).
Proof.
  split; [reflexivity|].
  destruct (typed_nil_error_is_an_error_for_ValueError asserting_test.MockTB
              asserting_test.test_verb_v asserting_test.mock asserting.equals
              asserting_test.equals_Condition 7%N (GoInt 1) "*os.PathError"
              (asserting.Equals asserting_test.MockTB (GoInt 1))
              asserting_test.new_mock eq_refl) as [H1 H2].
  split; [rewrite H1 | rewrite H2]; reflexivity.
Defined.

(** X16.  [AssertEqual] and [AssertNotEqual] are complementary.  For a
    subject that is no [hasError] and an expected value on which [eq]
    returns, both call [t.Helper()] twice and exactly one of the two
    reports: [AssertEqual] when [eq] is false, with the message of
    [formatMsg], and [AssertNotEqual] when [eq] is true, with "unexpected
    <v>"; each report is one call of [t.Error]. *)
Theorem AssertEqual_AssertNotEqual_complement
  (W : Type) (verb_v : value -> string) (t : asserting.TB W)
  (v e : value) (b : bool) (w : W) :
  asserting.as_hasError v = None ->
  asserting.eq e v = Ok b ->
  asserting.AssertEqual W verb_v t v e w
  = (asserting.Helper W t ;; asserting.Helper W t ;;
     if b then ret tt
     else asserting.Error W t
            [GoString (asserting.formatMsg verb_v "expected <%v> but was <%v>"
                         e v)])%prog w /\
  asserting.AssertNotEqual W verb_v t v e w
  = (asserting.Helper W t ;; asserting.Helper W t ;;
     if b then asserting.Error W t
                 [GoString ("unexpected <" ++ fmt.format_v verb_v v ++ ">")]
     else ret tt)%prog w.
Proof.
  intros Hv He. split.
  - unfold asserting.AssertEqual, asserting.Assert_new, asserting.Assert, bind,
      world. rewrite Hv. cbn [fst snd].
    destruct (asserting.Helper W t w) as [[[]|p] w1]; [|reflexivity].
    cbn [fst snd].
    destruct (asserting.Helper W t w1) as [[[]|p] w2]; [|reflexivity].
    unfold asserting.check, bind, cond.Test, cond.embedded, asserting.Equals,
      cond.New.
    cbn [fst snd cond.Condition_ cond.userMsg cond.isFatal cond.Condition_Test
         asserting.equals_Condition].
    rewrite equals_Test_eq, He. cbn [fst snd].
    destruct b; cbn [negb]; [reflexivity|].
    unfold get_this, cond.Message, cond.message, bind, get_this, world, ret,
      cond.Fatal, cond.fatal, cond.embedded.
    cbn [fst snd cond.Condition_ cond.userMsg cond.isFatal
         cond.Condition_Message asserting.equals_Condition].
    unfold asserting.equals_Message, bind, get_this, ret.
    cbn [fst snd asserting.equals_expected].
    destruct (asserting.Error W t _ w2) as [r w3]. reflexivity.
  - unfold asserting.AssertNotEqual, asserting.Assert_new, asserting.Assert,
      bind, world. rewrite Hv. cbn [fst snd].
    destruct (asserting.Helper W t w) as [[[]|p] w1]; [|reflexivity].
    cbn [fst snd].
    destruct (asserting.Helper W t w1) as [[[]|p] w2]; [|reflexivity].
    unfold asserting.check, bind, cond.Test, cond.embedded, asserting.NotEquals,
      cond.New.
    cbn [fst snd cond.Condition_ cond.userMsg cond.isFatal cond.Condition_Test
         asserting.notEquals_Condition].
    rewrite notEquals_Test_eq, He. cbn [fst snd].
    destruct b; cbn [negb]; [|reflexivity].
    unfold get_this, cond.Message, cond.message, bind, get_this, world, ret,
      cond.Fatal, cond.fatal, cond.embedded.
    cbn [fst snd cond.Condition_ cond.userMsg cond.isFatal
         cond.Condition_Message asserting.notEquals_Condition].
    unfold asserting.notEquals_Message, ret. cbn [fst snd].
    rewrite Sprintf_unexpected.
    destruct (asserting.Error W t _ w2) as [r w3]. reflexivity.
Qed.

Lemma AssertEqual_AssertNotEqual_complement_witness :
  asserting.as_hasError (GoInt 1) = None /\
  asserting.eq (GoInt 2) (GoInt 1) = Ok false /\
  asserting.AssertEqual asserting_test.MockTB asserting_test.test_verb_v
    asserting_test.mock (GoInt 1) (GoInt 2) asserting_test.new_mock
  = (Ok tt, asserting_test.mkMockTB [[GoString "expected <2> but was <1>"]] []
              false) /\
  asserting.AssertNotEqual asserting_test.MockTB asserting_test.test_verb_v
    asserting_test.mock (GoInt 1) (GoInt 2) asserting_test.new_mock
  = (Ok tt, asserting_test.new_mock).
Proof.
  split; [reflexivity|]. split; [reflexivity|].
  destruct (AssertEqual_AssertNotEqual_complement asserting_test.MockTB
              asserting_test.test_verb_v asserting_test.mock (GoInt 1) (GoInt 2)
              false asserting_test.new_mock eq_refl eq_refl) as [H1 H2].
  split; [rewrite H1 | rewrite H2]; reflexivity.
Defined.

(** X17.  [AssertMatch(v, f)], for a subject that is no [hasError]: two
    calls of [t.Helper()], one call of the predicate [f] on [v], in the
    world as [Helper] left it, and, when [f] returns false, one call of
    [t.Error] with the message "unexpected <v>"; a panic of [f] leaves
    [AssertMatch] as a panic. *)
Theorem AssertMatch_reports
  (W : Type) (verb_v : value -> string) (t : asserting.TB W)
  (v : value) (f : value -> prog W bool) (w : W) :
  asserting.as_hasError v = None ->
  asserting.AssertMatch W verb_v t v f w
  = (asserting.Helper W t ;; asserting.Helper W t ;;
     b <- f v ;;
     if b then ret tt
     else asserting.Error W t
            [GoString ("unexpected <" ++ fmt.format_v verb_v v ++ ">")])%prog w.
Proof.
  intros Hv.
  unfold asserting.AssertMatch, asserting.Assert_new, asserting.Assert, bind,
    world. rewrite Hv. cbn [fst snd].
  destruct (asserting.Helper W t w) as [[[]|p] w1]; [|reflexivity].
  cbn [fst snd].
  destruct (asserting.Helper W t w1) as [[[]|p] w2]; [|reflexivity].
  unfold asserting.check, bind, cond.Test, cond.embedded, asserting.Matches,
    cond.New.
  cbn [fst snd cond.Condition_ cond.userMsg cond.isFatal cond.Condition_Test
       asserting.matches_Condition].
  unfold asserting.matches_Test, bind, get_this, world.
  cbn [fst snd asserting.matches_f].
  destruct (f v w2) as [[[|]|p] w3]; cbn [negb fst snd]; try reflexivity.
  unfold get_this, cond.Message, cond.message, bind, get_this, world, ret,
    cond.Fatal, cond.fatal, cond.embedded.
  cbn [fst snd cond.Condition_ cond.userMsg cond.isFatal
       cond.Condition_Message asserting.matches_Condition].
  unfold asserting.matches_Message, ret. cbn [fst snd].
  rewrite Sprintf_unexpected.
  destruct (asserting.Error W t _ w3) as [r w4]. reflexivity.
Qed.

Lemma AssertMatch_reports_witness :
  asserting.as_hasError (GoInt 1) = None /\
  asserting.AssertMatch asserting_test.MockTB asserting_test.test_verb_v
    asserting_test.mock (GoInt 1) (fun _ => ret false) asserting_test.new_mock
  = (Ok tt, asserting_test.mkMockTB [[GoString "unexpected <1>"]] [] false).
Proof.
  split; [reflexivity|].
  rewrite (AssertMatch_reports asserting_test.MockTB asserting_test.test_verb_v
             asserting_test.mock (GoInt 1) (fun _ => ret false)
             asserting_test.new_mock eq_refl).
  reflexivity.
Defined.

(* ================================================================== *)
(** * Further properties of the conditions *)
(* ================================================================== *)

(** X18.  A function that returns without a panic satisfies [Panics(e)]
    exactly when [e] is nil or a nil pointer, map, slice, channel or
    function: [Test] calls the function once, captures nil and returns
    [equalsNil(e)]; the captured value stays nil. *)
Theorem Panics_without_panic
  (W : Type) (call : addr -> prog W unit) (verb_v : value -> string)
  (v e : value) (f : option addr) (w : W) :
  asserting.as_func v = Some f ->
  fst (asserting.invoke W call f w) = Ok tt ->
  cond.Test W (I := asserting.panics_Condition W call verb_v) v
    (asserting.Panics W e, w)
  = (Ok (asserting.equalsNil e),
     (asserting.Panics W e, snd (asserting.invoke W call f w))).
Proof.
  intros Hf Hr.
  unfold cond.Test, cond.embedded, asserting.Panics, cond.New.
  cbn [fst snd cond.Condition_ cond.userMsg cond.isFatal
       cond.Condition_Test asserting.panics_Condition].
  rewrite (panics_Test_func W call verb_v v f e VNil w Hf), Hr.
  cbn [recovered fst snd]. rewrite eq_nil_r. reflexivity.
Qed.

Lemma Panics_without_panic_witness :
  asserting.as_func (asserting_test.func 4%N) = Some (Some 4%N) /\
  fst (asserting.invoke nat counting (Some 4%N) 0%nat) = Ok tt /\
  cond.Test nat
    (I := asserting.panics_Condition nat counting asserting_test.test_verb_v)
    (asserting_test.func 4%N) (asserting.Panics nat (VPtr "*int" None), 0%nat)
  = (Ok true, (asserting.Panics nat (VPtr "*int" None), 1%nat)) /\
  cond.Test nat
    (I := asserting.panics_Condition nat counting asserting_test.test_verb_v)
    (asserting_test.func 4%N) (asserting.Panics nat (GoInt 1), 0%nat)
  = (Ok false, (asserting.Panics nat (GoInt 1), 1%nat)).
Proof.
  split; [reflexivity|]. split; [reflexivity|]. split.
  - apply (Panics_without_panic nat counting asserting_test.test_verb_v
             (asserting_test.func 4%N) (VPtr "*int" None) (Some 4%N) 0%nat);
      reflexivity.
  - apply (Panics_without_panic nat counting asserting_test.test_verb_v
             (asserting_test.func 4%N) (GoInt 1) (Some 4%N) 0%nat);
      reflexivity.
Defined.

(** X19.  A nil function value as the subject.  The call of a nil [func()]
    panics with the run-time error "invalid memory address or nil pointer
    dereference"; [Test] of [Panics] and of [PanicMatches] captures it as
    it captures any panic: no function body runs, the captured value is
    that error, and the result is [eq] of the expected value and the
    error, or the predicate on the error. *)
Theorem nil_func_panics_with_nil_dereference
  (W : Type) (call : addr -> prog W unit) (verb_v : value -> string)
  (v e : value) (p : value -> prog W bool) (w : W) :
  asserting.as_func v = Some None ->
  asserting.panics_Test W call verb_v v (asserting.mkpanics e VNil, w)
  = (asserting.eq e nil_dereference, (asserting.mkpanics e nil_dereference, w))
  /\
  asserting.panicMatches_Test W call verb_v v
    (asserting.mkpanicMatches W VNil p, w)
  = (fst (p nil_dereference w),
     (asserting.mkpanicMatches W nil_dereference p, snd (p nil_dereference w))).
Proof.
  intros Hf. split.
  - rewrite (panics_Test_func W call verb_v v None e VNil w Hf). reflexivity.
  - rewrite (panicMatches_Test_func W call verb_v v None p VNil w Hf).
    reflexivity.
Qed.

Lemma nil_func_panics_with_nil_dereference_witness :
  asserting.as_func (VRef KFunc "func()" None) = Some None /\
  asserting.panics_Test nat counting asserting_test.test_verb_v
    (VRef KFunc "func()" None) (asserting.mkpanics VNil VNil, 0%nat)
  = (Ok false, (asserting.mkpanics VNil nil_dereference, 0%nat)).
Proof.
  split; [reflexivity|].
  destruct (nil_func_panics_with_nil_dereference nat counting
              asserting_test.test_verb_v (VRef KFunc "func()" None) VNil
              (fun _ => ret true) 0%nat eq_refl) as [H _].
  rewrite H. reflexivity.
Defined.

(** X20.  The message after a test of [Panics] or [PanicMatches] shows the
    value that the test captured.  After [Test] on a function value,
    [Message] of [panics] is "expected to panic with <e> but <got>", with
    [e] and the captured [got] printed as [formatMsg] prints them (plain,
    or each with its type when the two print alike), and [Message] of
    [panicMatches] is "unexpected panic <got>"; both end with the note
    " (didn't panic?)" exactly when the captured value is nil. *)
Theorem panic_message_shows_captured_value
  (W : Type) (call : addr -> prog W unit) (verb_v : value -> string)
  (v e got0 : value) (p : value -> prog W bool) (f : option addr) (w : W) :
  asserting.as_func v = Some f ->
  let r := asserting.invoke W call f w in
  let got := recovered (fst r) in
  (forall b, asserting.eq e got = Ok b ->
   (asserting.panics_Test W call verb_v v ;;
    asserting.panics_Message W verb_v v)%prog
     (asserting.mkpanics e got0, w)
   = (Ok (if String.eqb (fmt.format_v verb_v e) (fmt.format_v verb_v got)
          then "expected to panic with <" ++ annotated verb_v e ++ "> but <"
               ++ annotated verb_v got ++ ">" ++ nilExplain got
          else "expected to panic with <" ++ fmt.format_v verb_v e ++ "> but <"
               ++ fmt.format_v verb_v got ++ ">" ++ nilExplain got),
      (asserting.mkpanics e got, snd r))) /\
  (forall b w', p got (snd r) = (Ok b, w') ->
   (asserting.panicMatches_Test W call verb_v v ;;
    asserting.panicMatches_Message W verb_v v)%prog
     (asserting.mkpanicMatches W got0 p, w)
   = (Ok ("unexpected panic <" ++ fmt.format_v verb_v got ++ ">"
          ++ nilExplain got),
      (asserting.mkpanicMatches W got p, w'))).
Proof.
  intros Hf r got. split.
  - intros b He. unfold bind.
    rewrite (panics_Test_func W call verb_v v f e got0 w Hf).
    fold r. fold got. rewrite He.
    unfold asserting.panics_Message, bind, get_this, ret.
    cbn [fst snd asserting.panics_expected asserting.panics_got].
    unfold asserting.formatMsg. rewrite !Sprintf_v, !Sprintf_annotated.
    unfold nilExplain.
    destruct (String.eqb _ _), (asserting.is_nil got); reflexivity.
  - intros b w' Hp. unfold bind.
    rewrite (panicMatches_Test_func W call verb_v v f p got0 w Hf).
    fold r. fold got. rewrite Hp. cbn [fst snd].
    unfold asserting.panicMatches_Message, bind, get_this, ret.
    cbn [fst snd asserting.panicMatches_got]. unfold nilExplain.
    destruct (asserting.is_nil got); reflexivity.
Qed.

Lemma panic_message_shows_captured_value_witness :
  asserting.as_func (asserting_test.func 1%N) = Some (Some 1%N) /\
  asserting.eq (GoInt 2)
    (recovered (fst (asserting.invoke asserting_test.MockTB
                       asserting_test.test_funcs (Some 1%N)
                       asserting_test.new_mock))) = Ok false /\
  (asserting.panics_Test asserting_test.MockTB asserting_test.test_funcs
     asserting_test.test_verb_v (asserting_test.func 1%N) ;;
   asserting.panics_Message asserting_test.MockTB asserting_test.test_verb_v
     (asserting_test.func 1%N))%prog
    (asserting.mkpanics (GoInt 2) VNil, asserting_test.new_mock)
  = (Ok "expected to panic with <2> but <1>",
     (asserting.mkpanics (GoInt 2) (GoInt 1), asserting_test.new_mock)).
Proof.
  split; [reflexivity|]. split; [reflexivity|].
  destruct (panic_message_shows_captured_value asserting_test.MockTB
              asserting_test.test_funcs asserting_test.test_verb_v
              (asserting_test.func 1%N) (GoInt 2) VNil (fun _ => ret true)
              (Some 1%N) asserting_test.new_mock eq_refl) as [H _].
  rewrite (H false eq_refl). reflexivity.
Defined.






Lemma rtype_eqb_refl t : rtype_eqb t t = true.
Proof. destruct t; simpl; [apply Type_eqb_refl | reflexivity]. Qed.

Lemma deep_elems_ints k tn (l1 l2 : list Z) :
  deep_elems deepValueEqual (List.map (VInt k tn) l1) (List.map (VInt k tn) l2)
  = true <-> l1 = l2.
Proof.
  revert l2. induction l1 as [|x l1 IH]; intros [|y l2]; simpl;
    try (split; [discriminate | discriminate]); [tauto|].
  rewrite Type_eqb_refl. simpl. rewrite andb_true_iff, IH, Z.eqb_eq.
  split; [intros [-> ->]; reflexivity | intros H; inversion H; auto].
Qed.

(** X22.  [Test] of [EqualsSlice] returns (does not panic) exactly when
    each operand is nil or a slice and, when neither is nil, the two have
    the same type; it never changes the condition or the world. *)
Theorem EqualsSlice_returns_iff
  (W : Type) (verb_v : value -> string) (v e : value) (w : W) :
  snd (asserting.equalsSlice_Test W verb_v v (asserting.mkequalsSlice e, w))
  = (asserting.mkequalsSlice e, w) /\
  ((exists b, fst (asserting.equalsSlice_Test W verb_v v
                     (asserting.mkequalsSlice e, w)) = Ok b) <->
   not_slice v = false /\ not_slice e = false /\
   (TypeOf v = None \/ TypeOf e = None \/ TypeOf v = TypeOf e)).
Proof.
  unfold asserting.equalsSlice_Test, not_slice, bind, get_this, ret, panic.
  cbn [fst snd asserting.equalsSlice_expected].
  destruct (TypeOf v) as [t1|] eqn:T1, (TypeOf e) as [t2|] eqn:T2.
  - destruct (reflect.Kind_eqb (reflect.tkind t1) reflect.Slice); cbn [negb fst snd].
    + destruct (reflect.Kind_eqb (reflect.tkind t2) reflect.Slice); cbn [negb fst snd].
      * destruct (reflect.Type_eqb t1 t2) eqn:E; cbn [negb fst snd].
        -- apply Type_eqb_eq in E. subst. split; [reflexivity|].
           split; [auto | eauto].
        -- split; [reflexivity|]. split.
           ++ intros [b H]. discriminate.
           ++ intros [_ [_ [H|[H|H]]]]; try discriminate.
              inversion H. subst. rewrite Type_eqb_refl in E. discriminate.
      * split; [reflexivity|]. split.
        -- intros [b H]. discriminate.
        -- intros [_ [H _]]. discriminate.
    + split; [reflexivity|]. split.
      * intros [b H]. discriminate.
      * intros [H _]. discriminate.
  - destruct (reflect.Kind_eqb (reflect.tkind t1) reflect.Slice); cbn [negb fst snd].
    + destruct (negb (Value.Len v =? 0)); cbn [fst snd];
        (split; [reflexivity|]); (split; [auto | eauto]).
    + split; [reflexivity|]. split.
      * intros [b H]. discriminate.
      * intros [H _]. discriminate.
  - destruct (reflect.Kind_eqb (reflect.tkind t2) reflect.Slice); cbn [negb fst snd].
    + destruct (negb (Value.Len e =? 0)); cbn [fst snd];
        (split; [reflexivity|]); (split; [auto | eauto]).
    + split; [reflexivity|]. split.
      * intros [b H]. discriminate.
      * intros [_ [H _]]. discriminate.
  - cbn [fst snd]. split; [reflexivity|]. split; [auto | eauto].
Qed.

(** X23.  The untyped nil and a slice.  With the nil interface as one
    operand of [EqualsSlice] and a slice of any type as the other, in
    either position, [Test] is true exactly when the slice has length
    zero, that is when it is a nil slice or an empty one; nil and nil are
    equal. *)
Theorem EqualsSlice_untyped_nil
  (W : Type) (verb_v : value -> string)
  (tn : string) (s : option (addr * list value)) (w : W) :
  let v := VSlice tn s in
  asserting.equalsSlice_Test W verb_v v (asserting.mkequalsSlice VNil, w)
  = (Ok (Value.Len v =? 0), (asserting.mkequalsSlice VNil, w)) /\
  asserting.equalsSlice_Test W verb_v VNil (asserting.mkequalsSlice v, w)
  = (Ok (Value.Len v =? 0), (asserting.mkequalsSlice v, w)) /\
  asserting.equalsSlice_Test W verb_v VNil (asserting.mkequalsSlice VNil, w)
  = (Ok true, (asserting.mkequalsSlice VNil, w)) /\
  (Value.Len v =? 0) = match s with Some (_, _ :: _) => false | _ => true end.
Proof.
  intros v. subst v.
  unfold asserting.equalsSlice_Test, bind, get_this, ret.
  cbn [fst snd asserting.equalsSlice_expected TypeOf reflect.tkind].
  rewrite Kind_eqb_refl. cbn [negb].
  repeat split.
  - destruct (Value.Len _ =? 0); reflexivity.
  - destruct (Value.Len _ =? 0); reflexivity.
  - destruct s as [[a [|x l]]|]; reflexivity.
Qed.

(** X24.  Every slice is equal to itself for [EqualsSlice], a nil slice
    and a slice that holds a NaN or values that are not comparable
    included: [reflect.DeepEqual] stops at two slices on the same array
    with the same length. *)
Theorem EqualsSlice_reflexive
  (W : Type) (verb_v : value -> string)
  (tn : string) (s : option (addr * list value)) (w : W) :
  asserting.equalsSlice_Test W verb_v (VSlice tn s)
    (asserting.mkequalsSlice (VSlice tn s), w)
  = (Ok true, (asserting.mkequalsSlice (VSlice tn s), w)).
Proof.
  unfold asserting.equalsSlice_Test, bind, get_this, ret.
  cbn [fst snd asserting.equalsSlice_expected TypeOf reflect.tkind].
  rewrite Kind_eqb_refl, Type_eqb_refl. cbn [negb].
  unfold DeepEqual. destruct s as [[a l]|]; simpl;
    rewrite Type_eqb_refl; simpl; [|reflexivity].
  rewrite Nat.eqb_refl, N.eqb_refl. reflexivity.
Qed.

(** X25.  Two slices of integers.  For two non-nil slices of one type whose
    elements are integers of one signed type, [Test] of [EqualsSlice]
    returns, and it returns true exactly when the two have the same
    length and either share their array or hold the same integers in the
    same order. *)
Theorem EqualsSlice_integers
  (W : Type) (verb_v : value -> string)
  (k : intk) (en tn : string) (a b : addr) (l1 l2 : list Z) (w : W) :
  let v := VSlice tn (Some (a, List.map (VInt k en) l1)) in
  let e := VSlice tn (Some (b, List.map (VInt k en) l2)) in
  exists r,
    asserting.equalsSlice_Test W verb_v v (asserting.mkequalsSlice e, w)
    = (Ok r, (asserting.mkequalsSlice e, w)) /\
    (r = true <->
     List.length l1 = List.length l2 /\ (a = b \/ l1 = l2)).
Proof.
  intros v e. subst v e.
  unfold asserting.equalsSlice_Test, bind, get_this, ret.
  cbn [fst snd asserting.equalsSlice_expected TypeOf reflect.tkind].
  rewrite Kind_eqb_refl, Type_eqb_refl. cbn [negb].
  eexists. split; [reflexivity|].
  unfold DeepEqual. simpl. rewrite Type_eqb_refl. simpl.
  rewrite !length_map.
  destruct (Nat.eqb (List.length l1) (List.length l2)) eqn:L; simpl.
  - apply Nat.eqb_eq in L. destruct (N.eqb a b) eqn:A.
    + apply N.eqb_eq in A. tauto.
    + apply N.eqb_neq in A. rewrite deep_elems_ints. tauto.
  - apply Nat.eqb_neq in L. split; [discriminate | tauto].
Qed.

(* ================================================================== *)
(** * The mock of the tests *)
(* ================================================================== *)

Lemma run_reports_failed l m :
  asserting_test.failed m = true -> run_reports l m = (Ok tt, m).
Proof.
  intros F. induction l as [|r l IH]; [reflexivity|].
  simpl. unfold bind.
  destruct r; simpl;
    unfold asserting_test.MockTB_Error, asserting_test.MockTB_Fatal;
    rewrite F; exact IH.
Qed.

Lemma run_reports_spec l : forall m,
  asserting_test.failed m = false ->
  run_reports l m
  = (Ok tt,
     asserting_test.mkMockTB
       (asserting_test.ErrorMessages m ++ errors_before_fatal l)
       (asserting_test.FatalMessages m ++ first_fatal l)
       (match first_fatal l with [] => false | _ => true end)).
Proof.
  induction l as [|r l IH]; intros m F.
  - simpl. rewrite !app_nil_r. destruct m; simpl in *; subst; reflexivity.
  - destruct r as [args|args]; simpl; unfold bind.
    + unfold asserting_test.MockTB_Error at 1. rewrite F.
      rewrite IH by reflexivity. simpl. rewrite <- app_assoc. reflexivity.
    + unfold asserting_test.MockTB_Fatal at 1. rewrite F.
      rewrite run_reports_failed by reflexivity. rewrite app_nil_r.
      reflexivity.
Qed.

(** X26.  The mock records until the first call of [Fatal].  After any
    sequence of calls of [Error] and [Fatal] on a new [MockTB], no call
    having panicked, [ErrorMessages] holds the arguments of the calls of
    [Error] made before the first call of [Fatal], in order, and
    [FatalMessages] the arguments of that first call of [Fatal] alone:
    every later call is dropped, [FatalMessages] has at most one entry, and
    [failed] is set exactly when it has one. *)
Theorem MockTB_records_until_first_Fatal (l : list report) :
  let m := snd (run_reports l asserting_test.new_mock) in
  fst (run_reports l asserting_test.new_mock) = Ok tt /\
  asserting_test.ErrorMessages m = errors_before_fatal l /\
  asserting_test.FatalMessages m = first_fatal l /\
  (List.length (asserting_test.FatalMessages m) <= 1)%nat /\
  (asserting_test.failed m = true <-> asserting_test.FatalMessages m <> []).
Proof.
  intros m. subst m. rewrite run_reports_spec by reflexivity. simpl.
  repeat split.
  - induction l as [|[x|x] l IH]; simpl; auto.
  - destruct (first_fatal l); [discriminate | discriminate].
  - destruct (first_fatal l); [congruence | reflexivity].
Qed.

(* ================================================================== *)
(** * The assertions on panics and on slices, from end to end *)
(* ================================================================== *)

Lemma as_func_not_hasError v f :
  asserting.as_func v = Some f -> asserting.as_hasError v = None.
Proof. destruct v; simpl; try discriminate. reflexivity. Qed.

Lemma equalsSlice_Test_keeps_state W verb_v v e (w : W) :
  snd (asserting.equalsSlice_Test W verb_v v (asserting.mkequalsSlice e, w))
  = (asserting.mkequalsSlice e, w).
Proof.
  unfold asserting.equalsSlice_Test, bind, get_this, ret, panic.
  cbn [fst snd asserting.equalsSlice_expected].
  destruct (TypeOf v) as [t1|], (TypeOf e) as [t2|];
    repeat match goal with
           | |- context [if ?c then _ else _] => destruct c; cbn [fst snd]
           end; reflexivity.
Qed.

(** X27.  [AssertPanic(v, e)] and [AssertPanicMatch(v, p)] on a function
    value, from end to end: two calls of [t.Helper()], one call of the
    function with the capture of its panic (nil when it returns), then
    [eq(e, got)], respectively [p(got)]; on false one call of [t.Error]
    with the message of the condition for the captured value, on true
    nothing more.  A panic of [eq] or of [p] leaves the assertion as a
    panic. *)
Theorem AssertPanic_runs
  (W : Type) (call : addr -> prog W unit) (verb_v : value -> string)
  (t : asserting.TB W) (v e : value) (p : value -> prog W bool)
  (f : option addr) (w : W) :
  asserting.as_func v = Some f ->
  asserting.AssertPanic W call verb_v t v e w
  = (asserting.Helper W t ;; asserting.Helper W t ;;
     got <- recovering (asserting.invoke W call f) ;;
     b <- lift_result (asserting.eq e got) ;;
     if b then ret tt
     else asserting.Error W t
            [GoString (asserting.formatMsg verb_v
                         ("expected to panic with <%v> but <%v>"
                          ++ nilExplain got) e got)])%prog w /\
  asserting.AssertPanicMatch W call verb_v t v p w
  = (asserting.Helper W t ;; asserting.Helper W t ;;
     got <- recovering (asserting.invoke W call f) ;;
     b <- p got ;;
     if b then ret tt
     else asserting.Error W t
            [GoString ("unexpected panic <" ++ fmt.format_v verb_v got ++ ">"
                       ++ nilExplain got)])%prog w.
Proof.
  intros Hf. pose proof (as_func_not_hasError v f Hf) as Hv. split.
  - unfold asserting.AssertPanic, asserting.Assert_new, asserting.Assert, bind,
      world. rewrite Hv. cbn [fst snd].
    destruct (asserting.Helper W t w) as [[[]|q] w1]; [|reflexivity].
    cbn [fst snd].
    destruct (asserting.Helper W t w1) as [[[]|q] w2]; [|reflexivity].
    unfold asserting.check, bind, cond.Test, cond.embedded, asserting.Panics,
      cond.New.
    cbn [fst snd cond.Condition_ cond.userMsg cond.isFatal cond.Condition_Test
         asserting.panics_Condition].
    rewrite (panics_Test_func W call verb_v v f e VNil w2 Hf).
    unfold recovering, lift_result.
    destruct (asserting.invoke W call f w2) as [r w3]. cbn [fst snd].
    replace (match r with Ok _ => (Ok VNil, w3) | Panic p0 => (Ok p0, w3) end)
      with (@Ok value (recovered r), w3) by (destruct r; reflexivity).
    destruct (asserting.eq e (recovered r)) as [[|]|q]; cbn [negb fst snd];
      try reflexivity.
    unfold get_this, cond.Message, cond.message, bind, get_this, world, ret,
      cond.Fatal, cond.fatal, cond.embedded.
    cbn [fst snd cond.Condition_ cond.userMsg cond.isFatal
         cond.Condition_Message asserting.panics_Condition].
    unfold asserting.panics_Message, bind, get_this, ret.
    cbn [fst snd asserting.panics_expected asserting.panics_got].
    fold (nilExplain (recovered r)).
    destruct (asserting.Error W t _ w3) as [r' w4]. reflexivity.
  - unfold asserting.AssertPanicMatch, asserting.Assert_new, asserting.Assert,
      bind, world. rewrite Hv. cbn [fst snd].
    destruct (asserting.Helper W t w) as [[[]|q] w1]; [|reflexivity].
    cbn [fst snd].
    destruct (asserting.Helper W t w1) as [[[]|q] w2]; [|reflexivity].
    unfold asserting.check, bind, cond.Test, cond.embedded,
      asserting.PanicMatches, cond.New.
    cbn [fst snd cond.Condition_ cond.userMsg cond.isFatal cond.Condition_Test
         asserting.panicMatches_Condition].
    rewrite (panicMatches_Test_func W call verb_v v f p VNil w2 Hf).
    unfold recovering.
    destruct (asserting.invoke W call f w2) as [r w3]. cbn [fst snd].
    replace (match r with Ok _ => (Ok VNil, w3) | Panic p0 => (Ok p0, w3) end)
      with (@Ok value (recovered r), w3) by (destruct r; reflexivity).
    destruct (p (recovered r) w3) as [[[|]|q] w4]; cbn [negb fst snd];
      try reflexivity.
    unfold get_this, cond.Message, cond.message, bind, get_this, world, ret,
      cond.Fatal, cond.fatal, cond.embedded.
    cbn [fst snd cond.Condition_ cond.userMsg cond.isFatal
         cond.Condition_Message asserting.panicMatches_Condition].
    unfold asserting.panicMatches_Message, bind, get_this, ret.
    cbn [fst snd asserting.panicMatches_got].
    replace (fmt.Sprintf verb_v
               ("unexpected panic <%v>"
                ++ (if asserting.is_nil (recovered r)
                    then " (didn't panic?)" else "")) [recovered r])
      with ("unexpected panic <" ++ fmt.format_v verb_v (recovered r) ++ ">"
            ++ nilExplain (recovered r))
      by (unfold nilExplain; destruct (asserting.is_nil (recovered r));
          reflexivity).
    destruct (asserting.Error W t _ w4) as [r' w5]. reflexivity.
Qed.

Lemma AssertPanic_runs_witness :
  asserting.as_func (asserting_test.func 1%N) = Some (Some 1%N) /\
  asserting.AssertPanic asserting_test.MockTB asserting_test.test_funcs
    asserting_test.test_verb_v asserting_test.mock (asserting_test.func 1%N)
    (GoInt 2) asserting_test.new_mock
  = (Ok tt,
     asserting_test.mkMockTB
       [[GoString "expected to panic with <2> but <1>"]] [] false) /\
  asserting.AssertPanicMatch asserting_test.MockTB asserting_test.test_funcs
    asserting_test.test_verb_v asserting_test.mock (asserting_test.func 4%N)
    (fun _ => ret false) asserting_test.new_mock
  = (Ok tt,
     asserting_test.mkMockTB
       [[GoString "unexpected panic <<nil>> (didn't panic?)"]] [] false).
Proof.
  split; [reflexivity|]. split.
  - destruct (AssertPanic_runs asserting_test.MockTB asserting_test.test_funcs
                asserting_test.test_verb_v asserting_test.mock
                (asserting_test.func 1%N) (GoInt 2) (fun _ => ret false)
                (Some 1%N) asserting_test.new_mock eq_refl) as [H _].
    rewrite H. reflexivity.
  - destruct (AssertPanic_runs asserting_test.MockTB asserting_test.test_funcs
                asserting_test.test_verb_v asserting_test.mock
                (asserting_test.func 4%N) (GoInt 2) (fun _ => ret false)
                (Some 4%N) asserting_test.new_mock eq_refl) as [_ H].
    rewrite H. reflexivity.
Defined.

(** X28.  [AssertEqualSlice(v, e)], for a subject that is no [hasError] and
    operands on which [Test] of [EqualsSlice] returns: two calls of
    [t.Helper()] and, when the test is false, one call of [t.Error] with
    the message that [formatMsg] makes of [e] and [v]; nothing else. *)
Theorem AssertEqualSlice_reports
  (W : Type) (verb_v : value -> string) (t : asserting.TB W)
  (v e : value) (b : bool) (w : W) :
  asserting.as_hasError v = None ->
  (forall w', fst (asserting.equalsSlice_Test W verb_v v
                     (asserting.mkequalsSlice e, w')) = Ok b) ->
  asserting.AssertEqualSlice W verb_v t v e w
  = (asserting.Helper W t ;; asserting.Helper W t ;;
     if b then ret tt
     else asserting.Error W t
            [GoString (asserting.formatMsg verb_v "expected <%v> but was <%v>"
                         e v)])%prog w.
Proof.
  intros Hv Ht.
  unfold asserting.AssertEqualSlice, asserting.Assert_new, asserting.Assert,
    bind, world. rewrite Hv. cbn [fst snd].
  destruct (asserting.Helper W t w) as [[[]|q] w1]; [|reflexivity].
  cbn [fst snd].
  destruct (asserting.Helper W t w1) as [[[]|q] w2]; [|reflexivity].
  unfold asserting.check, bind, cond.Test, cond.embedded, asserting.EqualsSlice,
    cond.New.
  cbn [fst snd cond.Condition_ cond.userMsg cond.isFatal cond.Condition_Test
       asserting.equalsSlice_Condition].
  pose proof (equalsSlice_Test_keeps_state W verb_v v e w2) as S.
  specialize (Ht w2).
  destruct (asserting.equalsSlice_Test W verb_v v (asserting.mkequalsSlice e, w2))
    as [r s]. cbn [fst snd] in S, Ht |- *. subst s r.
  destruct b; cbn [negb fst snd]; try reflexivity.
  unfold get_this, cond.Message, cond.message, bind, get_this, world, ret,
    cond.Fatal, cond.fatal, cond.embedded.
  cbn [fst snd cond.Condition_ cond.userMsg cond.isFatal
       cond.Condition_Message asserting.equalsSlice_Condition].
  unfold asserting.equalsSlice_Message, bind, get_this, ret.
  cbn [fst snd asserting.equalsSlice_expected].
  destruct (asserting.Error W t _ w2) as [r' w4]. reflexivity.
Qed.

Lemma AssertEqualSlice_reports_witness :
  asserting.as_hasError (asserting_test.ints 5%N [1; 2]) = None /\
  asserting.AssertEqualSlice asserting_test.MockTB asserting_test.test_verb_v
    asserting_test.mock (asserting_test.ints 5%N [1; 2])
    (asserting_test.ints 6%N [1; 3]) asserting_test.new_mock
  = (Ok tt,
     asserting_test.mkMockTB
       [[GoString "expected <[1 3]> but was <[1 2]>"]] [] false).
Proof.
  split; [reflexivity|].
  rewrite (AssertEqualSlice_reports asserting_test.MockTB
             asserting_test.test_verb_v asserting_test.mock
             (asserting_test.ints 5%N [1; 2]) (asserting_test.ints 6%N [1; 3])
             false asserting_test.new_mock eq_refl (fun _ => eq_refl)).
  reflexivity.
Defined.
